(** * FreelanceHub backend: order lifecycle, payment reconciliation,
      rating aggregation and conversations

    A shallow embedding of the request handlers of [routes/orders.js] and
    [routes/payments.js], of the Mongoose models they use ([Order], [User],
    [Gig], [Review], [Notification], [Conversation]) with their schema
    validators, hooks and methods, and of [utils/notifications.js].  Later
    parts add the review route (its assignment to [isReviewed], a path that
    no handler reads, shows as a [save] of the order as loaded), the
    deletion of a gig, the reading of notifications and of one order, and
    the message routes with the [Message] model.

    Conventions of the embedding:
    - a document carries the paths that these handlers read or write;
      paths that they never touch ([customRequirements], [dispute],
      [isReviewed], the timestamps) are left out;
    - a JavaScript [Number] is a binary64 float ([PrimFloat.float]); a
      [Number] path that is absent from a document is represented by NaN,
      which is what every arithmetic or comparison use of [undefined]
      coerces it to, and which a required [Number] path does not accept;
    - a [Date] is its time value in milliseconds; every [new Date()] of one
      request reads the instant [now] given to the handler, and a date
      computed from NaN is Invalid Date, which a [Date] path does not
      accept;
    - a collection is the list of its documents in natural order, so that
      [findOne] returns the first match;
    - a handler is a function from the stores to a response and the new
      stores; every [await] runs to completion before the next statement,
      and a [save] that is not awaited takes effect where it is called,
      while a second [save] of the same document, called before the first
      has finished, is rejected;
    - real-time pushes ([emitToUser]) do not touch the stores and are left
      out;
    - the server of the last part takes the requests of the order and
      payment routes, which are the handlers that assign the paths of an
      order kept here. *)

From Stdlib Require Import ZArith Floats Uint63 List String Bool Lia.
From Stdlib Require Import DecimalString.
From Stdlib Require QArith Qround.
Import ListNotations.
Set Warnings "-inexact-float".

(** ** JavaScript numbers *)

Module JS.
Local Open Scope float_scope.

Definition Number := float.
Bind Scope float_scope with Number.

(** [l.length] as a Number. *)
Definition lengthNumber {A : Type} (l : list A) : Number :=
  PrimFloat.of_uint63 (Uint63.of_Z (Z.of_nat (List.length l))).

(** [Math.round]: NaN, infinities, zeros and integral values are returned
    as they are; any other value [v] goes to [floor (v + 1/2)], computed
    exactly on the binary expansion [±m * 2^e], with [-0] for
    [-0.5 <= v < 0]. *)
Definition Math_round (x : Number) : Number :=
  match Prim2SF x with
  | S754_finite s m e =>
      if (0 <=? e)%Z then x
      else
        let sm := if s then Z.neg m else Z.pos m in
        let n := ((2 * sm + 2 ^ (- e)) / 2 ^ (1 - e))%Z in
        match n with
        | Z0 => if s then neg_zero else zero
        | Z.pos _ => PrimFloat.of_uint63 (Uint63.of_Z n)
        | Z.neg _ => - PrimFloat.of_uint63 (Uint63.of_Z (- n))
        end
  | _ => x
  end.

(** [Math.max] of two arguments: NaN if either is NaN, and [+0] is larger
    than [-0]. *)
Definition Math_max (a b : Number) : Number :=
  if is_nan a || is_nan b then nan
  else if a <? b then b
  else if b <? a then a
  else if get_sign a then b else a.

(** [Number.isFinite]: neither NaN nor an infinity. *)
Definition isFinite (x : Number) : bool :=
  match Prim2SF x with
  | S754_zero _ | S754_finite _ _ _ => true
  | _ => false
  end.

End JS.
Import JS.

Local Open Scope string_scope.
Local Open Scope list_scope.

Definition ObjectId := string.
Definition Date := Z.
Bind Scope Z_scope with Date.

(** The value of a [Date] path: a time value, or the Invalid Date that a
    [Date] computed from NaN is. *)
Inductive DateValue :=
| At (time : Date)
| Invalid_Date.

(** [arr.includes(x)] on an array of strings. *)
Definition includes (x : string) (arr : list string) : bool :=
  existsb (String.eqb x) arr.

(** [obj[key]] on an object literal, [None] for [undefined]. *)
Definition prop {A : Type} (obj : list (string * A)) (key : string) : option A :=
  option_map snd (find (fun kv => fst kv =? key) obj).

(** ** Documents *)

Module Package.
Record t := {
  title : string;
  description : string;
  price : Number;
  deliveryTime : Number;
  revisions : Number;
  features : list string
}.
End Package.

Module Delivery.
Record t := { message : string; files : list string; deliveredAt : Date }.
End Delivery.

Module Revision.
Record t := { message : string; requestedAt : Date }.
End Revision.

Module Cancellation.
Record t := {
  reason : string;
  requestedBy : ObjectId;
  requestedAt : Date;
  approved : bool;
  approvedAt : Date
}.
End Cancellation.

(** models/Order.js (src/unnamed/part_001) *)
Module Order.

Record t := {
  _id : ObjectId;
  buyer : ObjectId;
  seller : ObjectId;
  gig : option ObjectId;
  package : string;
  packageDetails : Package.t;
  totalAmount : Number;
  serviceFee : Number;
  netAmount : Number;
  status : string;
  paymentStatus : string;
  paymentIntentId : option string;
  stripeSessionId : option string;
  deliveryDate : option DateValue;
  completedAt : option Date;
  deliveries : list Delivery.t;
  revisions : list Revision.t;
  cancellation : option Cancellation.t;
  autoCompleteAt : option Date
}.

Definition set_status (v : string) (o : t) : t :=
  {| _id := _id o; buyer := buyer o; seller := seller o; gig := gig o;
     package := package o; packageDetails := packageDetails o;
     totalAmount := totalAmount o; serviceFee := serviceFee o;
     netAmount := netAmount o; status := v; paymentStatus := paymentStatus o;
     paymentIntentId := paymentIntentId o;
     stripeSessionId := stripeSessionId o; deliveryDate := deliveryDate o;
     completedAt := completedAt o; deliveries := deliveries o;
     revisions := revisions o; cancellation := cancellation o;
     autoCompleteAt := autoCompleteAt o |}.
Definition set_paymentStatus (v : string) (o : t) : t :=
  {| _id := _id o; buyer := buyer o; seller := seller o; gig := gig o;
     package := package o; packageDetails := packageDetails o;
     totalAmount := totalAmount o; serviceFee := serviceFee o;
     netAmount := netAmount o; status := status o; paymentStatus := v;
     paymentIntentId := paymentIntentId o;
     stripeSessionId := stripeSessionId o; deliveryDate := deliveryDate o;
     completedAt := completedAt o; deliveries := deliveries o;
     revisions := revisions o; cancellation := cancellation o;
     autoCompleteAt := autoCompleteAt o |}.
Definition set_paymentIntentId (v : option string) (o : t) : t :=
  {| _id := _id o; buyer := buyer o; seller := seller o; gig := gig o;
     package := package o; packageDetails := packageDetails o;
     totalAmount := totalAmount o; serviceFee := serviceFee o;
     netAmount := netAmount o; status := status o;
     paymentStatus := paymentStatus o; paymentIntentId := v;
     stripeSessionId := stripeSessionId o; deliveryDate := deliveryDate o;
     completedAt := completedAt o; deliveries := deliveries o;
     revisions := revisions o; cancellation := cancellation o;
     autoCompleteAt := autoCompleteAt o |}.
Definition set_stripeSessionId (v : option string) (o : t) : t :=
  {| _id := _id o; buyer := buyer o; seller := seller o; gig := gig o;
     package := package o; packageDetails := packageDetails o;
     totalAmount := totalAmount o; serviceFee := serviceFee o;
     netAmount := netAmount o; status := status o;
     paymentStatus := paymentStatus o; paymentIntentId := paymentIntentId o;
     stripeSessionId := v; deliveryDate := deliveryDate o;
     completedAt := completedAt o; deliveries := deliveries o;
     revisions := revisions o; cancellation := cancellation o;
     autoCompleteAt := autoCompleteAt o |}.
Definition set_deliveryDate (v : option DateValue) (o : t) : t :=
  {| _id := _id o; buyer := buyer o; seller := seller o; gig := gig o;
     package := package o; packageDetails := packageDetails o;
     totalAmount := totalAmount o; serviceFee := serviceFee o;
     netAmount := netAmount o; status := status o;
     paymentStatus := paymentStatus o; paymentIntentId := paymentIntentId o;
     stripeSessionId := stripeSessionId o; deliveryDate := v;
     completedAt := completedAt o; deliveries := deliveries o;
     revisions := revisions o; cancellation := cancellation o;
     autoCompleteAt := autoCompleteAt o |}.
Definition set_completedAt (v : option Date) (o : t) : t :=
  {| _id := _id o; buyer := buyer o; seller := seller o; gig := gig o;
     package := package o; packageDetails := packageDetails o;
     totalAmount := totalAmount o; serviceFee := serviceFee o;
     netAmount := netAmount o; status := status o;
     paymentStatus := paymentStatus o; paymentIntentId := paymentIntentId o;
     stripeSessionId := stripeSessionId o; deliveryDate := deliveryDate o;
     completedAt := v; deliveries := deliveries o; revisions := revisions o;
     cancellation := cancellation o; autoCompleteAt := autoCompleteAt o |}.
Definition set_deliveries (v : list Delivery.t) (o : t) : t :=
  {| _id := _id o; buyer := buyer o; seller := seller o; gig := gig o;
     package := package o; packageDetails := packageDetails o;
     totalAmount := totalAmount o; serviceFee := serviceFee o;
     netAmount := netAmount o; status := status o;
     paymentStatus := paymentStatus o; paymentIntentId := paymentIntentId o;
     stripeSessionId := stripeSessionId o; deliveryDate := deliveryDate o;
     completedAt := completedAt o; deliveries := v; revisions := revisions o;
     cancellation := cancellation o; autoCompleteAt := autoCompleteAt o |}.
Definition set_revisions (v : list Revision.t) (o : t) : t :=
  {| _id := _id o; buyer := buyer o; seller := seller o; gig := gig o;
     package := package o; packageDetails := packageDetails o;
     totalAmount := totalAmount o; serviceFee := serviceFee o;
     netAmount := netAmount o; status := status o;
     paymentStatus := paymentStatus o; paymentIntentId := paymentIntentId o;
     stripeSessionId := stripeSessionId o; deliveryDate := deliveryDate o;
     completedAt := completedAt o; deliveries := deliveries o;
     revisions := v; cancellation := cancellation o;
     autoCompleteAt := autoCompleteAt o |}.
Definition set_cancellation (v : option Cancellation.t) (o : t) : t :=
  {| _id := _id o; buyer := buyer o; seller := seller o; gig := gig o;
     package := package o; packageDetails := packageDetails o;
     totalAmount := totalAmount o; serviceFee := serviceFee o;
     netAmount := netAmount o; status := status o;
     paymentStatus := paymentStatus o; paymentIntentId := paymentIntentId o;
     stripeSessionId := stripeSessionId o; deliveryDate := deliveryDate o;
     completedAt := completedAt o; deliveries := deliveries o;
     revisions := revisions o; cancellation := v;
     autoCompleteAt := autoCompleteAt o |}.
Definition set_autoCompleteAt (v : option Date) (o : t) : t :=
  {| _id := _id o; buyer := buyer o; seller := seller o; gig := gig o;
     package := package o; packageDetails := packageDetails o;
     totalAmount := totalAmount o; serviceFee := serviceFee o;
     netAmount := netAmount o; status := status o;
     paymentStatus := paymentStatus o; paymentIntentId := paymentIntentId o;
     stripeSessionId := stripeSessionId o; deliveryDate := deliveryDate o;
     completedAt := completedAt o; deliveries := deliveries o;
     revisions := revisions o; cancellation := cancellation o;
     autoCompleteAt := v |}.

Definition packageEnum : list string := ["basic"; "standard"; "premium"].

Definition statusEnum : list string :=
  ["pending"; "requirements_pending"; "in_progress"; "delivered";
   "revision_requested"; "completed"; "cancelled"; "disputed"].

Definition paymentStatusEnum : list string :=
  ["pending"; "paid"; "refunded"; "failed"].

(** Schema validation run by [save]: the paths that fail a [required] or
    an [enum] validator, and those whose value failed the cast to the type
    of the path: NaN in a [Number] (one of the three required amounts
    here) and Invalid Date in a [Date]. *)
Definition invalidPaths (o : t) : list string :=
  (match gig o with Some _ => [] | None => ["gig"] end)
  ++ (if includes (package o) packageEnum then [] else ["package"])
  ++ (if is_nan (totalAmount o) then ["totalAmount"] else [])
  ++ (if is_nan (serviceFee o) then ["serviceFee"] else [])
  ++ (if is_nan (netAmount o) then ["netAmount"] else [])
  ++ (if includes (status o) statusEnum then [] else ["status"])
  ++ (if includes (paymentStatus o) paymentStatusEnum then [] else ["paymentStatus"])
  ++ (match paymentIntentId o with
      | Some s => if s =? "" then ["paymentIntentId"] else []
      | None => ["paymentIntentId"]
      end)
  ++ (match deliveryDate o with
      | Some Invalid_Date => ["deliveryDate"]
      | _ => []
      end).

End Order.

Module User.
Record t := {
  _id : ObjectId;
  username : string;
  rating : Number;
  totalReviews : Number;
  totalEarnings : Number;
  completedOrders : Number
}.
End User.

Module Gig.
Record Pricing := { basic : Package.t; standard : Package.t; premium : Package.t }.

Record t := {
  _id : ObjectId;
  title : string;
  freelancer : ObjectId;
  pricing : Pricing;
  rating : Number;
  totalReviews : Number;
  totalOrders : Number;
  isActive : bool;
  isPaused : bool
}.
End Gig.

(** models/Review.js (src/unnamed/part_003) *)
Module Review.
Record t := {
  order : ObjectId;
  gig : option ObjectId;
  reviewer : ObjectId;
  reviewee : ObjectId;
  rating : Number
}.
End Review.

(** models/Notification.js (src/src/models/Notification.js, first module) *)
Module Notification.
Record t := {
  recipient : ObjectId;
  sender : option ObjectId;
  type : string;
  title : string;
  message : string;
  orderId : option ObjectId;
  isRead : bool
}.

Definition typeEnum : list string :=
  ["new_order"; "order_delivered"; "order_completed"; "order_cancelled";
   "revision_requested"; "new_message"; "review_received";
   "payment_received"; "gig_approved"; "gig_rejected"; "custom_offer";
   "system"].

Definition invalidPaths (n : t) : list string :=
  (if includes (type n) typeEnum then [] else ["type"])
  ++ (if title n =? "" then ["title"] else [])
  ++ (if message n =? "" then ["message"] else []).
End Notification.

(** ** Collections *)

Section Collection.
Context {Doc : Type}.
Variable id_of : Doc -> ObjectId.

Definition findOne (p : Doc -> bool) (c : list Doc) : option Doc := find p c.

Definition findById (id : ObjectId) (c : list Doc) : option Doc :=
  findOne (fun d => id_of d =? id) c.

(** [updateOne({_id: id}, u)]: the first document with this id is
    rewritten; nothing happens when there is none. *)
Fixpoint updateById (id : ObjectId) (u : Doc -> Doc) (c : list Doc) : list Doc :=
  match c with
  | [] => []
  | d :: c' => if id_of d =? id then u d :: c' else d :: updateById id u c'
  end.

(** [doc.save()] of a document that was loaded from the collection. *)
Definition store (d : Doc) (c : list Doc) : list Doc :=
  updateById (id_of d) (fun _ => d) c.

(** [doc.save()] of a new document. *)
Definition insert (d : Doc) (c : list Doc) : list Doc := c ++ [d].
End Collection.

Record World := {
  orders : list Order.t;
  users : list User.t;
  gigs : list Gig.t;
  reviews : list Review.t;
  notifications : list Notification.t
}.

Definition set_orders (v : list Order.t) (w : World) : World :=
  {| orders := v; users := users w; gigs := gigs w; reviews := reviews w;
     notifications := notifications w |}.
Definition set_users (v : list User.t) (w : World) : World :=
  {| orders := orders w; users := v; gigs := gigs w; reviews := reviews w;
     notifications := notifications w |}.
Definition set_gigs (v : list Gig.t) (w : World) : World :=
  {| orders := orders w; users := users w; gigs := v; reviews := reviews w;
     notifications := notifications w |}.
Definition set_notifications (v : list Notification.t) (w : World) : World :=
  {| orders := orders w; users := users w; gigs := gigs w; reviews := reviews w;
     notifications := v |}.

(** ** Handlers as computations on the stores *)

Inductive Error :=
| ValidationError (model : string) (paths : list string)
| DuplicateKey (model : string)
| StripeError
| TypeError
| ParallelSaveError (model : string)
| JsError (message : string).

(** What a handler sends: [res.status(code).json({message})], the body of
    a [catch] block, which adds the error, the [{sessionId, orderId, url}]
    of a checkout, or the acknowledgement [{received: true}] of the
    webhook. *)
Inductive Response :=
| Json (code : nat) (message : string)
| Failure (message : string) (error : Error)
| Checkout (sessionId : string) (orderId : ObjectId)
| Received.

Inductive Result (A : Type) :=
| Value (a : A)
| Respond (r : Response)
| Raise (e : Error).
Arguments Value {A} a.
Arguments Respond {A} r.
Arguments Raise {A} e.

Definition Async (A : Type) := World -> Result A * World.

Definition ret {A : Type} (a : A) : Async A := fun w => (Value a, w).

Definition bind {A B : Type} (m : Async A) (k : A -> Async B) : Async B :=
  fun w =>
    match m w with
    | (Value a, w') => k a w'
    | (Respond r, w') => (Respond r, w')
    | (Raise e, w') => (Raise e, w')
    end.

Notation "x <- m ;; k" := (bind m (fun x => k))
  (at level 61, m at next level, right associativity).
Notation "m ;;; k" := (bind m (fun _ => k))
  (at level 61, right associativity).

(** [return res.status(...).json(...)] *)
Definition respond {A : Type} (r : Response) : Async A := fun w => (Respond r, w).

Definition throw {A : Type} (e : Error) : Async A := fun w => (Raise e, w).

(** [try { body } catch (error) { res.status(500).json({message, error}) }] *)
Definition try_catch (body : Async Response) (message : string)
  : World -> Response * World :=
  fun w =>
    match body w with
    | (Value r, w') => (r, w')
    | (Respond r, w') => (r, w')
    | (Raise e, w') => (Failure message e, w')
    end.

(** [Promise.all([p, q])]: both computations are started; the result is
    rejected when one of them is. *)
Definition Promise_all2 {A B : Type} (p : Async A) (q : Async B) : Async (A * B) :=
  fun w =>
    let (ra, w1) := p w in
    let (rb, w2) := q w1 in
    match ra, rb with
    | Value a, Value b => (Value (a, b), w2)
    | Raise e, _ => (Raise e, w2)
    | Respond r, _ => (Respond r, w2)
    | _, Raise e => (Raise e, w2)
    | _, Respond r => (Respond r, w2)
    end.

(** *** Model operations *)

Definition Order_findById (id : ObjectId) : Async (option Order.t) :=
  fun w => (Value (findById Order._id id (orders w)), w).

Definition Order_findOne (p : Order.t -> bool) : Async (option Order.t) :=
  fun w => (Value (findOne p (orders w)), w).

(** [order.save()] of a loaded order: validation, then the update. *)
Definition Order_save (o : Order.t) : Async unit :=
  fun w =>
    match Order.invalidPaths o with
    | [] => (Value tt, set_orders (store Order._id o (orders w)) w)
    | ps => (Raise (ValidationError "Order" ps), w)
    end.

(** [order.save()] of an order made by [new Order(...)]. *)
Definition Order_create (o : Order.t) : Async unit :=
  fun w =>
    match Order.invalidPaths o with
    | [] =>
        match findById Order._id (Order._id o) (orders w) with
        | Some _ => (Raise (DuplicateKey "Order"), w)
        | None => (Value tt, set_orders (insert o (orders w)) w)
        end
    | ps => (Raise (ValidationError "Order" ps), w)
    end.

Definition three_days : Z := 3 * 24 * 60 * 60 * 1000.

(** [orderSchema.methods.scheduleAutoComplete] (src/unnamed/part_001), as
    the handlers call it: the promise of its [save] is dropped, so a
    rejection of that [save] does not reach the caller.  The result is the
    document and whether it is [saving]: that [save] has been started and
    goes on while the caller continues. *)
Definition scheduleAutoComplete (now : Date) (this : Order.t)
  : Async (Order.t * bool) :=
  if (Order.status this =? "delivered")
     && (match Order.autoCompleteAt this with Some _ => false | None => true end)
  then
    let this := Order.set_autoCompleteAt (Some (now + three_days)%Z) this in
    fun w => (Value (this, true), snd (Order_save this w))
  else ret (this, false).

(** [order.save()] of a loaded order that may be [saving]: Mongoose rejects
    a [save] of a document whose earlier [save] has not finished with a
    ParallelSaveError, and the earlier one goes on. *)
Definition Order_save_while (saving : bool) (o : Order.t) : Async unit :=
  if saving then throw (ParallelSaveError "Order") else Order_save o.

(** [User.findByIdAndUpdate(id, {$inc: {totalEarnings, completedOrders: 1}})] *)
Definition User_credit (id : ObjectId) (amount : Number) : Async unit :=
  fun w =>
    (Value tt,
     set_users
       (updateById User._id id
          (fun u =>
             {| User._id := User._id u;
                User.username := User.username u;
                User.rating := User.rating u;
                User.totalReviews := User.totalReviews u;
                User.totalEarnings := (User.totalEarnings u + amount)%float;
                User.completedOrders := (User.completedOrders u + 1)%float |})
          (users w)) w).

(** [Gig.findByIdAndUpdate(id, {$inc: {totalOrders: 1}})]; a [null] id
    matches no gig. *)
Definition Gig_countOrder (id : option ObjectId) : Async unit :=
  fun w =>
    match id with
    | None => (Value tt, w)
    | Some id =>
        (Value tt,
         set_gigs
           (updateById Gig._id id
              (fun g =>
                 {| Gig._id := Gig._id g;
                    Gig.title := Gig.title g;
                    Gig.freelancer := Gig.freelancer g;
                    Gig.pricing := Gig.pricing g;
                    Gig.rating := Gig.rating g;
                    Gig.totalReviews := Gig.totalReviews g;
                    Gig.totalOrders := (Gig.totalOrders g + 1)%float;
                    Gig.isActive := Gig.isActive g;
                    Gig.isPaused := Gig.isPaused g |})
              (gigs w)) w)
    end.

(** [createNotification] of utils/notifications.js (src/unnamed/part_000):
    the notification is validated and persisted; the error of a failed
    [save] is rethrown. *)
Definition createNotification (recipient : ObjectId) (sender : option ObjectId)
    (type title message : string) (orderId : ObjectId) : Async Notification.t :=
  let notification :=
    {| Notification.recipient := recipient;
       Notification.sender := sender;
       Notification.type := type;
       Notification.title := title;
       Notification.message := message;
       Notification.orderId := Some orderId;
       Notification.isRead := false |} in
  fun w =>
    match Notification.invalidPaths notification with
    | [] => (Value notification,
             set_notifications (insert notification (notifications w)) w)
    | ps => (Raise (ValidationError "Notification" ps), w)
    end.

(** ** routes/orders.js (src/src/routes/orders.js) *)

Module Orders.

(** The table of the generic status update (PATCH /:id/status). *)
Definition validTransitions : list (string * list string) :=
  [ ("pending", ["requirements_pending"; "in_progress"; "cancelled"]);
    ("requirements_pending", ["in_progress"; "cancelled"]);
    ("in_progress", ["delivered"; "cancelled"]);
    ("delivered", ["completed"]);
    ("revision_requested", ["in_progress"; "delivered"]) ].

(** [validTransitions[current]?.includes(requested)], with [undefined]
    read as false. *)
Definition transitionAllowed (current requested : string) : bool :=
  match prop validTransitions current with
  | Some allowed => includes requested allowed
  | None => false
  end.

(** PATCH /:id/status *)
Definition updateStatus (now : Date) (user : User.t) (id : ObjectId)
    (status : string) : World -> Response * World :=
  try_catch
    (order <- Order_findById id ;;
     match order with
     | None => respond (Json 404 "Order not found")
     | Some order =>
         if negb (Order.seller order =? User._id user)
         then respond (Json 403 "Only seller can update order status")
         else if negb (transitionAllowed (Order.status order) status)
         then respond (Json 400 ("Cannot transition from " ++ Order.status order
                                   ++ " to " ++ status))
         else
           let order := Order.set_status status order in
           scheduled <-
             (if status =? "delivered" then
                scheduleAutoComplete now
                  (Order.set_deliveryDate (Some (At now)) order)
              else if status =? "completed" then
                let order := Order.set_completedAt (Some now) order in
                User_credit (Order.seller order) (Order.netAmount order) ;;;
                Gig_countOrder (Order.gig order) ;;;
                ret (order, false)
              else ret (order, false)) ;;
           let (order, saving) := scheduled in
           Order_save_while saving order ;;;
           createNotification (Order.buyer order) None
             ("order_" ++ status) ("Order " ++ status)
             ("Your order has been " ++ status) (Order._id order) ;;;
           ret (Json 200 "Order status updated successfully")
     end)
    "Error updating order status".

(** POST /:id/deliver *)
Definition deliver (now : Date) (user : User.t) (id : ObjectId)
    (message : string) (files : list string) : World -> Response * World :=
  try_catch
    (order <- Order_findById id ;;
     match order with
     | None => respond (Json 404 "Order not found")
     | Some order =>
         if negb (Order.seller order =? User._id user)
         then respond (Json 403 "Only seller can deliver order")
         else if negb (Order.status order =? "in_progress")
         then respond (Json 400 "Order must be in progress to deliver")
         else
           let order :=
             Order.set_deliveries
               (Order.deliveries order
                  ++ [ {| Delivery.message := message;
                          Delivery.files := files;
                          Delivery.deliveredAt := now |} ]) order in
           let order := Order.set_status "delivered" order in
           let order := Order.set_deliveryDate (Some (At now)) order in
           scheduled <- scheduleAutoComplete now order ;;
           let (order, saving) := scheduled in
           Order_save_while saving order ;;;
           createNotification (Order.buyer order) None
             "order_delivered" "Order Delivered"
             ("Your order has been delivered by " ++ User.username user)
             (Order._id order) ;;;
           ret (Json 200 "Order delivered successfully")
     end)
    "Error delivering order".

(** POST /:id/revision *)
Definition requestRevision (now : Date) (user : User.t) (id : ObjectId)
    (message : string) : World -> Response * World :=
  try_catch
    (order <- Order_findById id ;;
     match order with
     | None => respond (Json 404 "Order not found")
     | Some order =>
         if negb (Order.buyer order =? User._id user)
         then respond (Json 403 "Only buyer can request revision")
         else if negb (Order.status order =? "delivered")
         then respond (Json 400 "Can only request revision for delivered orders")
         else
           let usedRevisions := lengthNumber (Order.revisions order) in
           let availableRevisions := Package.revisions (Order.packageDetails order) in
           if (availableRevisions <=? usedRevisions)%float
           then respond (Json 400 "No more revisions available for this package")
           else
             let order :=
               Order.set_revisions
                 (Order.revisions order
                    ++ [ {| Revision.message := message;
                            Revision.requestedAt := now |} ]) order in
             let order := Order.set_status "revision_requested" order in
             Order_save order ;;;
             createNotification (Order.seller order) None
               "revision_requested" "Revision Requested"
               (User.username user ++ " requested a revision")
               (Order._id order) ;;;
             ret (Json 200 "Revision requested successfully")
     end)
    "Error requesting revision".

(** POST /:id/accept *)
Definition accept (now : Date) (user : User.t) (id : ObjectId)
  : World -> Response * World :=
  try_catch
    (order <- Order_findById id ;;
     match order with
     | None => respond (Json 404 "Order not found")
     | Some order =>
         if negb (Order.buyer order =? User._id user)
         then respond (Json 403 "Only buyer can accept order")
         else if negb (Order.status order =? "delivered")
         then respond (Json 400 "Can only accept delivered orders")
         else
           let order := Order.set_status "completed" order in
           let order := Order.set_completedAt (Some now) order in
           User_credit (Order.seller order) (Order.netAmount order) ;;;
           Gig_countOrder (Order.gig order) ;;;
           Order_save order ;;;
           createNotification (Order.seller order) None
             "order_completed" "Order Completed"
             (User.username user ++ " accepted your delivery")
             (Order._id order) ;;;
           ret (Json 200 "Order accepted successfully")
     end)
    "Error accepting order".

(** POST /:id/cancel *)
Definition cancel (now : Date) (user : User.t) (id : ObjectId)
    (reason : string) : World -> Response * World :=
  try_catch
    (order <- Order_findById id ;;
     match order with
     | None => respond (Json 404 "Order not found")
     | Some order =>
         let isAuthorized :=
           (Order.buyer order =? User._id user)
           || (Order.seller order =? User._id user) in
         if negb isAuthorized
         then respond (Json 403 "Not authorized to cancel this order")
         else if includes (Order.status order) ["completed"; "cancelled"; "disputed"]
         then respond (Json 400 "Cannot cancel order in current status")
         else
           let order := Order.set_status "cancelled" order in
           let order :=
             Order.set_cancellation
               (Some {| Cancellation.reason := reason;
                        Cancellation.requestedBy := User._id user;
                        Cancellation.requestedAt := now;
                        Cancellation.approved := true;
                        Cancellation.approvedAt := now |}) order in
           Order_save order ;;;
           let recipient :=
             if Order.buyer order =? User._id user
             then Order.seller order else Order.buyer order in
           createNotification recipient None
             "order_cancelled" "Order Cancelled"
             ("Order has been cancelled by " ++ User.username user)
             (Order._id order) ;;;
           ret (Json 200 "Order cancelled successfully")
     end)
    "Error cancelling order".

(** The order as [deliver] rewrites it. *)
Definition deliveredOrder (now : Date) (message : string) (files : list string)
    (order : Order.t) : Order.t :=
  let delivered :=
    Order.set_deliveryDate (Some (At now))
      (Order.set_status "delivered"
         (Order.set_deliveries
            (Order.deliveries order
               ++ [ {| Delivery.message := message;
                       Delivery.files := files;
                       Delivery.deliveredAt := now |} ]) order)) in
  match Order.autoCompleteAt order with
  | Some _ => delivered
  | None => Order.set_autoCompleteAt (Some (now + three_days)%Z) delivered
  end.

(** The order as [requestRevision] rewrites it. *)
Definition revisedOrder (now : Date) (message : string) (order : Order.t) : Order.t :=
  Order.set_status "revision_requested"
    (Order.set_revisions
       (Order.revisions order
          ++ [ {| Revision.message := message; Revision.requestedAt := now |} ])
       order).

End Orders.

(** ** routes/payments.js (src/unnamed/part_004) *)

Module Stripe.
Record Session := {
  id : string;
  payment_status : string;
  payment_intent : option string
}.

(** The module-level [stripe] handle: [null] when no secret key is
    configured; otherwise a client whose call either throws ([None]) or
    resolves to a session. *)
Inductive Client :=
| Disabled
| Answers (session : option Session).

Inductive Event :=
| checkout_session_completed (session : Session)
| payment_intent_payment_failed (paymentIntentId : string)
| unhandled (type : string).
End Stripe.

Module Payments.
Local Open Scope float_scope.

(** [stripe.checkout.sessions.create(...)] and [.retrieve(...)] *)
Definition stripe_call (stripe : Stripe.Client) : Async Stripe.Session :=
  match stripe with
  | Stripe.Disabled => throw TypeError
  | Stripe.Answers None => throw StripeError
  | Stripe.Answers (Some session) => ret session
  end.

(** [a || b] on strings that may be [null]. *)
Definition or_else (a : option string) (b : string) : string :=
  match a with
  | Some s => if (s =? "")%string then b else s
  | None => b
  end.

Definition Date_now_string (now : Date) : string :=
  NilZero.string_of_int (Z.to_int now).

(** The fee lines and the [new Order({...})] of POST
    /create-checkout-session; [newId] is the [_id] that the constructor
    generates, and the schema defaults fill the paths that are not given. *)
Definition newCheckoutOrder (now : Date) (newId buyerId sellerId gigId : ObjectId)
    (packageType : string) (packageDetails : Package.t) : Order.t :=
  let subtotal := Package.price packageDetails in
  let serviceFee := Math_max 2 (Math_round (subtotal * 0.05 * 100) / 100) in
  let totalAmount := subtotal + serviceFee in
  let netAmount := subtotal - Math_round (subtotal * 0.2 * 100) / 100 in
  {| Order._id := newId;
     Order.buyer := buyerId;
     Order.seller := sellerId;
     Order.gig := Some gigId;
     Order.package := packageType;
     Order.packageDetails :=
       {| Package.title := Package.title packageDetails;
          Package.description := Package.description packageDetails;
          Package.price := Package.price packageDetails;
          Package.deliveryTime := Package.deliveryTime packageDetails;
          Package.revisions := Package.revisions packageDetails;
          Package.features := Package.features packageDetails |};
     Order.totalAmount := totalAmount;
     Order.serviceFee := serviceFee;
     Order.netAmount := netAmount;
     Order.status := "pending";
     Order.paymentStatus := "pending";
     Order.paymentIntentId := Some ("temp_" ++ Date_now_string now)%string;
     Order.stripeSessionId := None;
     Order.deliveryDate := None;
     Order.completedAt := None;
     Order.deliveries := [];
     Order.revisions := [];
     Order.cancellation := None;
     Order.autoCompleteAt := None |}.

(** [gig.pricing[packageType]] *)
Definition pricingOf (gig : Gig.t) (packageType : string) : option Package.t :=
  prop [ ("basic", Gig.basic (Gig.pricing gig));
         ("standard", Gig.standard (Gig.pricing gig));
         ("premium", Gig.premium (Gig.pricing gig)) ]%string packageType.

(** POST /create-checkout-session *)
Definition createCheckoutSession (now : Date) (newId : ObjectId)
    (stripe : Stripe.Client) (user : User.t) (gigId : ObjectId)
    (packageType : string) : World -> Response * World :=
  try_catch
    (match stripe with
     | Stripe.Disabled =>
         respond (Json 503 "Payment service is currently unavailable. Please contact support.")
     | _ =>
     let buyerId := User._id user in
     fun w =>
     match findById Gig._id gigId (gigs w) with
     | None => respond (Json 404 "Gig not available") w
     | Some gig =>
       if negb (Gig.isActive gig) || Gig.isPaused gig
       then respond (Json 404 "Gig not available") w
       else
       match findById User._id (Gig.freelancer gig) (users w) with
       | None => throw TypeError w
       | Some freelancer =>
         if (User._id freelancer =? buyerId)%string
         then respond (Json 400 "Cannot purchase your own gig") w
         else
         match pricingOf gig packageType with
         | None => respond (Json 400 "Invalid package type") w
         | Some packageDetails =>
           let order :=
             newCheckoutOrder now newId buyerId (User._id freelancer) gigId
               packageType packageDetails in
           (session <- stripe_call stripe ;;
            let order := Order.set_stripeSessionId (Some (Stripe.id session)) order in
            let order :=
              Order.set_paymentIntentId
                (Some (or_else (Stripe.payment_intent session) (Stripe.id session)))
                order in
            Order_create order ;;;
            ret (Checkout (Stripe.id session) (Order._id order))) w
         end
       end
     end
     end)
    "Error creating checkout session".

(** The fee lines and the [new Order({...})] of POST
    /create-custom-offer-payment. *)
Definition newCustomOfferOrder (now : Date) (newId sellerId receiverId : ObjectId)
    (title description : string) (price deliveryTime revisions : Number)
  : Order.t :=
  let serviceFee := Math_max 2 (Math_round (price * 0.05 * 100) / 100) in
  let totalAmount := price + serviceFee in
  let netAmount := price - Math_round (price * 0.2 * 100) / 100 in
  {| Order._id := newId;
     Order.buyer := receiverId;
     Order.seller := sellerId;
     Order.gig := None;
     Order.package := "custom";
     Order.packageDetails :=
       {| Package.title := title;
          Package.description := description;
          Package.price := price;
          Package.deliveryTime := deliveryTime;
          Package.revisions := revisions;
          Package.features := [] |};
     Order.totalAmount := totalAmount;
     Order.serviceFee := serviceFee;
     Order.netAmount := netAmount;
     Order.status := "pending";
     Order.paymentStatus := "pending";
     Order.paymentIntentId := Some ("temp_" ++ Date_now_string now)%string;
     Order.stripeSessionId := None;
     Order.deliveryDate := None;
     Order.completedAt := None;
     Order.deliveries := [];
     Order.revisions := [];
     Order.cancellation := None;
     Order.autoCompleteAt := None |}.

(** POST /create-custom-offer-payment *)
Definition createCustomOfferPayment (now : Date) (newId : ObjectId)
    (stripe : Stripe.Client) (user : User.t) (receiverId : ObjectId)
    (title description : string) (price deliveryTime revisions : Number)
  : World -> Response * World :=
  try_catch
    (let sellerId := User._id user in
     if price <? 5
     then respond (Json 400 "Minimum price is $5")
     else
       let order :=
         newCustomOfferOrder now newId sellerId receiverId title description
           price deliveryTime revisions in
       session <- stripe_call stripe ;;
       let order := Order.set_stripeSessionId (Some (Stripe.id session)) order in
       let order :=
         Order.set_paymentIntentId
           (Some (or_else (Stripe.payment_intent session) (Stripe.id session)))
           order in
       Order_create order ;;;
       ret (Checkout (Stripe.id session) (Order._id order)))
    "Error creating custom offer payment".

(** Selector of [Order.findOne({stripeSessionId: id})]. *)
Definition bySession (id : string) (o : Order.t) : bool :=
  match Order.stripeSessionId o with
  | Some s => (s =? id)%string
  | None => false
  end.

(** Selector of [Order.findOne({paymentIntentId: id})]. *)
Definition byPaymentIntent (id : string) (o : Order.t) : bool :=
  match Order.paymentIntentId o with
  | Some s => (s =? id)%string
  | None => false
  end.

(** [d.setDate(d.getDate() + n)] on a valid date [d]: Invalid Date when
    [n] is NaN or infinite; otherwise the calendar of the server's time
    zone gives the time value, or nothing when the day is beyond the range
    of time values, which again is Invalid Date. *)
Definition setDate (plusDays : Date -> Number -> option Date) (d : Date)
    (n : Number) : DateValue :=
  if is_nan n || is_infinity n then Invalid_Date
  else
    match plusDays d n with
    | Some time => At time
    | None => Invalid_Date
    end.

Section Calendar.
(** The calendar of the server's time zone. *)
Variable plusDays : Date -> Number -> option Date.

(** GET /success/:sessionId *)
Definition success (now : Date) (stripe : Stripe.Client) (sessionId : string)
  : World -> Response * World :=
  try_catch
    (session <- stripe_call stripe ;;
     if negb (Stripe.payment_status session =? "paid")%string
     then respond (Json 400 "Payment not completed")
     else
       order <- Order_findOne (bySession sessionId) ;;
       match order with
       | None => respond (Json 404 "Order not found")
       | Some order =>
           let order := Order.set_paymentStatus "paid" order in
           let order := Order.set_status "requirements_pending" order in
           let order := Order.set_paymentIntentId (Stripe.payment_intent session) order in
           let deliveryDate :=
             setDate plusDays now
               (Package.deliveryTime (Order.packageDetails order)) in
           let order := Order.set_deliveryDate (Some deliveryDate) order in
           Order_save order ;;;
           Promise_all2
             (createNotification (Order.seller order) (Some (Order.buyer order))
                "new_order" "New Order Received"
                ("You have a new order for "
                   ++ Package.title (Order.packageDetails order))
                (Order._id order))
             (createNotification (Order.buyer order) None
                "payment_received" "Payment Successful"
                ("Your payment for "
                   ++ Package.title (Order.packageDetails order)
                   ++ " was successful")
                (Order._id order)) ;;;
           ret (Json 200 "Payment successful")
       end)
    "Error processing successful payment".
End Calendar.

(** POST /webhook; [event] is the result of
    [stripe.webhooks.constructEvent], [None] when it throws. *)
Definition webhook (event : option Stripe.Event) : World -> Response * World :=
  match event with
  | None => fun w => (Json 400 "Webhook Error", w)
  | Some event =>
      fun w =>
        match
          (match event with
           | Stripe.checkout_session_completed session =>
               order <- Order_findOne (bySession (Stripe.id session)) ;;
               match order with
               | Some order =>
                   if negb (Order.paymentStatus order =? "paid")%string then
                     let order := Order.set_paymentStatus "paid" order in
                     let order := Order.set_status "requirements_pending" order in
                     let order :=
                       Order.set_paymentIntentId (Stripe.payment_intent session) order in
                     Order_save order ;;;
                     Promise_all2
                       (createNotification (Order.seller order) (Some (Order.buyer order))
                          "new_order" "New Order Received" "You have a new order"
                          (Order._id order))
                       (createNotification (Order.buyer order) None
                          "payment_received" "Payment Successful"
                          "Your payment was successful" (Order._id order)) ;;;
                     ret tt
                   else ret tt
               | None => ret tt
               end
           | Stripe.payment_intent_payment_failed paymentIntentId =>
               failedOrder <- Order_findOne (byPaymentIntent paymentIntentId) ;;
               match failedOrder with
               | Some failedOrder =>
                   let failedOrder := Order.set_paymentStatus "failed" failedOrder in
                   let failedOrder := Order.set_status "cancelled" failedOrder in
                   Order_save failedOrder ;;;
                   createNotification (Order.buyer failedOrder) None
                     "system" "Payment Failed"
                     "Your payment could not be processed" (Order._id failedOrder) ;;;
                   ret tt
               | None => ret tt
               end
           | Stripe.unhandled _ => ret tt
           end) w
        with
        | (Raise e, w') => (Failure "Webhook handler failed" e, w')
        | (Respond r, w') => (r, w')
        | (Value _, w') => (Received, w')
        end
  end.

(** The event of a completed checkout, as the webhook receives it. *)
Definition completed (session : Stripe.Session) : option Stripe.Event :=
  Some (Stripe.checkout_session_completed session).

(** The order as the webhook rewrites it. *)
Definition paidOrder (session : Stripe.Session) (order : Order.t) : Order.t :=
  Order.set_paymentIntentId (Stripe.payment_intent session)
    (Order.set_status "requirements_pending"
       (Order.set_paymentStatus "paid" order)).

(** The order as the success path rewrites it. *)
Definition paidBySuccess (plusDays : Date -> Number -> option Date)
    (now : Date) (session : Stripe.Session) (order : Order.t) : Order.t :=
  Order.set_deliveryDate
    (Some (setDate plusDays now
             (Package.deliveryTime (Order.packageDetails order))))
    (Order.set_paymentIntentId (Stripe.payment_intent session)
       (Order.set_status "requirements_pending"
          (Order.set_paymentStatus "paid" order))).

End Payments.

(** ** models/Gig.js, models/User.js: rating aggregation
       (src/src/models/Notification.js, second and third module) *)

Module Rating.
Local Open Scope float_scope.

(** [reviews.reduce((sum, review) => sum + review.rating, 0)] *)
Definition totalRating (reviews : list Review.t) : Number :=
  fold_left (fun sum review => sum + Review.rating review) reviews 0.

(** The assignments of [gigSchema.methods.updateRating] to [this], given
    the result of [Review.find({gig: this._id})]. *)
Definition Gig_assign (this : Gig.t) (reviews : list Review.t) : Gig.t :=
  let (rating, totalReviews) :=
    if (0 <? List.length reviews)%nat
    then (totalRating reviews / lengthNumber reviews, lengthNumber reviews)
    else (0, 0) in
  {| Gig._id := Gig._id this;
     Gig.title := Gig.title this;
     Gig.freelancer := Gig.freelancer this;
     Gig.pricing := Gig.pricing this;
     Gig.rating := rating;
     Gig.totalReviews := totalReviews;
     Gig.totalOrders := Gig.totalOrders this;
     Gig.isActive := Gig.isActive this;
     Gig.isPaused := Gig.isPaused this |}.

(** The assignments of [userSchema.methods.updateRating] to [this], given
    the result of [Review.find({reviewee: this._id})]. *)
Definition User_assign (this : User.t) (reviews : list Review.t) : User.t :=
  let (rating, totalReviews) :=
    if (0 <? List.length reviews)%nat
    then (totalRating reviews / lengthNumber reviews, lengthNumber reviews)
    else (0, 0) in
  {| User._id := User._id this;
     User.username := User.username this;
     User.rating := rating;
     User.totalReviews := totalReviews;
     User.totalEarnings := User.totalEarnings this;
     User.completedOrders := User.completedOrders this |}.

(** [rating: {min: 0, max: 5}] of both schemas, checked by [save]. *)
Definition ratingInRange (rating : Number) : bool :=
  (0 <=? rating) && (rating <=? 5).

Definition reviewsOfGig (id : ObjectId) (w : World) : list Review.t :=
  filter (fun r => match Review.gig r with
                   | Some g => (g =? id)%string
                   | None => false
                   end) (reviews w).

Definition reviewsOfUser (id : ObjectId) (w : World) : list Review.t :=
  filter (fun r => (Review.reviewee r =? id)%string) (reviews w).

(** [gig.updateRating()] *)
Definition Gig_updateRating (this : Gig.t) : Async Gig.t :=
  fun w =>
    let this := Gig_assign this (reviewsOfGig (Gig._id this) w) in
    if ratingInRange (Gig.rating this)
    then (Value this, set_gigs (store Gig._id this (gigs w)) w)
    else (Raise (ValidationError "Gig" ["rating"%string]), w).

(** [user.updateRating()] *)
Definition User_updateRating (this : User.t) : Async User.t :=
  fun w =>
    let this := User_assign this (reviewsOfUser (User._id this) w) in
    if ratingInRange (User.rating this)
    then (Value this, set_users (store User._id this (users w)) w)
    else (Raise (ValidationError "User" ["rating"%string]), w).

End Rating.

(** ** models/Conversation.js (src/unnamed/part_002) *)

Module Conversation.

Record t := {
  _id : ObjectId;
  participants : list ObjectId;
  lastMessage : option ObjectId;
  lastActivity : Date;
  unreadCount : list (string * Number)
}.

(** [conversationSchema.pre('save', ...)]: [None] stands for [next()]. *)
Definition pre_save (this : t) : option Error :=
  if negb (List.length (participants this) =? 2)%nat
  then Some (JsError "Conversation must have exactly 2 participants")
  else None.

(** [conversation.save()] on the collection: the hook runs first; then
    the document is inserted, or rewritten when its [_id] is there. *)
Definition save (this : t) (c : list t) : Error + list t :=
  match pre_save this with
  | Some e => inl e
  | None =>
      match findById _id (_id this) c with
      | Some _ => inr (store _id this c)
      | None => inr (insert this c)
      end
  end.

(** The collections that a sequence of [save] calls builds from the empty
    one; a rejected [save] leaves the collection as it is. *)
Fixpoint saves (docs : list t) (c : list t) : list t :=
  match docs with
  | [] => c
  | d :: docs' =>
      match save d c with
      | inl _ => saves docs' c
      | inr c' => saves docs' c'
      end
  end.

End Conversation.

(** ** The words of the specification, for comparison *)

Module Spec.
Local Open Scope float_scope.



(** [max(a, b)] of two numbers. *)
Definition max (a b : Number) : Number := if a <? b then b else a.

(** The rational that a number with the binary expansion [±m / 2^k]
    stands for. *)
Definition valueOf (negative : bool) (m k : positive) : QArith_base.Q :=
  QArith_base.Qmake (if negative then Z.neg m else Z.pos m) (2 ^ k).

(** An integer below 2^63 in magnitude as a number; a zero has the sign
    given. *)
Definition integer (negative : bool) (n : Z) : Number :=
  match n with
  | Z0 => if negative then neg_zero else zero
  | Z.pos _ => of_uint63 (Uint63.of_Z n)
  | Z.neg n => - of_uint63 (Uint63.of_Z (Z.pos n))
  end.

(** The nearest integer to a number [y], a number half-way between two
    integers going up: the integer part of [v + 1/2] for the rational [v]
    that [y] stands for.  A zero result keeps the sign of [y].  Without
    binary digits after the point [y] is an integer, and so are the
    zeros; an infinity or NaN is left as it is. *)
Definition nearest (y : Number) : Number :=
  match Prim2SF y with
  | S754_finite negative m (Z.neg k) =>
      integer negative
        (Qround.Qfloor
           (QArith_base.Qplus (valueOf negative m k) (QArith_base.Qmake 1 2)))
  | _ => y
  end.

(** [round(x, 2)]: to the nearest hundredth. *)
Definition round2 (x : Number) : Number := nearest (x * 100) / 100.

Definition serviceFee (subtotal : Number) : Number :=
  max 2 (round2 (subtotal * 0.05)).

Definition netAmount (subtotal : Number) : Number :=
  subtotal - round2 (subtotal * 0.20).

Definition totalAmount (subtotal : Number) : Number :=
  subtotal + serviceFee subtotal.

(** The arithmetic mean of a list of ratings. *)
Definition mean (ratings : list Number) : Number :=
  fold_left PrimFloat.add ratings 0 / lengthNumber ratings.

(** The notification types that section 4.1 allows for a transition. *)
Definition transitionTypes : list string :=
  ["new_order"; "order_delivered"; "order_completed"; "order_cancelled";
   "revision_requested"; "payment_received"]%string.

End Spec.

(** ** The server: requests and the stores they leave *)

Module Server.
Inductive Request :=
| PatchStatus (user : User.t) (id : ObjectId) (status : string)
| PostDeliver (user : User.t) (id : ObjectId) (message : string)
    (files : list string)
| PostRevision (user : User.t) (id : ObjectId) (message : string)
| PostAccept (user : User.t) (id : ObjectId)
| PostCancel (user : User.t) (id : ObjectId) (reason : string)
| PostCheckoutSession (newId : ObjectId) (stripe : Stripe.Client)
    (user : User.t) (gigId : ObjectId) (packageType : string)
| PostCustomOfferPayment (newId : ObjectId) (stripe : Stripe.Client)
    (user : User.t) (receiverId : ObjectId) (title description : string)
    (price deliveryTime revisions : Number)
| GetSuccess (stripe : Stripe.Client) (sessionId : string)
| PostWebhook (event : option Stripe.Event).

Section Served.
Variable plusDays : Date -> Number -> option Date.

Definition handle (now : Date) (request : Request) : World -> Response * World :=
  match request with
  | PatchStatus user id status => Orders.updateStatus now user id status
  | PostDeliver user id message files => Orders.deliver now user id message files
  | PostRevision user id message => Orders.requestRevision now user id message
  | PostAccept user id => Orders.accept now user id
  | PostCancel user id reason => Orders.cancel now user id reason
  | PostCheckoutSession newId stripe user gigId packageType =>
      Payments.createCheckoutSession now newId stripe user gigId packageType
  | PostCustomOfferPayment newId stripe user receiverId title description
      price deliveryTime revisions =>
      Payments.createCustomOfferPayment now newId stripe user receiverId
        title description price deliveryTime revisions
  | GetSuccess stripe sessionId => Payments.success plusDays now stripe sessionId
  | PostWebhook event => Payments.webhook event
  end.

(** The stores after a sequence of requests, each with its arrival time. *)
Fixpoint serve (requests : list (Date * Request)) (w : World) : World :=
  match requests with
  | [] => w
  | (now, request) :: requests' => serve requests' (snd (handle now request w))
  end.
End Served.

(** What no request changes in a stored order: its identity, its three
    amounts, and its auto-complete deadline once it has one. *)
Definition stable (o o' : Order.t) : Prop :=
  Order._id o' = Order._id o
  /\ Order.totalAmount o' = Order.totalAmount o
  /\ Order.serviceFee o' = Order.serviceFee o
  /\ Order.netAmount o' = Order.netAmount o
  /\ (forall t, Order.autoCompleteAt o = Some t -> Order.autoCompleteAt o' = Some t).

Definition uniqueIds (l : list Order.t) : Prop := NoDup (map Order._id l).

Definition grows (l l' : list Order.t) : Prop :=
  uniqueIds l ->
  uniqueIds l'
  /\ forall id o, findById Order._id id l = Some o ->
       exists o', findById Order._id id l' = Some o' /\ stable o o'.
End Server.

(** ** A sample marketplace

    One gig of a freelancer with a basic package at 150 and one revision,
    a client, and the order that the client's checkout creates. *)

Module Sample.
Local Open Scope float_scope.

Definition basic : Package.t :=
  {| Package.title := "Basic Website";
     Package.description := "Simple responsive website";
     Package.price := 150;
     Package.deliveryTime := 7;
     Package.revisions := 1;
     Package.features := ["Responsive design"%string] |}.

Definition john : User.t :=
  {| User._id := "john_dev";
     User.username := "john_dev";
     User.rating := 0;
     User.totalReviews := 0;
     User.totalEarnings := 25000;
     User.completedOrders := 150 |}.

Definition mike : User.t :=
  {| User._id := "mike_client";
     User.username := "mike_client";
     User.rating := 0;
     User.totalReviews := 0;
     User.totalEarnings := 0;
     User.completedOrders := 0 |}.

(** A second tier, whose service fee needs rounding: 5% of 42.30. *)
Definition standard : Package.t :=
  {| Package.title := "Landing page";
     Package.description := "One page";
     Package.price := 42.3;
     Package.deliveryTime := 3;
     Package.revisions := 2;
     Package.features := [] |}.

(** A tier that the gig does not offer: none of its paths is set. *)
Definition absent : Package.t :=
  {| Package.title := "";
     Package.description := "";
     Package.price := nan;
     Package.deliveryTime := nan;
     Package.revisions := nan;
     Package.features := [] |}.

Definition website : Gig.t :=
  {| Gig._id := "gig_website";
     Gig.title := "I will create a modern responsive website";
     Gig.freelancer := "john_dev";
     Gig.pricing := {| Gig.basic := basic; Gig.standard := standard; Gig.premium := absent |};
     Gig.rating := 0;
     Gig.totalReviews := 0;
     Gig.totalOrders := 12;
     Gig.isActive := true;
     Gig.isPaused := false |}.

Definition session : Stripe.Session :=
  {| Stripe.id := "cs_test_1";
     Stripe.payment_status := "paid";
     Stripe.payment_intent := Some "pi_1"%string |}.

Definition empty : World :=
  {| orders := []; users := [john; mike]; gigs := [website]; reviews := [];
     notifications := [] |}.

(** The stores after mike's checkout of the basic package. *)
Definition afterCheckout : World :=
  snd (Payments.createCheckoutSession 1000%Z "order_1"
         (Stripe.Answers (Some session)) mike "gig_website" "basic" empty).

(** The order of that checkout in a given status. *)
Definition orderIn (status : string) : Order.t :=
  {| Order._id := "order_1";
     Order.buyer := "mike_client";
     Order.seller := "john_dev";
     Order.gig := Some "gig_website"%string;
     Order.package := "basic";
     Order.packageDetails := basic;
     Order.totalAmount := 157.5;
     Order.serviceFee := 7.5;
     Order.netAmount := 120;
     Order.status := status;
     Order.paymentStatus := "paid";
     Order.paymentIntentId := Some "pi_1"%string;
     Order.stripeSessionId := Some "cs_test_1"%string;
     Order.deliveryDate := None;
     Order.completedAt := None;
     Order.deliveries := [];
     Order.revisions := [];
     Order.cancellation := None;
     Order.autoCompleteAt := None |}.

Definition withOrder (order : Order.t) : World :=
  {| orders := [order]; users := [john; mike]; gigs := [website]; reviews := [];
     notifications := [] |}.

(** The delivered order after one revision request by mike and the
    seller's second delivery. *)
Definition redelivered : World :=
  snd (Orders.updateStatus 5000 john "order_1" "delivered"
         (snd (Orders.requestRevision 4000 mike "order_1" "Please change the header"
                 (withOrder (orderIn "delivered"))))).

(** The stores after the webhook has confirmed the payment of that
    checkout. *)
Definition afterWebhook : World :=
  snd (Payments.webhook (Payments.completed session) afterCheckout).

(** The integer part of a finite number. *)
Definition wholeDays (n : Number) : Z :=
  match Prim2SF n with
  | S754_finite negative m e =>
      let k := if (0 <=? e)%Z then (Z.pos m * 2 ^ e)%Z else (Z.pos m / 2 ^ (- e))%Z in
      if negative then (- k)%Z else k
  | _ => 0%Z
  end.

(** The calendar of a server in UTC: every day has 86400000 ms, and a time
    value is at most 8.64e15 ms away from the epoch. *)
Definition utc (d : Date) (n : Number) : option Date :=
  let time := (d + wholeDays n * 86400000)%Z in
  if (Z.abs time <=? 8640000000000000)%Z then Some time else None.

(** The order of the checkout during a revision round, with the deadline
    that its first delivery scheduled. *)
Definition inRevision : Order.t :=
  Order.set_autoCompleteAt (Some 259201000%Z) (orderIn "revision_requested").

(** Requests that follow the checkout: the payment is confirmed, the
    seller starts and delivers, the buyer accepts. *)
Definition later : list (Date * Server.Request) :=
  [ (2000%Z, Server.PostWebhook (Payments.completed session));
    (3000%Z, Server.PatchStatus john "order_1" "in_progress");
    (4000%Z, Server.PostDeliver john "order_1" "Here is the website" []);
    (5000%Z, Server.PostAccept mike "order_1") ].

Definition reviewOf (order : ObjectId) (rating : Number) : Review.t :=
  {| Review.order := order;
     Review.gig := Some "gig_website"%string;
     Review.reviewer := "mike_client";
     Review.reviewee := "john_dev";
     Review.rating := rating |}.

Definition fourReviews : list Review.t :=
  [reviewOf "order_1" 5; reviewOf "order_2" 5; reviewOf "order_3" 4;
   reviewOf "order_4" 2].

Definition conversationOf (participants : list ObjectId) : Conversation.t :=
  {| Conversation._id := "conversation_1";
     Conversation.participants := participants;
     Conversation.lastMessage := None;
     Conversation.lastActivity := 0;
     Conversation.unreadCount := [] |}.

End Sample.

(** ** The orders that the other handlers write *)

Module Outcome.

(** The order as [cancel] rewrites it. *)
Definition cancelledOrder (now : Date) (user : User.t) (reason : string)
    (order : Order.t) : Order.t :=
  Order.set_cancellation
    (Some {| Cancellation.reason := reason;
             Cancellation.requestedBy := User._id user;
             Cancellation.requestedAt := now;
             Cancellation.approved := true;
             Cancellation.approvedAt := now |})
    (Order.set_status "cancelled" order).

(** The order as [accept] and the generic update to [completed] rewrite
    it. *)
Definition completedOrder (now : Date) (order : Order.t) : Order.t :=
  Order.set_completedAt (Some now) (Order.set_status "completed" order).

(** The order as the webhook rewrites it after a failed payment. *)
Definition failedOrder (order : Order.t) : Order.t :=
  Order.set_status "cancelled" (Order.set_paymentStatus "failed" order).

(** The order that a gig checkout stores once Stripe has answered. *)
Definition checkoutOrder (now : Date) (newId buyerId sellerId gigId : ObjectId)
    (packageType : string) (packageDetails : Package.t)
    (session : Stripe.Session) : Order.t :=
  Order.set_paymentIntentId
    (Some (Payments.or_else (Stripe.payment_intent session) (Stripe.id session)))
    (Order.set_stripeSessionId (Some (Stripe.id session))
       (Payments.newCheckoutOrder now newId buyerId sellerId gigId packageType
          packageDetails)).

(** The paths that say whose an order is and what was bought. *)
Definition parties (o : Order.t)
  : ObjectId * ObjectId * ObjectId * option ObjectId * string :=
  (Order._id o, Order.buyer o, Order.seller o, Order.gig o, Order.package o).

(** The statuses in which the order routes leave an order alone. *)
Definition terminal : list string := ["completed"; "cancelled"; "disputed"].

End Outcome.

(** ** What holds of every stored order *)

Module Invariant.

(** Nobody has bought from themselves. *)
Definition distinctParties (o : Order.t) : Prop := Order.buyer o <> Order.seller o.

(** The order passes the validators of its schema. *)
Definition valid (o : Order.t) : Prop := Order.invalidPaths o = [].

(** [l'] holds the orders of [l] in the same places and with the same
    parties, and possibly more orders after them. *)
Definition extends (l l' : list Order.t) : Prop :=
  exists added, map Outcome.parties l' = map Outcome.parties l ++ added.

End Invariant.

(** ** routes/reviews.js (src/src/routes/reviews.js) *)

Module Reviews.
Local Open Scope float_scope.

(** The [categories] of the request body; a rating that is not given is
    NaN. *)
Record Categories := {
  communication : Number;
  serviceAsDescribed : Number;
  buyAgain : Number
}.

(** [min: 1, max: 5] of models/Review.js *)
Definition inRange (x : Number) : bool := (1 <=? x) && (x <=? 5).

(** The same validators on a path that is not required: they are skipped
    when the path has no value. *)
Definition inRangeIfGiven (x : Number) : bool := is_nan x || inRange x.

(** Schema validation of a new review by [save]: the paths that fail.
    [comment] and [categories] are the paths of the document that
    [Review.t] does not keep. *)
Definition invalidPaths (review : Review.t) (comment : string)
    (categories : Categories) : list string :=
  (match Review.gig review with Some _ => [] | None => ["gig"%string] end)
  ++ (if inRange (Review.rating review) then [] else ["rating"%string])
  ++ (if (comment =? "")%string || (1000 <? String.length comment)%nat
      then ["comment"%string] else [])
  ++ (if inRangeIfGiven (communication categories)
      then [] else ["categories.communication"%string])
  ++ (if inRangeIfGiven (serviceAsDescribed categories)
      then [] else ["categories.serviceAsDescribed"%string])
  ++ (if inRangeIfGiven (buyAgain categories)
      then [] else ["categories.buyAgain"%string]).

Definition set_reviews (v : list Review.t) (w : World) : World :=
  {| orders := orders w; users := users w; gigs := gigs w; reviews := v;
     notifications := notifications w |}.

(** Selector of [Review.findOne({order, reviewer})], which is also the key
    of the unique index of the collection. *)
Definition byOrderAndReviewer (order reviewer : ObjectId) (r : Review.t) : bool :=
  ((Review.order r =? order) && (Review.reviewer r =? reviewer))%string.

Definition Review_findOne (p : Review.t -> bool) : Async (option Review.t) :=
  fun w => (Value (findOne p (reviews w)), w).

(** [review.save()] of a review made by [new Review(...)]: validation,
    then the insertion, which the unique index on [(order, reviewer)] can
    refuse. *)
Definition Review_create (review : Review.t) (comment : string)
    (categories : Categories) : Async unit :=
  fun w =>
    match invalidPaths review comment categories with
    | [] =>
        match findOne (byOrderAndReviewer (Review.order review)
                         (Review.reviewer review)) (reviews w) with
        | Some _ => (Raise (DuplicateKey "Review"), w)
        | None => (Value tt, set_reviews (insert review (reviews w)) w)
        end
    | ps => (Raise (ValidationError "Review" ps), w)
    end.

(** [Gig.findById(order.gig)]; a [null] id finds nothing. *)
Definition Gig_findById (id : option ObjectId) : Async (option Gig.t) :=
  fun w =>
    (Value (match id with
            | Some id => findById Gig._id id (gigs w)
            | None => None
            end), w).

Definition User_findById (id : ObjectId) : Async (option User.t) :=
  fun w => (Value (findById User._id id (users w)), w).

(** [[gig.updateRating(), user.updateRating()]] under [Promise.all]: the
    array is built from left to right, so a [null] gig throws before the
    user's update starts, and a [null] user throws once the gig's update
    has started. *)
Definition updateRatings (gig : option Gig.t) (user : option User.t)
  : Async unit :=
  match gig, user with
  | None, _ => throw TypeError
  | Some gig, None =>
      fun w => (Raise TypeError, snd (Rating.Gig_updateRating gig w))
  | Some gig, Some user =>
      Promise_all2 (Rating.Gig_updateRating gig) (Rating.User_updateRating user) ;;;
      ret tt
  end.

Section Template.
(** The rendering of a Number in a template literal. *)
Variable ToString : Number -> string.

(** POST / *)
Definition createReview (user : User.t) (orderId : ObjectId) (rating : Number)
    (comment : string) (categories : Categories) : World -> Response * World :=
  try_catch
    (let reviewerId := User._id user in
     order <- Order_findById orderId ;;
     match order with
     | None => respond (Json 404 "Order not found")
     | Some order =>
         if negb (Order.status order =? "completed")%string
         then respond (Json 400 "Can only review completed orders")
         else
           let isBuyer := (Order.buyer order =? reviewerId)%string in
           let isSeller := (Order.seller order =? reviewerId)%string in
           if negb isBuyer && negb isSeller
           then respond (Json 403 "Not authorized to review this order")
           else
             existingReview <-
               Review_findOne (byOrderAndReviewer orderId reviewerId) ;;
             match existingReview with
             | Some _ => respond (Json 400 "You have already reviewed this order")
             | None =>
                 let revieweeId :=
                   if isBuyer then Order.seller order else Order.buyer order in
                 let review :=
                   {| Review.order := orderId;
                      Review.gig := Order.gig order;
                      Review.reviewer := reviewerId;
                      Review.reviewee := revieweeId;
                      Review.rating := rating |} in
                 Review_create review comment categories ;;;
                 (* order.isReviewed.buyer (or .seller) = true *)
                 Order_save order ;;;
                 gig <- Gig_findById (Order.gig order) ;;
                 user <- User_findById revieweeId ;;
                 updateRatings gig user ;;;
                 createNotification revieweeId (Some reviewerId)
                   "review_received" "New Review Received"
                   ("You received a " ++ ToString rating ++ "-star review")
                   orderId ;;;
                 ret (Json 201 "Review created successfully")
             end
     end)
    "Error creating review".
End Template.

(** The review that [createReview] stores. *)
Definition newReview (user : User.t) (order : Order.t) (rating : Number)
  : Review.t :=
  {| Review.order := Order._id order;
     Review.gig := Order.gig order;
     Review.reviewer := User._id user;
     Review.reviewee :=
       if (Order.buyer order =? User._id user)%string
       then Order.seller order else Order.buyer order;
     Review.rating := rating |}.

(** The key of the unique index of the reviews. *)
Definition key (r : Review.t) : ObjectId * ObjectId :=
  (Review.order r, Review.reviewer r).

End Reviews.

(** ** routes/gigs.js (src/unnamed/part_004, second module) *)

Module Gigs.

(** [Gig.findByIdAndDelete(id)]: the first gig with this id is removed. *)
Fixpoint Gig_findByIdAndDelete (id : ObjectId) (c : list Gig.t) : list Gig.t :=
  match c with
  | [] => []
  | g :: c' => if Gig._id g =? id then c' else g :: Gig_findByIdAndDelete id c'
  end.

(** DELETE /:id, for a request that has passed the two middlewares. *)
Definition deleteGig (user : User.t) (id : ObjectId) : World -> Response * World :=
  try_catch
    (fun w =>
       match findById Gig._id id (gigs w) with
       | None => respond (Json 404 "Gig not found") w
       | Some gig =>
           if negb (Gig.freelancer gig =? User._id user)
           then respond (Json 403 "Not authorized to delete this gig") w
           else
             (Value (Json 200 "Gig deleted successfully"),
              set_gigs (Gig_findByIdAndDelete id (gigs w)) w)
       end)
    "Error deleting gig".

End Gigs.

(** ** Updates by query *)

Section FindOneAndUpdate.
Context {Doc : Type}.

(** [Model.findOneAndUpdate(query, update, {new: true})]: the first match
    is rewritten and returned as it is after the update; [None] stands
    for [null]. *)
Fixpoint findOneAndUpdate (p : Doc -> bool) (u : Doc -> Doc) (c : list Doc)
  : option Doc * list Doc :=
  match c with
  | [] => (None, [])
  | d :: c' =>
      if p d then (Some (u d), u d :: c')
      else let (found, c'') := findOneAndUpdate p u c' in (found, d :: c'')
  end.

(** [Model.updateMany(query, update)] *)
Definition updateMany (p : Doc -> bool) (u : Doc -> Doc) (c : list Doc) : list Doc :=
  map (fun d => if p d then u d else d) c.
End FindOneAndUpdate.

(** ** utils/notifications.js: reading notifications (src/unnamed/part_000),
       and the socket event that marks one read
       (src/src/socket/socketHandler.js) *)

Module Inbox.

(** A stored notification: the document that [createNotification] saves,
    with the [_id] that it got and the [readAt] path, which only the
    operations below look at. *)
Record t := {
  _id : ObjectId;
  notification : Notification.t;
  readAt : option Date
}.

(** The update [{isRead: true, readAt: new Date()}]. *)
Definition read (now : Date) (n : t) : t :=
  {| _id := _id n;
     notification :=
       {| Notification.recipient := Notification.recipient (notification n);
          Notification.sender := Notification.sender (notification n);
          Notification.type := Notification.type (notification n);
          Notification.title := Notification.title (notification n);
          Notification.message := Notification.message (notification n);
          Notification.orderId := Notification.orderId (notification n);
          Notification.isRead := true |};
     readAt := Some now |}.

(** The query [{_id: notificationId, recipient: userId}]. *)
Definition ofRecipient (notificationId userId : ObjectId) (n : t) : bool :=
  (_id n =? notificationId)
  && (Notification.recipient (notification n) =? userId).

(** [markNotificationAsRead]: the notification after the update, or [None]
    for [null]. *)
Definition markNotificationAsRead (now : Date) (notificationId userId : ObjectId)
    (c : list t) : option t * list t :=
  findOneAndUpdate (ofRecipient notificationId userId) (read now) c.

(** The query [{recipient: userId, isRead: false}]. *)
Definition unread (userId : ObjectId) (c : list t) : list t :=
  filter (fun n => (Notification.recipient (notification n) =? userId)
                   && negb (Notification.isRead (notification n))) c.

(** [getUnreadNotificationCount] *)
Definition getUnreadNotificationCount (userId : ObjectId) (c : list t) : Number :=
  lengthNumber (unread userId c).

(** [socket.on('mark_notification_read', ...)]:
    [Notification.findByIdAndUpdate(notificationId, {isRead: true, readAt})]. *)
Definition mark_notification_read (now : Date) (notificationId : ObjectId)
    (c : list t) : list t :=
  snd (findOneAndUpdate (fun n => _id n =? notificationId) (read now) c).

End Inbox.

(** ** models/Message.js (src/unnamed/part_001, first module) *)

Module Message.

(** [offerStatus] is the path [customOffer.status]; [customOffer] is a
    nested path, so it is there on every message, with the default
    status.  The attachments and the descriptive paths of an offer have no
    validator and no handler reads them. *)
Record t := {
  _id : ObjectId;
  conversation : ObjectId;
  sender : ObjectId;
  receiver : option ObjectId;
  content : string;
  messageType : string;
  offerStatus : string;
  isRead : bool;
  readAt : option Date;
  isDeleted : bool
}.

Definition messageTypeEnum : list string :=
  ["text"; "file"; "image"; "order_update"; "custom_offer"].

Definition offerStatusEnum : list string :=
  ["pending"; "accepted"; "declined"; "expired"].

(** Schema validation run by [save]: the paths that fail. *)
Definition invalidPaths (m : t) : list string :=
  (match receiver m with Some _ => [] | None => ["receiver"] end)
  ++ (if (content m =? "") || (2000 <? String.length (content m))%nat
      then ["content"] else [])
  ++ (if includes (messageType m) messageTypeEnum then [] else ["messageType"])
  ++ (if includes (offerStatus m) offerStatusEnum
      then [] else ["customOffer.status"]).

(** The update [{isRead: true, readAt: new Date()}]. *)
Definition read (now : Date) (m : t) : t :=
  {| _id := _id m; conversation := conversation m; sender := sender m;
     receiver := receiver m; content := content m;
     messageType := messageType m; offerStatus := offerStatus m;
     isRead := true; readAt := Some now; isDeleted := isDeleted m |}.

Definition set_offerStatus (v : string) (m : t) : t :=
  {| _id := _id m; conversation := conversation m; sender := sender m;
     receiver := receiver m; content := content m;
     messageType := messageType m; offerStatus := v;
     isRead := isRead m; readAt := readAt m; isDeleted := isDeleted m |}.

(** [message.receiver] is the user [userId]. *)
Definition isFor (userId : ObjectId) (m : t) : bool :=
  match receiver m with
  | Some r => r =? userId
  | None => false
  end.

End Message.

(** ** routes/messages.js (src/src/routes/messages.js) *)

Module Messages.
Local Open Scope float_scope.

Record Chat := {
  conversations : list Conversation.t;
  messages : list Message.t
}.

(** What a handler of this router sends: a status with a message, the
    body of a [catch] block, a conversation ([None] for [null]), the
    message that was sent, the page of messages of a thread, or a count. *)
Inductive Reply :=
| Status (code : nat) (message : string)
| Failed (message : string) (error : Error)
| TheConversation (conversation : option Conversation.t)
| Sent (message : Message.t)
| Page
| Count (unreadCount : Number).

(** [map.get(key)] on a Mongoose map *)
Definition Map_get (key : string) (m : list (string * Number)) : option Number :=
  prop m key.

(** [map.set(key, value)] *)
Fixpoint Map_set (key : string) (value : Number) (m : list (string * Number))
  : list (string * Number) :=
  match m with
  | [] => [(key, value)]
  | (k, v) :: m' =>
      if (k =? key)%string then (k, value) :: m'
      else (k, v) :: Map_set key value m'
  end.

(** [v || 0] on a Number that may be [undefined]. *)
Definition or_zero (v : option Number) : Number :=
  match v with
  | Some x => if is_nan x || PrimFloat.is_zero x then 0 else x
  | None => 0
  end.

Definition set_unreadCount (v : list (string * Number)) (c : Conversation.t)
  : Conversation.t :=
  {| Conversation._id := Conversation._id c;
     Conversation.participants := Conversation.participants c;
     Conversation.lastMessage := Conversation.lastMessage c;
     Conversation.lastActivity := Conversation.lastActivity c;
     Conversation.unreadCount := v |}.

(** [getIO()] of socket/socketHandler.js, for the state of its [io]. *)
Definition getIO (io : bool) : option Error :=
  if io then None else Some (JsError "Socket.IO not initialized").

(** The query [{participants: {$all: [a, b]}}]. *)
Definition between (a b : ObjectId) (c : Conversation.t) : bool :=
  includes a (Conversation.participants c)
  && includes b (Conversation.participants c).

(** POST /conversations; [newId] is the [_id] of a conversation that
    [new Conversation(...)] makes. *)
Definition createConversation (now : Date) (newId : ObjectId) (user : User.t)
    (participantId : ObjectId) (chat : Chat) : Reply * Chat :=
  let userId := User._id user in
  if (userId =? participantId)%string
  then (Status 400 "Cannot create conversation with yourself", chat)
  else
    match findOne (between userId participantId) (conversations chat) with
    | Some conversation => (TheConversation (Some conversation), chat)
    | None =>
        let conversation :=
          {| Conversation._id := newId;
             Conversation.participants := [userId; participantId];
             Conversation.lastMessage := None;
             Conversation.lastActivity := now;
             Conversation.unreadCount := [] |} in
        match Conversation.save conversation (conversations chat) with
        | inl e => (Failed "Error creating conversation" e, chat)
        | inr saved =>
            (TheConversation (findById Conversation._id newId saved),
             {| conversations := saved; messages := messages chat |})
        end
    end.

(** The query [{conversation, receiver: userId, isRead: false}]. *)
Definition unreadIn (conversationId userId : ObjectId) (m : Message.t) : bool :=
  (Message.conversation m =? conversationId)%string
  && Message.isFor userId m
  && negb (Message.isRead m).

(** GET /conversations/:id/messages, for paging parameters that the query
    accepts: the page is read, then the messages of the thread to the
    caller are marked read and the caller's counter is reset. *)
Definition getMessages (now : Date) (user : User.t) (conversationId : ObjectId)
    (chat : Chat) : Reply * Chat :=
  let userId := User._id user in
  match findById Conversation._id conversationId (conversations chat) with
  | None => (Status 403 "Not authorized to view this conversation", chat)
  | Some conversation =>
      if negb (includes userId (Conversation.participants conversation))
      then (Status 403 "Not authorized to view this conversation", chat)
      else
        let marked :=
          updateMany (unreadIn conversationId userId) (Message.read now)
            (messages chat) in
        let conversation :=
          set_unreadCount
            (Map_set userId 0 (Conversation.unreadCount conversation))
            conversation in
        match Conversation.save conversation (conversations chat) with
        | inl e =>
            (Failed "Error fetching messages" e,
             {| conversations := conversations chat; messages := marked |})
        | inr saved => (Page, {| conversations := saved; messages := marked |})
        end
  end.

(** [new Message({...})] of POST /conversations/:id/messages, with the
    defaults of the handler and of the schema; [messageType] and
    [offerStatus] are [None] when the body does not give them, and
    [newId] is the [_id] that the constructor makes. *)
Definition newMessage (newId conversationId senderId : ObjectId)
    (receiverId : option ObjectId) (content : string)
    (messageType offerStatus : option string) : Message.t :=
  {| Message._id := newId;
     Message.conversation := conversationId;
     Message.sender := senderId;
     Message.receiver := receiverId;
     Message.content := content;
     Message.messageType :=
       match messageType with Some t => t | None => "text"%string end;
     Message.offerStatus :=
       match offerStatus with Some s => s | None => "pending"%string end;
     Message.isRead := false;
     Message.readAt := None;
     Message.isDeleted := false |}.

(** POST /conversations/:id/messages *)
Definition sendMessage (now : Date) (newId : ObjectId) (io : bool)
    (user : User.t) (conversationId : ObjectId) (content : string)
    (messageType offerStatus : option string) (chat : Chat) : Reply * Chat :=
  let senderId := User._id user in
  match findById Conversation._id conversationId (conversations chat) with
  | None => (Status 403 "Not authorized to send message to this conversation", chat)
  | Some conversation =>
      if negb (includes senderId (Conversation.participants conversation))
      then (Status 403 "Not authorized to send message to this conversation", chat)
      else
        let receiverId :=
          find (fun p => negb (p =? senderId)%string)
            (Conversation.participants conversation) in
        let message :=
          newMessage newId conversationId senderId receiverId content
            messageType offerStatus in
        match Message.invalidPaths message, receiverId with
        | [], Some receiverId =>
            let chat :=
              {| conversations := conversations chat;
                 messages := insert message (messages chat) |} in
            let currentUnread :=
              or_zero (Map_get receiverId (Conversation.unreadCount conversation)) in
            let conversation :=
              {| Conversation._id := Conversation._id conversation;
                 Conversation.participants := Conversation.participants conversation;
                 Conversation.lastMessage := Some newId;
                 Conversation.lastActivity := now;
                 Conversation.unreadCount :=
                   Map_set receiverId (currentUnread + 1)
                     (Conversation.unreadCount conversation) |} in
            match Conversation.save conversation (conversations chat) with
            | inl e => (Failed "Error sending message" e, chat)
            | inr saved =>
                let chat := {| conversations := saved; messages := messages chat |} in
                match getIO io with
                | Some e => (Failed "Error sending message" e, chat)
                | None => (Sent message, chat)
                end
            end
        | [], None => (Failed "Error sending message" TypeError, chat)
        | ps, _ => (Failed "Error sending message" (ValidationError "Message" ps), chat)
        end
  end.

(** The query [{_id: messageId, receiver: userId, isRead: false}]. *)
Definition unreadMessage (messageId userId : ObjectId) (m : Message.t) : bool :=
  (Message._id m =? messageId)%string
  && Message.isFor userId m
  && negb (Message.isRead m).

(** PATCH /messages/:id/read *)
Definition markRead (now : Date) (io : bool) (user : User.t)
    (messageId : ObjectId) (chat : Chat) : Reply * Chat :=
  let userId := User._id user in
  match findOneAndUpdate (unreadMessage messageId userId) (Message.read now)
          (messages chat) with
  | (None, _) => (Status 404 "Message not found or already read", chat)
  | (Some message, marked) =>
      let chat := {| conversations := conversations chat; messages := marked |} in
      match findById Conversation._id (Message.conversation message)
              (conversations chat) with
      | None => (Failed "Error marking message as read" TypeError, chat)
      | Some conversation =>
          let currentUnread :=
            or_zero (Map_get userId (Conversation.unreadCount conversation)) in
          let conversation :=
            set_unreadCount
              (Map_set userId (Math_max 0 (currentUnread - 1))
                 (Conversation.unreadCount conversation))
              conversation in
          match Conversation.save conversation (conversations chat) with
          | inl e => (Failed "Error marking message as read" e, chat)
          | inr saved =>
              let chat := {| conversations := saved; messages := messages chat |} in
              match getIO io with
              | Some e => (Failed "Error marking message as read" e, chat)
              | None => (Status 200 "Message marked as read", chat)
              end
          end
      end
  end.

(** [message.save()] of a loaded message: validation, then the update. *)
Definition Message_save (m : Message.t) (c : list Message.t)
  : Error + list Message.t :=
  match Message.invalidPaths m with
  | [] => inr (store Message._id m c)
  | ps => inl (ValidationError "Message" ps)
  end.

(** POST /messages/:id/accept-offer *)
Definition acceptOffer (user : User.t) (messageId : ObjectId) (chat : Chat)
  : Reply * Chat :=
  match findById Message._id messageId (messages chat) with
  | None => (Status 403 "Not authorized", chat)
  | Some message =>
      if negb (Message.isFor (User._id user) message)
      then (Status 403 "Not authorized", chat)
      else if negb (Message.messageType message =? "custom_offer")%string
      then (Status 400 "Not a custom offer message", chat)
      else if negb (Message.offerStatus message =? "pending")%string
      then (Status 400 "Offer is no longer available", chat)
      else
        match Message_save (Message.set_offerStatus "accepted" message)
                (messages chat) with
        | inl e => (Failed "Error accepting offer" e, chat)
        | inr saved =>
            (Status 200 "Offer accepted",
             {| conversations := conversations chat; messages := saved |})
        end
  end.

(** GET /unread-count *)
Definition unreadCount (user : User.t) (chat : Chat) : Reply * Chat :=
  let userId := User._id user in
  (Count
     (fold_left
        (fun total conv =>
           total + or_zero (Map_get userId (Conversation.unreadCount conv)))
        (filter (fun conv => includes userId (Conversation.participants conv))
           (conversations chat))
        0),
   chat).

End Messages.

(** ** routes/orders.js: reading one order *)

Module OrderView.

(** What GET /:id sends: the order, or an error. *)
Inductive Shown :=
| TheOrder (order : Order.t)
| Refused (response : Response).

(** GET /:id.  [buyer] and [seller] are populated before the check, so
    each is [null] when its user document is gone; the seller is looked
    at only when the caller is not the buyer. *)
Definition getOrder (user : User.t) (id : ObjectId) (w : World) : Shown :=
  match findById Order._id id (orders w) with
  | None => Refused (Json 404 "Order not found")
  | Some order =>
      match findById User._id (Order.buyer order) (users w) with
      | None => Refused (Failure "Error fetching order" TypeError)
      | Some buyer =>
          if User._id buyer =? User._id user then TheOrder order
          else
            match findById User._id (Order.seller order) (users w) with
            | None => Refused (Failure "Error fetching order" TypeError)
            | Some seller =>
                if User._id seller =? User._id user then TheOrder order
                else Refused (Json 403 "Not authorized to view this order")
            end
      end
  end.

End OrderView.

(** ** Further samples: an inbox and a conversation of the two users *)

Module Scenario.
Local Open Scope float_scope.

Definition notice (id recipient : ObjectId) (isRead : bool) : Inbox.t :=
  {| Inbox._id := id;
     Inbox.notification :=
       {| Notification.recipient := recipient;
          Notification.sender := None;
          Notification.type := "order_delivered";
          Notification.title := "Order Delivered";
          Notification.message := "Your order has been delivered by john_dev";
          Notification.orderId := Some "order_1"%string;
          Notification.isRead := isRead |};
     Inbox.readAt := None |}.

Definition inbox : list Inbox.t :=
  [notice "notification_1" "mike_client" false;
   notice "notification_2" "john_dev" false;
   notice "notification_3" "mike_client" true].

(** A rendering of Numbers that suits a rating of five. *)
Definition five (rating : Number) : string := "5".

Definition praise : Reviews.Categories :=
  {| Reviews.communication := 5;
     Reviews.serviceAsDescribed := 5;
     Reviews.buyAgain := 5 |}.

(** The conversation of john and mike, with [unread] messages waiting for
    mike. *)
Definition thread (unread : Number) : Conversation.t :=
  {| Conversation._id := "conversation_1";
     Conversation.participants := ["john_dev"; "mike_client"]%string;
     Conversation.lastMessage := None;
     Conversation.lastActivity := 0;
     Conversation.unreadCount := [("mike_client"%string, unread)] |}.

Definition offer (isRead : bool) (status : string) : Message.t :=
  {| Message._id := "message_1";
     Message.conversation := "conversation_1";
     Message.sender := "john_dev";
     Message.receiver := Some "mike_client"%string;
     Message.content := "A logo for your shop";
     Message.messageType := "custom_offer";
     Message.offerStatus := status;
     Message.isRead := isRead;
     Message.readAt := None;
     Message.isDeleted := false |}.

Definition chat : Messages.Chat :=
  {| Messages.conversations := [thread 1];
     Messages.messages := [offer false "pending"] |}.

Definition nobody : Messages.Chat :=
  {| Messages.conversations := []; Messages.messages := [] |}.

End Scenario.

(** * Verification *)

(** Evaluation of a comparison of strings that computes to a boolean. *)
Ltac eqb_closed :=
  match goal with
  | |- context [String.eqb ?a ?b] =>
      let v := eval vm_compute in (String.eqb a b) in
      lazymatch v with
      | true => change (String.eqb a b) with true
      | false => change (String.eqb a b) with false
      end
  end.

(** Evaluation of a handler on symbolic stores: everything is unfolded
    but the comparisons and concatenations of strings and the updates of
    collections. *)
Ltac eval_handler :=
  cbn -[String.eqb String.append store updateById insert findOne findById
        User_credit Gig_countOrder];
  repeat (eqb_closed;
          cbn -[String.eqb String.append store updateById insert findOne
                findById User_credit Gig_countOrder]).

(** ** Facts on collections *)

Section CollectionFacts.
Context {Doc : Type}.
Variable id_of : Doc -> ObjectId.

Lemma findOne_holds (p : Doc -> bool) c d :
  findOne p c = Some d -> p d = true.
Proof. intros H. apply (find_some p c H). Qed.

Lemma findById_id id c d : findById id_of id c = Some d -> id_of d = id.
Proof.
  intros H. apply findOne_holds in H. now apply String.eqb_eq in H.
Qed.

(** Once a matching document found by a query is saved in a state that
    still matches, the query returns the saved document. *)
Lemma findOne_store (p : Doc -> bool) d' c d :
  findOne p c = Some d -> p d' = true -> id_of d' = id_of d ->
  findOne p (store id_of d' c) = Some d'.
Proof.
  unfold findOne, store. intros Hfind Hp Hid.
  induction c as [|x c IH]; simpl in *; [discriminate|].
  destruct (p x) eqn:Hpx.
  - injection Hfind as ->. rewrite Hid, String.eqb_refl. simpl. now rewrite Hp.
  - destruct (id_of x =? id_of d') eqn:Hx; simpl.
    + now rewrite Hp.
    + rewrite Hpx. now apply IH.
Qed.

Lemma findById_updateById id u c :
  (forall d, id_of (u d) = id_of d) ->
  findById id_of id (updateById id_of id u c)
  = option_map u (findById id_of id c).
Proof.
  intros Hu. unfold findById, findOne.
  induction c as [|x c IH]; simpl; [reflexivity|].
  destruct (id_of x =? id) eqn:Hx; simpl.
  - now rewrite Hu, Hx.
  - now rewrite Hx.
Qed.

Lemma findById_updateById_other id id' u c :
  (forall d, id_of (u d) = id_of d) -> id' <> id ->
  findById id_of id' (updateById id_of id u c) = findById id_of id' c.
Proof.
  intros Hu Hne. unfold findById, findOne.
  induction c as [|x c IH]; simpl; [reflexivity|].
  destruct (id_of x =? id) eqn:Hx; simpl.
  - rewrite Hu. apply String.eqb_eq in Hx. rewrite Hx.
    destruct (String.eqb_spec id id'); [congruence|reflexivity].
  - now rewrite IH.
Qed.

Lemma findById_store d c :
  findById id_of (id_of d) c <> None ->
  findById id_of (id_of d) (store id_of d c) = Some d.
Proof.
  unfold findById, findOne, store.
  induction c as [|x c IH]; simpl; [congruence|].
  destruct (id_of x =? id_of d) eqn:Hx; simpl.
  - now rewrite String.eqb_refl.
  - now rewrite Hx.
Qed.

Lemma findById_store_other id d c :
  id <> id_of d ->
  findById id_of id (store id_of d c) = findById id_of id c.
Proof.
  intros Hne. unfold findById, findOne, store.
  induction c as [|x c IH]; simpl; [reflexivity|].
  destruct (id_of x =? id_of d) eqn:Hx; simpl.
  - apply String.eqb_eq in Hx. rewrite Hx.
    destruct (String.eqb_spec (id_of d) id); [congruence|reflexivity].
  - now rewrite IH.
Qed.

Lemma map_id_store d c : map id_of (store id_of d c) = map id_of c.
Proof.
  unfold store. induction c as [|x c IH]; simpl; [reflexivity|].
  destruct (id_of x =? id_of d) eqn:Hx; simpl.
  - apply String.eqb_eq in Hx. now rewrite Hx.
  - now rewrite IH.
Qed.

Lemma map_id_updateById id u c :
  (forall d, id_of (u d) = id_of d) ->
  map id_of (updateById id_of id u c) = map id_of c.
Proof.
  intros Hu. induction c as [|x c IH]; simpl; [reflexivity|].
  destruct (id_of x =? id); simpl; now rewrite ?Hu, ?IH.
Qed.

Lemma findById_not_In id c :
  findById id_of id c = None -> ~ In id (map id_of c).
Proof.
  unfold findById, findOne. intros H Hin.
  apply in_map_iff in Hin as (d & Hd & Hin).
  apply (find_none _ _ H) in Hin. rewrite Hd, String.eqb_refl in Hin.
  discriminate.
Qed.
Lemma findById_insert id d c :
  findById id_of id (insert d c)
  = match findById id_of id c with
    | Some x => Some x
    | None => if id_of d =? id then Some d else None
    end.
Proof.
  unfold findById, findOne, insert.
  induction c as [|x c IH]; simpl; [reflexivity|].
  now destruct (id_of x =? id).
Qed.
End CollectionFacts.

(** ** Facts on numbers: NaN does not arise from a number *)

Module NumberFacts.
Local Open Scope float_scope.

Lemma is_nan_Prim2SF x : is_nan x = false <-> Prim2SF x <> S754_nan.
Proof.
  unfold Prim2SF. destruct (is_nan x); split; try congruence.
  intros _. destruct (PrimFloat.is_zero x); [discriminate|].
  destruct (PrimFloat.is_infinity x); [discriminate|].
  destruct (Z.frexp x) as [r e]. destruct (shr_fexp _ _ _ _ _) as [s e'].
  destruct (shr_m s); discriminate.
Qed.

Lemma shr_1_nonneg mrs : (0 <= shr_m mrs)%Z -> (0 <= shr_m (shr_1 mrs))%Z.
Proof.
  destruct mrs as [m r s]. simpl. intros H.
  destruct m as [|p|p]; simpl; try lia; destruct p; simpl; lia.
Qed.

Lemma iter_pos_shr_1_nonneg p : forall mrs,
  (0 <= shr_m mrs)%Z -> (0 <= shr_m (iter_pos shr_1 p mrs))%Z.
Proof.
  induction p as [p IH|p IH|]; intros mrs H; simpl.
  - apply IH, IH, shr_1_nonneg, H.
  - apply IH, IH, H.
  - apply shr_1_nonneg, H.
Qed.

Lemma shr_fexp_nonneg m e l :
  (0 <= m)%Z -> (0 <= shr_m (fst (shr_fexp prec emax m e l)))%Z.
Proof.
  intros H. unfold shr_fexp, shr.
  assert (H0 : (0 <= shr_m (shr_record_of_loc m l))%Z)
    by (destruct l as [|[]]; exact H).
  destruct (_ - e)%Z; simpl; try exact H0.
  now apply iter_pos_shr_1_nonneg.
Qed.

Lemma round_nearest_even_nonneg m l :
  (0 <= m)%Z -> (0 <= round_nearest_even m l)%Z.
Proof.
  intros H. destruct l as [|[]]; simpl; try lia.
  destruct (Z.even m); lia.
Qed.

Lemma binary_round_aux_not_nan sx mx ex lx :
  (0 <= mx)%Z -> binary_round_aux prec emax sx mx ex lx <> S754_nan.
Proof.
  intros H. unfold binary_round_aux.
  pose proof (shr_fexp_nonneg mx ex lx H) as H1.
  destruct (shr_fexp prec emax mx ex lx) as [mrs' e']. simpl in H1.
  pose proof (shr_fexp_nonneg _ e' loc_Exact
                (round_nearest_even_nonneg _ (loc_of_shr_record mrs') H1)) as H2.
  destruct (shr_fexp prec emax _ e' loc_Exact) as [mrs'' e'']. simpl in H2.
  destruct (shr_m mrs''); try lia; try discriminate.
  destruct (e'' <=? emax - prec)%Z; discriminate.
Qed.

Lemma binary_normalize_not_nan m e s :
  binary_normalize prec emax m e s <> S754_nan.
Proof.
  unfold binary_normalize, binary_round.
  destruct m; [discriminate| |];
    destruct (shl_align _ _ _); now apply binary_round_aux_not_nan.
Qed.

Lemma of_uint63_not_nan n : is_nan (of_uint63 n) = false.
Proof.
  apply is_nan_Prim2SF. rewrite FloatAxioms.of_uint63_spec. apply binary_normalize_not_nan.
Qed.

Lemma opp_not_nan x : is_nan x = false -> is_nan (- x) = false.
Proof.
  rewrite !is_nan_Prim2SF, FloatAxioms.opp_spec. now destruct (Prim2SF x).
Qed.

Lemma mul_finite_not_nan x c s m e :
  Prim2SF c = S754_finite s m e ->
  is_nan x = false -> is_nan (x * c) = false.
Proof.
  rewrite !is_nan_Prim2SF, FloatAxioms.mul_spec. intros -> H.
  unfold SF64mul, SFmul. destruct (Prim2SF x); try congruence; try discriminate.
  now apply binary_round_aux_not_nan.
Qed.

Lemma div_finite_not_nan x c s m e :
  Prim2SF c = S754_finite s m e ->
  is_nan x = false -> is_nan (x / c) = false.
Proof.
  rewrite !is_nan_Prim2SF, FloatAxioms.div_spec. intros -> H.
  unfold SF64div, SFdiv. destruct (Prim2SF x) as [| | |sx mx ex]; try congruence; try discriminate.
  unfold SFdiv_core_binary.
  set (s' := (_ - _ - _)%Z).
  set (m' := match s' with Z0 => _ | Z.pos _ => _ | Z.neg _ => _ end).
  assert (Hm : (0 <= m')%Z).
  { subst m'. destruct s'; try lia. apply Z.shiftl_nonneg. lia. }
  pose proof (Z_div_mod m' (Z.pos m) ltac:(lia)) as Hd.
  destruct (Z.div_eucl m' (Z.pos m)) as [q r].
  apply binary_round_aux_not_nan. nia.
Qed.

Lemma Math_round_not_nan x : is_nan x = false -> is_nan (Math_round x) = false.
Proof.
  intros H. unfold Math_round.
  destruct (Prim2SF x) as [| | |s m e]; try exact H.
  destruct (0 <=? e)%Z; [exact H|].
  destruct ((2 * _ + _) / _)%Z.
  - now destruct s.
  - apply of_uint63_not_nan.
  - apply opp_not_nan, of_uint63_not_nan.
Qed.


Lemma isFinite_not_nan x : isFinite x = true -> is_nan x = false.
Proof.
  rewrite is_nan_Prim2SF. unfold isFinite.
  destruct (Prim2SF x); congruence.
Qed.

Lemma not_finite x :
  isFinite x = false -> x = nan \/ x = infinity \/ x = neg_infinity.
Proof.
  unfold isFinite. intros H.
  rewrite <- (FloatAxioms.SF2Prim_Prim2SF x).
  destruct (Prim2SF x) as [| [|] | |]; try discriminate; auto.
Qed.

Lemma add_finite_not_nan x y :
  isFinite x = true -> is_nan y = false -> is_nan (x + y) = false.
Proof.
  rewrite !is_nan_Prim2SF, FloatAxioms.add_spec. unfold isFinite, SF64add, SFadd.
  destruct (Prim2SF x) as [sx| | |sx mx ex]; try discriminate;
    destruct (Prim2SF y) as [sy| | |sy my ey]; intros _ H; try congruence;
    try discriminate.
  - destruct sx, sy; discriminate.
  - apply binary_normalize_not_nan.
Qed.

Lemma sub_finite_not_nan x y :
  isFinite x = true -> is_nan y = false -> is_nan (x - y) = false.
Proof.
  rewrite !is_nan_Prim2SF, FloatAxioms.sub_spec. unfold isFinite, SF64sub, SFsub.
  destruct (Prim2SF x) as [sx| | |sx mx ex]; try discriminate;
    destruct (Prim2SF y) as [sy| | |sy my ey]; intros _ H; try congruence;
    try discriminate.
  - destruct sx, sy; discriminate.
  - apply binary_normalize_not_nan.
Qed.

Lemma Math_max_not_nan a b :
  is_nan a = false -> is_nan b = false -> is_nan (Math_max a b) = false.
Proof.
  intros Ha Hb. unfold Math_max. rewrite Ha, Hb. cbn [orb].
  destruct (a <? b); [exact Hb|]. destruct (b <? a); [exact Ha|].
  now destruct (get_sign a).
Qed.
End NumberFacts.

(** ** Payment reconciliation: the checkout_completed webhook *)

Module WebhookFacts.
Import Payments.

Lemma webhook_paid_noop session w order :
  findOne (bySession (Stripe.id session)) (orders w) = Some order ->
  Order.paymentStatus order = "paid" ->
  webhook (completed session) w = (Received, w).
Proof.
  intros Hfind Hpaid.
  unfold webhook, completed, bind, Order_findOne. rewrite Hfind, Hpaid.
  reflexivity.
Qed.

Lemma webhook_absent_noop session w :
  findOne (bySession (Stripe.id session)) (orders w) = None ->
  webhook (completed session) w = (Received, w).
Proof.
  intros Hfind. unfold webhook, completed, bind, Order_findOne.
  now rewrite Hfind.
Qed.

(** The first delivery of the event for an order that is not yet paid. *)
Lemma webhook_first session w order :
  findOne (bySession (Stripe.id session)) (orders w) = Some order ->
  Order.paymentStatus order <> "paid" ->
  Order.invalidPaths (paidOrder session order) = [] ->
  webhook (completed session) w
  = (Received,
     set_notifications
       (notifications w
          ++ [ {| Notification.recipient := Order.seller order;
                  Notification.sender := Some (Order.buyer order);
                  Notification.type := "new_order";
                  Notification.title := "New Order Received";
                  Notification.message := "You have a new order";
                  Notification.orderId := Some (Order._id order);
                  Notification.isRead := false |};
               {| Notification.recipient := Order.buyer order;
                  Notification.sender := None;
                  Notification.type := "payment_received";
                  Notification.title := "Payment Successful";
                  Notification.message := "Your payment was successful";
                  Notification.orderId := Some (Order._id order);
                  Notification.isRead := false |} ])
       (set_orders (store Order._id (paidOrder session order) (orders w)) w)).
Proof.
  intros Hfind Hpaid Hvalid.
  unfold webhook, completed, bind, Order_findOne. rewrite Hfind.
  destruct (String.eqb_spec (Order.paymentStatus order) "paid") as [|_];
    [contradiction|].
  cbn [negb]. unfold Order_save. fold (paidOrder session order).
  rewrite Hvalid. unfold Promise_all2, createNotification, insert.
  cbn. rewrite <- app_assoc. reflexivity.
Qed.

Lemma webhook_invalid session w order :
  findOne (bySession (Stripe.id session)) (orders w) = Some order ->
  Order.paymentStatus order <> "paid" ->
  Order.invalidPaths (paidOrder session order) <> [] ->
  snd (webhook (completed session) w) = w.
Proof.
  intros Hfind Hpaid Hinvalid.
  unfold webhook, completed, bind, Order_findOne. rewrite Hfind.
  destruct (String.eqb_spec (Order.paymentStatus order) "paid") as [|_];
    [contradiction|].
  cbn [negb]. unfold Order_save. fold (paidOrder session order).
  destruct (Order.invalidPaths (paidOrder session order)); [congruence|].
  reflexivity.
Qed.

(** C1. Delivering [checkout.session.completed] twice for one session
    leaves the stores as one delivery does.  When the order of the session
    is already paid the event is acknowledged and nothing changes: not the
    payment status, the status or the payment intent of any order, and no
    notification is added.  The first delivery for a valid unpaid order
    does mark it paid and adds the two notifications. *)
Theorem checkout_completed_idempotent (session : Stripe.Session) (w : World) :
  let once := snd (webhook (completed session) w) in
  snd (webhook (completed session) once) = once
  /\ (forall order,
        findOne (bySession (Stripe.id session)) (orders w) = Some order ->
        Order.paymentStatus order = "paid" ->
        webhook (completed session) w = (Received, w))
  /\ (forall order,
        findOne (bySession (Stripe.id session)) (orders w) = Some order ->
        Order.paymentStatus order <> "paid" ->
        Order.invalidPaths (paidOrder session order) = [] ->
        findOne (bySession (Stripe.id session)) (orders once)
        = Some (paidOrder session order)
        /\ List.length (notifications once) = 2 + List.length (notifications w)
        /\ webhook (completed session) once = (Received, once)).
Proof.
  assert (Hstep : forall order,
             findOne (bySession (Stripe.id session)) (orders w) = Some order ->
             Order.paymentStatus order <> "paid" ->
             Order.invalidPaths (paidOrder session order) = [] ->
             let once := snd (webhook (completed session) w) in
             findOne (bySession (Stripe.id session)) (orders once)
             = Some (paidOrder session order)
             /\ List.length (notifications once) = 2 + List.length (notifications w)
             /\ webhook (completed session) once = (Received, once)).
  { intros order Hfind Hpaid Hvalid once. subst once.
    rewrite (webhook_first _ _ _ Hfind Hpaid Hvalid). cbn [snd].
    assert (Hagain :
              findOne (bySession (Stripe.id session))
                (store Order._id (paidOrder session order) (orders w))
              = Some (paidOrder session order)).
    { apply findOne_store with (d := order); [exact Hfind| |reflexivity].
      apply findOne_holds in Hfind. exact Hfind. }
    split; [exact Hagain|]. split.
    - cbn. rewrite length_app. cbn. lia.
    - apply webhook_paid_noop with (order := paidOrder session order);
        [exact Hagain|reflexivity]. }
  cbv zeta. split; [|split].
  - destruct (findOne (bySession (Stripe.id session)) (orders w)) as [order|] eqn:Hfind.
    + destruct (String.eqb_spec (Order.paymentStatus order) "paid") as [Hpaid|Hpaid].
      * rewrite (webhook_paid_noop _ _ _ Hfind Hpaid). cbn [snd].
        now rewrite (webhook_paid_noop _ _ _ Hfind Hpaid).
      * destruct (Order.invalidPaths (paidOrder session order)) eqn:Hvalid.
        -- destruct (Hstep order eq_refl Hpaid Hvalid) as (_ & _ & Hnoop).
           cbv zeta in Hnoop. now rewrite Hnoop.
        -- assert (Hsame : snd (webhook (completed session) w) = w)
             by (apply webhook_invalid with (order := order); congruence).
           now rewrite !Hsame.
    + rewrite (webhook_absent_noop _ _ Hfind). cbn [snd].
      now rewrite (webhook_absent_noop _ _ Hfind).
  - intros order Hfind Hpaid. now apply webhook_paid_noop with (order := order).
  - intros order Hfind Hpaid Hvalid. now apply Hstep.
Qed.

Lemma checkout_completed_idempotent_witness :
  webhook (completed Sample.session)
    (snd (webhook (completed Sample.session) Sample.afterCheckout))
  = (Received, snd (webhook (completed Sample.session) Sample.afterCheckout)).
Proof.
  apply (proj2 (proj2 (checkout_completed_idempotent
                         Sample.session Sample.afterCheckout))
           (Order.set_paymentStatus "pending" (Sample.orderIn "pending"))).
  - vm_compute. reflexivity.
  - vm_compute. discriminate.
  - vm_compute. reflexivity.
Defined.

End WebhookFacts.

(** ** Order lifecycle: the generic status update *)

Module TransitionFacts.
Import Orders.








End TransitionFacts.

(** ** Order lifecycle: accept and revision requests *)

Module LifecycleFacts.
Import Orders.

Lemma eqb_append_nonempty a c b : (a ++ String c b =? "")%string = false.
Proof. destruct a; reflexivity. Qed.

(** A rewritten order passes validation when the validated paths other
    than [status] are untouched and the new status is in the enum. *)
Lemma invalidPaths_same o o' :
  Order.gig o' = Order.gig o ->
  Order.package o' = Order.package o ->
  Order.totalAmount o' = Order.totalAmount o ->
  Order.serviceFee o' = Order.serviceFee o ->
  Order.netAmount o' = Order.netAmount o ->
  Order.paymentStatus o' = Order.paymentStatus o ->
  Order.paymentIntentId o' = Order.paymentIntentId o ->
  Order.deliveryDate o' = Order.deliveryDate o ->
  includes (Order.status o') Order.statusEnum = true ->
  Order.invalidPaths o = [] -> Order.invalidPaths o' = [].
Proof.
  unfold Order.invalidPaths. intros -> -> -> -> -> -> -> -> -> H.
  apply app_eq_nil in H as (-> & H).
  apply app_eq_nil in H as (-> & H).
  apply app_eq_nil in H as (-> & H).
  apply app_eq_nil in H as (-> & H).
  apply app_eq_nil in H as (-> & H).
  apply app_eq_nil in H as (_ & H).
  apply app_eq_nil in H as (-> & H).
  apply app_eq_nil in H as (-> & ->).
  reflexivity.
Qed.

(** The same when the delivery date is set to a valid date. *)
Lemma invalidPaths_dated o o' time :
  Order.gig o' = Order.gig o ->
  Order.package o' = Order.package o ->
  Order.totalAmount o' = Order.totalAmount o ->
  Order.serviceFee o' = Order.serviceFee o ->
  Order.netAmount o' = Order.netAmount o ->
  Order.paymentStatus o' = Order.paymentStatus o ->
  Order.paymentIntentId o' = Order.paymentIntentId o ->
  Order.deliveryDate o' = Some (At time) ->
  includes (Order.status o') Order.statusEnum = true ->
  Order.invalidPaths o = [] -> Order.invalidPaths o' = [].
Proof.
  unfold Order.invalidPaths. intros -> -> -> -> -> -> -> -> -> H.
  apply app_eq_nil in H as (-> & H).
  apply app_eq_nil in H as (-> & H).
  apply app_eq_nil in H as (-> & H).
  apply app_eq_nil in H as (-> & H).
  apply app_eq_nil in H as (-> & H).
  apply app_eq_nil in H as (_ & H).
  apply app_eq_nil in H as (-> & H).
  apply app_eq_nil in H as (-> & _).
  reflexivity.
Qed.

(** What validation says of a valid order. *)
Lemma invalidPaths_nil o :
  Order.invalidPaths o = [] ->
  (exists gigId, Order.gig o = Some gigId)
  /\ includes (Order.package o) Order.packageEnum = true
  /\ is_nan (Order.totalAmount o) = false
  /\ is_nan (Order.serviceFee o) = false
  /\ is_nan (Order.netAmount o) = false
  /\ includes (Order.status o) Order.statusEnum = true
  /\ includes (Order.paymentStatus o) Order.paymentStatusEnum = true
  /\ (exists intent, Order.paymentIntentId o = Some intent /\ intent <> "")
  /\ Order.deliveryDate o <> Some Invalid_Date.
Proof.
  unfold Order.invalidPaths. intros H.
  apply app_eq_nil in H as (Hg & H).
  apply app_eq_nil in H as (Hp & H).
  apply app_eq_nil in H as (Ht & H).
  apply app_eq_nil in H as (Hf & H).
  apply app_eq_nil in H as (Hn & H).
  apply app_eq_nil in H as (Hs & H).
  apply app_eq_nil in H as (Hps & H).
  apply app_eq_nil in H as (Hi & Hd).
  repeat split.
  - destruct (Order.gig o); [now eexists|discriminate].
  - now destruct (includes _ Order.packageEnum).
  - now destruct (is_nan (Order.totalAmount o)).
  - now destruct (is_nan (Order.serviceFee o)).
  - now destruct (is_nan (Order.netAmount o)).
  - now destruct (includes _ Order.statusEnum).
  - now destruct (includes _ Order.paymentStatusEnum).
  - destruct (Order.paymentIntentId o) as [intent|]; [|discriminate].
    exists intent. split; [reflexivity|].
    destruct (intent =? "") eqn:He; [discriminate|]. now apply String.eqb_neq.
  - intros He. rewrite He in Hd. discriminate.
Qed.

(** And the converse. *)
Lemma invalidPaths_of o gigId intent :
  Order.gig o = Some gigId ->
  includes (Order.package o) Order.packageEnum = true ->
  is_nan (Order.totalAmount o) = false ->
  is_nan (Order.serviceFee o) = false ->
  is_nan (Order.netAmount o) = false ->
  includes (Order.status o) Order.statusEnum = true ->
  includes (Order.paymentStatus o) Order.paymentStatusEnum = true ->
  Order.paymentIntentId o = Some intent ->
  intent <> "" ->
  Order.deliveryDate o <> Some Invalid_Date ->
  Order.invalidPaths o = [].
Proof.
  unfold Order.invalidPaths. intros -> -> -> -> -> -> -> -> Hi Hd.
  apply String.eqb_neq in Hi. rewrite Hi. cbn [app].
  destruct (Order.deliveryDate o) as [[time|]|]; try reflexivity.
  now elim Hd.
Qed.

Lemma accept_run now user id w order :
  findById Order._id id (orders w) = Some order ->
  Order.buyer order = User._id user ->
  Order.status order = "delivered" ->
  Order.invalidPaths order = [] ->
  accept now user id w
  = (Json 200 "Order accepted successfully",
     set_notifications
       (notifications w
          ++ [ {| Notification.recipient := Order.seller order;
                  Notification.sender := None;
                  Notification.type := "order_completed";
                  Notification.title := "Order Completed";
                  Notification.message :=
                    User.username user ++ " accepted your delivery";
                  Notification.orderId := Some (Order._id order);
                  Notification.isRead := false |} ])
       (set_orders
          (store Order._id
             (Order.set_completedAt (Some now)
                (Order.set_status "completed" order)) (orders w))
          (snd (Gig_countOrder (Order.gig order)
                  (snd (User_credit (Order.seller order)
                          (Order.netAmount order) w)))))).
Proof.
  intros Hfind Hbuyer Hstatus Hvalid.
  assert (HU : forall i a w0, User_credit i a w0 = (Value tt, snd (User_credit i a w0)))
    by reflexivity.
  assert (HG : forall i w0, Gig_countOrder i w0 = (Value tt, snd (Gig_countOrder i w0)))
    by (intros [?|] ?; reflexivity).
  unfold accept, try_catch, bind, Order_findById.
  rewrite Hfind, Hbuyer, Hstatus, !String.eqb_refl. cbn [negb].
  rewrite HU, HG.
  unfold Order_save.
  rewrite (invalidPaths_same order
             (Order.set_completedAt (Some now) (Order.set_status "completed" order)))
    by (try reflexivity; exact Hvalid).
  unfold createNotification, Notification.invalidPaths.
  eval_handler. rewrite eqb_append_nonempty.
  unfold ret, insert.
  assert (HGo : forall i w0, orders (snd (Gig_countOrder i w0)) = orders w0)
    by (intros [?|] ?; reflexivity).
  assert (HGn : forall i w0, notifications (snd (Gig_countOrder i w0)) = notifications w0)
    by (intros [?|] ?; reflexivity).
  rewrite HGo, HGn. reflexivity.
Qed.

Lemma Spec_netAmount_150 : Spec.netAmount 150 = 120%float.
Proof. vm_compute. reflexivity. Qed.

(** C5. When the buyer accepts a delivered order, the order becomes
    completed with [completedAt] set to the time of the request, the
    seller's [totalEarnings] grow by the stored [netAmount] of the order
    and the seller's [completedOrders] by one, and the gig's
    [totalOrders] grows by one.  For an order whose [netAmount] is the
    one of a subtotal of 150, the earnings grow by 120. *)
Theorem accept_completes_and_credits now user id w order sellerDoc gigId gigDoc :
  findById Order._id id (orders w) = Some order ->
  Order.buyer order = User._id user ->
  Order.status order = "delivered" ->
  Order.invalidPaths order = [] ->
  findById User._id (Order.seller order) (users w) = Some sellerDoc ->
  Order.gig order = Some gigId ->
  findById Gig._id gigId (gigs w) = Some gigDoc ->
  let w' := snd (accept now user id w) in
  fst (accept now user id w) = Json 200 "Order accepted successfully"
  /\ (exists order',
        findById Order._id id (orders w') = Some order'
        /\ Order.status order' = "completed"
        /\ Order.completedAt order' = Some now
        /\ Order.netAmount order' = Order.netAmount order)
  /\ (exists seller',
        findById User._id (Order.seller order) (users w') = Some seller'
        /\ User.totalEarnings seller'
           = (User.totalEarnings sellerDoc + Order.netAmount order)%float
        /\ User.completedOrders seller'
           = (User.completedOrders sellerDoc + 1)%float
        /\ (Order.netAmount order = Spec.netAmount 150 ->
            User.totalEarnings seller'
            = (User.totalEarnings sellerDoc + 120)%float))
  /\ (exists gig',
        findById Gig._id gigId (gigs w') = Some gig'
        /\ Gig.totalOrders gig' = (Gig.totalOrders gigDoc + 1)%float).
Proof.
  intros Hfind Hbuyer Hstatus Hvalid Hseller Hgig Hgigdoc w'. subst w'.
  rewrite (accept_run _ _ _ _ _ Hfind Hbuyer Hstatus Hvalid).
  cbn [fst snd]. split; [reflexivity|].
  pose proof (findById_id _ _ _ _ Hfind) as Hid. subst id.
  split; [|split].
  - exists (Order.set_completedAt (Some now) (Order.set_status "completed" order)).
    split; [|repeat split].
    apply (findById_store Order._id
             (Order.set_completedAt (Some now) (Order.set_status "completed" order))).
    change (findById Order._id (Order._id order) (orders w) <> None).
    rewrite Hfind. discriminate.
  - rewrite Hgig. cbn [Gig_countOrder User_credit snd users set_gigs set_users
                         set_orders set_notifications].
    rewrite findById_updateById by reflexivity.
    rewrite Hseller. cbn [option_map]. eexists. split; [reflexivity|].
    cbn [User.totalEarnings User.completedOrders].
    repeat split. intros ->. now rewrite Spec_netAmount_150.
  - rewrite Hgig. cbn [Gig_countOrder User_credit snd gigs set_gigs set_users
                         set_orders set_notifications].
    rewrite findById_updateById by reflexivity.
    rewrite Hgigdoc. cbn [option_map]. eexists. split; reflexivity.
Qed.

Lemma accept_completes_and_credits_witness :
  fst (accept 3000 Sample.mike "order_1" (Sample.withOrder (Sample.orderIn "delivered")))
  = Json 200 "Order accepted successfully".
Proof.
  pose proof (accept_completes_and_credits 3000 Sample.mike "order_1"
                (Sample.withOrder (Sample.orderIn "delivered"))
                (Sample.orderIn "delivered") Sample.john "gig_website"
                Sample.website eq_refl eq_refl eq_refl eq_refl eq_refl eq_refl
                eq_refl) as H.
  exact (proj1 H).
Defined.

Lemma requestRevision_limit now user id message w order :
  findById Order._id id (orders w) = Some order ->
  Order.buyer order = User._id user ->
  Order.status order = "delivered" ->
  (Package.revisions (Order.packageDetails order)
   <=? lengthNumber (Order.revisions order))%float = true ->
  requestRevision now user id message w
  = (Json 400 "No more revisions available for this package", w).
Proof.
  intros Hfind Hbuyer Hstatus Hlimit.
  unfold requestRevision, try_catch, bind, Order_findById.
  rewrite Hfind, Hbuyer, Hstatus, !String.eqb_refl. cbn [negb].
  rewrite Hlimit. reflexivity.
Qed.

Lemma requestRevision_run now user id message w order :
  findById Order._id id (orders w) = Some order ->
  Order.buyer order = User._id user ->
  Order.status order = "delivered" ->
  Order.invalidPaths order = [] ->
  (Package.revisions (Order.packageDetails order)
   <=? lengthNumber (Order.revisions order))%float = false ->
  requestRevision now user id message w
  = (Json 200 "Revision requested successfully",
     set_notifications
       (notifications w
          ++ [ {| Notification.recipient := Order.seller order;
                  Notification.sender := None;
                  Notification.type := "revision_requested";
                  Notification.title := "Revision Requested";
                  Notification.message :=
                    User.username user ++ " requested a revision";
                  Notification.orderId := Some (Order._id order);
                  Notification.isRead := false |} ])
       (set_orders
          (store Order._id (revisedOrder now message order) (orders w)) w)).
Proof.
  intros Hfind Hbuyer Hstatus Hvalid Hlimit.
  unfold requestRevision, try_catch, bind, Order_findById.
  rewrite Hfind, Hbuyer, Hstatus, !String.eqb_refl. cbn [negb].
  rewrite Hlimit. unfold Order_save. fold (revisedOrder now message order).
  rewrite (invalidPaths_same order (revisedOrder now message order))
    by (try reflexivity; exact Hvalid).
  unfold createNotification, Notification.invalidPaths.
  eval_handler. rewrite eqb_append_nonempty. reflexivity.
Qed.

(** C6. For a delivered order and its buyer, [requestRevision] answers
    with the revision-limit error exactly when the number of revision
    requests made so far is at least the [revisions] of the package, and
    then the stores are unchanged; otherwise the order gets one more
    revision record and the status [revision_requested].  With one
    revision in the package and one request made, the next request meets
    the limit. *)
Theorem requestRevision_exactly_at_limit now user id message w order :
  findById Order._id id (orders w) = Some order ->
  Order.buyer order = User._id user ->
  Order.status order = "delivered" ->
  Order.invalidPaths order = [] ->
  let used := lengthNumber (Order.revisions order) in
  let available := Package.revisions (Order.packageDetails order) in
  let result := requestRevision now user id message w in
  (fst result = Json 400 "No more revisions available for this package"
   <-> (available <=? used)%float = true)
  /\ ((available <=? used)%float = true -> snd result = w)
  /\ ((available <=? used)%float = false ->
      fst result = Json 200 "Revision requested successfully"
      /\ findById Order._id id (orders (snd result))
         = Some (revisedOrder now message order)
      /\ Order.status (revisedOrder now message order) = "revision_requested"
      /\ Order.revisions (revisedOrder now message order)
         = Order.revisions order
             ++ [ {| Revision.message := message; Revision.requestedAt := now |} ])
  /\ (available = 1%float ->
      (exists r, Order.revisions order = [r]) ->
      result = (Json 400 "No more revisions available for this package", w)).
Proof.
  intros Hfind Hbuyer Hstatus Hvalid used available result.
  subst used available result.
  destruct (Package.revisions (Order.packageDetails order)
            <=? lengthNumber (Order.revisions order))%float eqn:Hlimit.
  - rewrite (requestRevision_limit _ _ _ _ _ _ Hfind Hbuyer Hstatus Hlimit).
    cbn [fst snd]. repeat split; try reflexivity; discriminate.
  - rewrite (requestRevision_run _ _ _ _ _ _ Hfind Hbuyer Hstatus Hvalid Hlimit).
    cbn [fst snd]. split; [split; discriminate|].
    split; [discriminate|]. split.
    + intros _. split; [reflexivity|]. split; [|split; reflexivity].
      pose proof (findById_id _ _ _ _ Hfind) as Hid. subst id.
      cbn [orders set_orders set_notifications].
      apply (findById_store Order._id (revisedOrder now message order)).
      change (findById Order._id (Order._id order) (orders w) <> None).
      rewrite Hfind. discriminate.
    + intros Havail (r & Hr). rewrite Havail, Hr in Hlimit.
      discriminate Hlimit.
Qed.

(** Two requests in a row: the second one finds the order in
    [revision_requested] and is rejected before the limit is looked at. *)
Lemma second_request_in_a_row_fails :
  let w1 := snd (requestRevision 4000 Sample.mike "order_1"
                   "Please change the header"
                   (Sample.withOrder (Sample.orderIn "delivered"))) in
  requestRevision 4500 Sample.mike "order_1" "Once more" w1
  = (Json 400 "Can only request revision for delivered orders", w1).
Proof. vm_compute. reflexivity. Qed.

Lemma requestRevision_exactly_at_limit_witness :
  requestRevision 6000 Sample.mike "order_1" "Once more" Sample.redelivered
  = (Json 400 "No more revisions available for this package", Sample.redelivered).
Proof.
  set (order := Order.set_autoCompleteAt (Some 259205000%Z)
                  (Order.set_deliveryDate (Some (At 5000%Z))
                     (Order.set_status "delivered"
                        (revisedOrder 4000 "Please change the header"
                           (Sample.orderIn "delivered"))))).
  assert (Hfind : findById Order._id "order_1" (orders Sample.redelivered)
                  = Some order) by (vm_compute; reflexivity).
  assert (Hbuyer : Order.buyer order = User._id Sample.mike)
    by (vm_compute; reflexivity).
  assert (Hstatus : Order.status order = "delivered")
    by (vm_compute; reflexivity).
  assert (Hvalid : Order.invalidPaths order = [])
    by (vm_compute; reflexivity).
  apply (proj2 (proj2 (proj2
           (requestRevision_exactly_at_limit 6000 Sample.mike "order_1"
              "Once more" Sample.redelivered order
              Hfind Hbuyer Hstatus Hvalid)))).
  - vm_compute. reflexivity.
  - eexists. vm_compute. reflexivity.
Defined.

End LifecycleFacts.

(** ** Rating aggregation *)

Module RatingFacts.
Import Rating.
Local Open Scope float_scope.

Lemma totalRating_ratings reviews :
  totalRating reviews = fold_left PrimFloat.add (map Review.rating reviews) 0.
Proof.
  unfold totalRating. generalize 0.
  induction reviews as [|r reviews IH]; intros acc; simpl; [reflexivity|].
  apply IH.
Qed.

Lemma lengthNumber_ratings (reviews : list Review.t) :
  lengthNumber (map Review.rating reviews) = lengthNumber reviews.
Proof. unfold lengthNumber. now rewrite length_map. Qed.

Lemma Gig_assign_mean this reviews :
  reviews <> [] ->
  Gig.rating (Gig_assign this reviews) = Spec.mean (map Review.rating reviews)
  /\ Gig.totalReviews (Gig_assign this reviews)
     = lengthNumber (map Review.rating reviews).
Proof.
  intros Hne. unfold Gig_assign, Spec.mean.
  rewrite totalRating_ratings, lengthNumber_ratings.
  destruct reviews; [contradiction|]. split; reflexivity.
Qed.

Lemma User_assign_mean this reviews :
  reviews <> [] ->
  User.rating (User_assign this reviews) = Spec.mean (map Review.rating reviews)
  /\ User.totalReviews (User_assign this reviews)
     = lengthNumber (map Review.rating reviews).
Proof.
  intros Hne. unfold User_assign, Spec.mean.
  rewrite totalRating_ratings, lengthNumber_ratings.
  destruct reviews; [contradiction|]. split; reflexivity.
Qed.

Lemma mean_5_5_4_2 :
  Spec.mean [5; 5; 4; 2] = 4 /\ lengthNumber [5; 5; 4; 2] = 4.
Proof. split; vm_compute; reflexivity. Qed.

(** C7. [updateRating] of a gig and of a user sets [rating] to the mean
    of the ratings of the entity's reviews and [totalReviews] to their
    number, and sets both to zero when there is no review; the reviews are
    those of the collection whose [gig] (or [reviewee]) is the entity, and
    the result is what [save] persists.  Ratings 5, 5, 4, 2 give the
    rating 4 and 4 reviews. *)
Theorem updateRating_sets_mean :
  (forall (gig : Gig.t) (user : User.t) reviews,
      reviews <> [] ->
      let ratings := map Review.rating reviews in
      Gig.rating (Gig_assign gig reviews) = Spec.mean ratings
      /\ Gig.totalReviews (Gig_assign gig reviews) = lengthNumber ratings
      /\ User.rating (User_assign user reviews) = Spec.mean ratings
      /\ User.totalReviews (User_assign user reviews) = lengthNumber ratings)
  /\ (forall (gig : Gig.t) (user : User.t),
        Gig.rating (Gig_assign gig []) = 0
        /\ Gig.totalReviews (Gig_assign gig []) = 0
        /\ User.rating (User_assign user []) = 0
        /\ User.totalReviews (User_assign user []) = 0)
  /\ (forall (gig : Gig.t) (user : User.t) reviews,
        map Review.rating reviews = [5; 5; 4; 2] ->
        Gig.rating (Gig_assign gig reviews) = 4
        /\ Gig.totalReviews (Gig_assign gig reviews) = 4
        /\ User.rating (User_assign user reviews) = 4
        /\ User.totalReviews (User_assign user reviews) = 4)
  /\ (forall (gig : Gig.t) w,
        let found := reviewsOfGig (Gig._id gig) w in
        (forall r, In r found
                   <-> In r (reviews w) /\ Review.gig r = Some (Gig._id gig))
        /\ (ratingInRange (Gig.rating (Gig_assign gig found)) = true ->
            Gig_updateRating gig w
            = (Value (Gig_assign gig found),
               set_gigs (store Gig._id (Gig_assign gig found) (gigs w)) w)))
  /\ (forall (user : User.t) w,
        let found := reviewsOfUser (User._id user) w in
        (forall r, In r found
                   <-> In r (reviews w) /\ Review.reviewee r = User._id user)
        /\ (ratingInRange (User.rating (User_assign user found)) = true ->
            User_updateRating user w
            = (Value (User_assign user found),
               set_users (store User._id (User_assign user found) (users w)) w))).
Proof.
  split; [|split; [|split; [|split]]].
  - intros gig user reviews Hne ratings.
    destruct (Gig_assign_mean gig reviews Hne).
    destruct (User_assign_mean user reviews Hne). auto.
  - intros gig user. repeat split.
  - intros gig user reviews Hratings.
    assert (Hne : reviews <> []) by (intros ->; discriminate).
    destruct (Gig_assign_mean gig reviews Hne) as (-> & ->).
    destruct (User_assign_mean user reviews Hne) as (-> & ->).
    rewrite Hratings. destruct mean_5_5_4_2 as (Hm & Hl).
    repeat split; assumption.
  - intros gig w found. split.
    + intros r. unfold found, reviewsOfGig. rewrite filter_In.
      destruct (Review.gig r) as [g|]; [|intuition discriminate].
      destruct (String.eqb_spec g (Gig._id gig)); [subst|]; intuition congruence.
    + intros Hrange. unfold Gig_updateRating. fold found. now rewrite Hrange.
  - intros user w found. split.
    + intros r. unfold found, reviewsOfUser. rewrite filter_In.
      destruct (String.eqb_spec (Review.reviewee r) (User._id user));
        intuition congruence.
    + intros Hrange. unfold User_updateRating. fold found. now rewrite Hrange.
Qed.

Lemma updateRating_sets_mean_witness :
  Gig.rating (Gig_assign Sample.website Sample.fourReviews) = 4
  /\ Gig.totalReviews (Gig_assign Sample.website Sample.fourReviews) = 4
  /\ User.rating (User_assign Sample.john Sample.fourReviews) = 4
  /\ User.totalReviews (User_assign Sample.john Sample.fourReviews) = 4.
Proof.
  apply (proj1 (proj2 (proj2 updateRating_sets_mean))
           Sample.website Sample.john Sample.fourReviews).
  reflexivity.
Defined.

End RatingFacts.

(** ** Conversations *)

Module ConversationFacts.
Import Conversation.

(** The property that the hook enforces. *)
Lemma pre_save_passes this :
  pre_save this = None <-> List.length (participants this) = 2.
Proof.
  unfold pre_save.
  destruct (Nat.eqb_spec (List.length (participants this)) 2); simpl;
    split; intros; congruence.
Qed.

Lemma Forall_store (P : t -> Prop) d c :
  P d -> Forall P c -> Forall P (store _id d c).
Proof.
  intros Hd Hc. unfold store.
  induction Hc as [|x c Hx Hc IH]; simpl; [constructor|].
  destruct (_id x =? _id d); constructor; assumption.
Qed.

Lemma save_keeps_two this c c' :
  save this c = inr c' ->
  Forall (fun d => List.length (participants d) = 2) c ->
  Forall (fun d => List.length (participants d) = 2) c'.
Proof.
  unfold save. intros Hsave Hc.
  destruct (pre_save this) eqn:Hpre; [discriminate|].
  apply pre_save_passes in Hpre.
  destruct (findById _id (_id this) c); injection Hsave as <-.
  - now apply Forall_store.
  - unfold insert. apply Forall_app. split; [assumption|].
    constructor; [assumption|constructor].
Qed.

Lemma saves_keep_two docs : forall c,
  Forall (fun d => List.length (participants d) = 2) c ->
  Forall (fun d => List.length (participants d) = 2) (saves docs c).
Proof.
  induction docs as [|d docs IH]; intros c Hc; simpl; [assumption|].
  destruct (save d c) as [e|c'] eqn:Hsave.
  - now apply IH.
  - apply IH. now apply (save_keeps_two d c c').
Qed.

(** C9. Saving a conversation whose participant list does not have
    length 2 is rejected by the pre-save hook and persists nothing; a
    save that succeeds is one of a conversation with two participants;
    and every conversation of a collection built by saves has exactly two
    participants. *)
Theorem conversation_has_two_participants :
  (forall this c,
      List.length (participants this) <> 2 ->
      save this c = inl (JsError "Conversation must have exactly 2 participants"))
  /\ (forall this c,
        List.length (participants this) = 2 ->
        exists c', save this c = inr c'
                   /\ findById _id (_id this) c' = Some this)
  /\ (forall docs this,
        In this (saves docs []) -> List.length (participants this) = 2).
Proof.
  split; [|split].
  - intros this c Hlen. unfold save, pre_save.
    destruct (Nat.eqb_spec (List.length (participants this)) 2);
      [contradiction|reflexivity].
  - intros this c Hlen. unfold save.
    apply pre_save_passes in Hlen. rewrite Hlen.
    destruct (findById _id (_id this) c) as [d|] eqn:Hfind;
      eexists; (split; [reflexivity|]).
    + apply findById_store. rewrite Hfind. discriminate.
    + now rewrite findById_insert, Hfind, String.eqb_refl.
  - intros docs this Hin.
    pose proof (saves_keep_two docs [] (Forall_nil _)) as Hall.
    rewrite Forall_forall in Hall. now apply Hall.
Qed.

Lemma conversation_has_two_participants_witness :
  save (Sample.conversationOf ["john_dev"]) [] 
  = inl (JsError "Conversation must have exactly 2 participants")
  /\ save (Sample.conversationOf ["john_dev"; "mike_client"; "emma_writer"]) []
     = inl (JsError "Conversation must have exactly 2 participants")
  /\ (exists c', save (Sample.conversationOf ["john_dev"; "mike_client"]) [] = inr c'
                 /\ findById _id "conversation_1" c'
                    = Some (Sample.conversationOf ["john_dev"; "mike_client"])).
Proof.
  split; [|split].
  - apply (proj1 conversation_has_two_participants). simpl. lia.
  - apply (proj1 conversation_has_two_participants). simpl. lia.
  - apply (proj1 (proj2 conversation_has_two_participants)
             (Sample.conversationOf ["john_dev"; "mike_client"]) []).
    reflexivity.
Defined.

End ConversationFacts.

(** ** Notifications of status updates *)

Module NotificationFacts.
Import Orders LifecycleFacts.

(** C8, at the input where the code departs from it.  A generic status
    update to [in_progress] or [requirements_pending] that the guard
    admits persists the new status, and then the notification of type
    [order_<status>] fails the [type] enum of the Notification schema:
    no notification is stored and the request is answered with 500. *)
Theorem updateStatus_notification_rejected now user id requested w order :
  findById Order._id id (orders w) = Some order ->
  Order.seller order = User._id user ->
  transitionAllowed (Order.status order) requested = true ->
  Order.invalidPaths order = [] ->
  requested = "in_progress" \/ requested = "requirements_pending" ->
  includes ("order_" ++ requested) Notification.typeEnum = false
  /\ includes ("order_" ++ requested) Spec.transitionTypes = false
  /\ updateStatus now user id requested w
     = (Failure "Error updating order status"
          (ValidationError "Notification" ["type"]),
        set_orders
          (store Order._id (Order.set_status requested order) (orders w)) w).
Proof.
  intros Hfind Hseller Hguard Hvalid Hreq.
  split; [destruct Hreq as [-> | ->]; reflexivity|].
  split; [destruct Hreq as [-> | ->]; reflexivity|].
  unfold updateStatus, try_catch, bind, Order_findById.
  rewrite Hfind, Hseller, String.eqb_refl, Hguard. cbn [negb].
  assert (Hsave : Order.invalidPaths (Order.set_status requested order) = []).
  { apply (invalidPaths_same order); try reflexivity; [|exact Hvalid].
    destruct Hreq as [-> | ->]; reflexivity. }
  destruct Hreq as [-> | ->]; eval_handler;
    unfold Order_save; rewrite Hsave; reflexivity.
Qed.


Lemma updateStatus_notification_rejected_witness :
  updateStatus 2000 Sample.john "order_1" "in_progress"
    (Sample.withOrder (Sample.orderIn "pending"))
  = (Failure "Error updating order status"
       (ValidationError "Notification" ["type"]),
     Sample.withOrder (Sample.orderIn "in_progress")).
Proof.
  apply (proj2 (proj2
           (updateStatus_notification_rejected 2000 Sample.john "order_1"
              "in_progress" (Sample.withOrder (Sample.orderIn "pending"))
              (Sample.orderIn "pending") eq_refl eq_refl eq_refl eq_refl
              (or_introl eq_refl)))).
Defined.

End NotificationFacts.

(** ** Payment reconciliation: the success path against the webhook *)

Module ReconciliationFacts.
Import Payments WebhookFacts.

(** C4, at the input where the code departs from it.  For an order that
    is already paid, the webhook is a no-op, while the success path of a
    paid session rewrites the order again (status back to
    [requirements_pending], a new delivery date) and adds two more
    notifications: it has no guard on [paymentStatus]. *)
Theorem success_repeats_on_paid_order plusDays now session w order :
  Stripe.payment_status session = "paid" ->
  findOne (bySession (Stripe.id session)) (orders w) = Some order ->
  Order.paymentStatus order = "paid" ->
  Order.invalidPaths (paidBySuccess plusDays now session order) = [] ->
  let result :=
    success plusDays now (Stripe.Answers (Some session)) (Stripe.id session) w in
  webhook (completed session) w = (Received, w)
  /\ fst result = Json 200 "Payment successful"
  /\ orders (snd result)
     = store Order._id (paidBySuccess plusDays now session order) (orders w)
  /\ List.length (notifications (snd result)) = 2 + List.length (notifications w).
Proof.
  intros Hpaid Hfind Hstatus Hvalid result. subst result.
  split; [now apply webhook_paid_noop with (order := order)|].
  unfold success, try_catch, bind, stripe_call, Order_findOne.
  eval_handler.
  rewrite Hpaid, String.eqb_refl. eval_handler. rewrite Hfind.
  unfold Order_save. fold (paidBySuccess plusDays now session order).
  rewrite Hvalid.
  unfold Promise_all2, createNotification, Notification.invalidPaths.
  eval_handler.
  repeat split. unfold insert. rewrite !length_app. simpl. lia.
Qed.

Lemma success_repeats_on_paid_order_witness :
  List.length (notifications Sample.afterWebhook) = 2
  /\ List.length
       (notifications
          (snd (success Sample.utc 2000 (Stripe.Answers (Some Sample.session))
                  "cs_test_1" Sample.afterWebhook))) = 4.
Proof.
  split; [vm_compute; reflexivity|].
  set (order := paidOrder Sample.session
                  (Order.set_paymentStatus "pending" (Sample.orderIn "pending"))).
  assert (Hfind : findOne (bySession (Stripe.id Sample.session))
                    (orders Sample.afterWebhook) = Some order)
    by (vm_compute; reflexivity).
  assert (Hvalid : Order.invalidPaths
                     (paidBySuccess Sample.utc 2000 Sample.session order) = [])
    by (vm_compute; reflexivity).
  apply (proj2 (proj2 (proj2
           (success_repeats_on_paid_order Sample.utc 2000 Sample.session
              Sample.afterWebhook order eq_refl Hfind eq_refl Hvalid)))).
Defined.

End ReconciliationFacts.

(** ** What the requests keep of a stored order *)

Module LifetimeFacts.
Import Orders Payments Server LifecycleFacts.

Lemma stable_refl o : stable o o.
Proof. repeat split; auto. Qed.

Lemma stable_trans o1 o2 o3 : stable o1 o2 -> stable o2 o3 -> stable o1 o3.
Proof.
  intros (A1 & A2 & A3 & A4 & A5) (B1 & B2 & B3 & B4 & B5).
  repeat split; try congruence. auto.
Qed.

Lemma grows_refl l : grows l l.
Proof. intros H. split; [exact H|]. intros id o Ho. exists o. split; [exact Ho|apply stable_refl]. Qed.

Lemma grows_trans l1 l2 l3 : grows l1 l2 -> grows l2 l3 -> grows l1 l3.
Proof.
  intros H12 H23 H1. destruct (H12 H1) as (H2 & F12).
  destruct (H23 H2) as (H3 & F23). split; [exact H3|].
  intros id o Ho. destruct (F12 id o Ho) as (o2 & Ho2 & S12).
  destruct (F23 id o2 Ho2) as (o3 & Ho3 & S23).
  exists o3. split; [exact Ho3|]. eapply stable_trans; eassumption.
Qed.

Lemma grows_store_found l o o' :
  findById Order._id (Order._id o) l = Some o -> stable o o' ->
  grows l (store Order._id o' l).
Proof.
  intros Hfind Hst Hu. pose proof Hst as (Hid & _).
  split.
  - unfold uniqueIds. now rewrite map_id_store.
  - intros id x Hx. destruct (String.eqb_spec id (Order._id o')) as [->|Hne].
    + exists o'. split.
      * apply findById_store. rewrite Hid, Hfind. discriminate.
      * rewrite Hid, Hfind in Hx. injection Hx as <-. exact Hst.
    + exists x. split; [|apply stable_refl].
      now rewrite findById_store_other.
Qed.

Lemma findById_unique l o :
  uniqueIds l -> In o l -> findById Order._id (Order._id o) l = Some o.
Proof.
  unfold uniqueIds, findById, findOne.
  induction l as [|x l IH]; intros Hu Hin; [contradiction|].
  simpl in *. inversion Hu as [|? ? Hnotin Hu']; subst.
  destruct Hin as [->|Hin].
  - now rewrite String.eqb_refl.
  - destruct (String.eqb_spec (Order._id x) (Order._id o)) as [E|_].
    + exfalso. apply Hnotin. rewrite E. now apply in_map.
    + now apply IH.
Qed.

Lemma grows_store_in l o o' :
  In o l -> stable o o' -> grows l (store Order._id o' l).
Proof.
  intros Hin Hst Hu. apply grows_store_found with (o := o); auto.
  now apply findById_unique.
Qed.

Lemma grows_insert l o :
  findById Order._id (Order._id o) l = None -> grows l (insert o l).
Proof.
  intros Hnone Hu. split.
  - unfold uniqueIds, insert in *. rewrite map_app. simpl.
    apply NoDup_app; [exact Hu|repeat constructor; simpl; tauto|].
    intros x Hx [<-|[]]. now apply (findById_not_In _ _ _ Hnone).
  - intros id x Hx. exists x. split; [|apply stable_refl].
    now rewrite findById_insert, Hx.
Qed.

Ltac atomic x :=
  lazymatch x with
  | context [match _ with _ => _ end] => fail
  | _ => idtac
  end.

Ltac case_step :=
  match goal with
  | |- context [match ?x with _ => _ end] => atomic x; destruct x eqn:?
  end.

Ltac eval_all :=
  cbn -[String.eqb String.append store updateById insert findOne findById
        transitionAllowed pricingOf grows Order.invalidPaths
        Notification.invalidPaths PrimFloat.ltb PrimFloat.leb lengthNumber];
  repeat (eqb_closed;
          cbn -[String.eqb String.append store updateById insert findOne
                findById transitionAllowed pricingOf grows Order.invalidPaths
                Notification.invalidPaths PrimFloat.ltb PrimFloat.leb
                lengthNumber]).

Ltac crunch := repeat first [progress eval_all | case_step].

Ltac stable_tac :=
  unfold stable; cbn; repeat split; try reflexivity;
  intros; try congruence; auto.

Ltac absurd_case :=
  match goal with
  | H : _ && false = true |- _ => rewrite andb_false_r in H; discriminate H
  | H : false = true |- _ => discriminate H
  | H : true = false |- _ => discriminate H
  end.

Ltac found_current H :=
  let Hid := fresh "Hid" in
  pose proof (findById_id _ _ _ _ H) as Hid; rewrite Hid; exact H.

Ltac leaf :=
  first
    [ apply grows_refl
    | absurd_case
    | match goal with
      | Hfound : findById Order._id ?i ?lst = Some ?ord
        |- grows ?lst (store Order._id ?ord1 ?lst) =>
          apply (grows_store_found lst ord ord1);
          [found_current Hfound|stable_tac]
      | Hfound : findById Order._id ?i ?lst = Some ?ord
        |- grows ?lst (store Order._id ?ord2 (store Order._id ?ord1 ?lst)) =>
          apply (grows_trans lst (store Order._id ord1 lst));
          [ apply (grows_store_found lst ord ord1);
            [found_current Hfound|stable_tac]
          | apply (grows_store_found (store Order._id ord1 lst) ord1 ord2);
            [ apply (findById_store Order._id ord1);
              change (findById Order._id (Order._id ord) lst <> None);
              let Hid := fresh "Hid" in
              pose proof (findById_id _ _ _ _ Hfound) as Hid;
              rewrite Hid, Hfound; discriminate
            | stable_tac ] ]
      | Hfound : findOne ?p ?lst = Some ?ord
        |- grows ?lst (store Order._id ?ord1 ?lst) =>
          apply (grows_store_in lst ord ord1);
          [exact (proj1 (find_some _ _ Hfound))|stable_tac]
      | Hnone : findById Order._id ?i ?lst = None
        |- grows ?lst (insert ?ord ?lst) =>
          apply grows_insert; exact Hnone
      end ].

Ltac handler_grows :=
  unfold try_catch, bind, scheduleAutoComplete, Promise_all2, stripe_call,
    Order_findById, Order_findOne, Order_save_while, Order_save, Order_create,
    createNotification, User_credit, Gig_countOrder, respond, ret, throw;
  crunch; leaf.

Lemma accept_grows now user id w :
  grows (orders w) (orders (snd (accept now user id w))).
Proof. unfold accept. handler_grows. Qed.

Lemma updateStatus_grows now user id status w :
  grows (orders w) (orders (snd (updateStatus now user id status w))).
Proof. unfold updateStatus. handler_grows. Qed.

Lemma deliver_grows now user id message files w :
  grows (orders w) (orders (snd (deliver now user id message files w))).
Proof. unfold deliver. handler_grows. Qed.

Lemma requestRevision_grows now user id message w :
  grows (orders w) (orders (snd (requestRevision now user id message w))).
Proof. unfold requestRevision. handler_grows. Qed.

Lemma cancel_grows now user id reason w :
  grows (orders w) (orders (snd (cancel now user id reason w))).
Proof. unfold cancel. handler_grows. Qed.

Lemma success_grows plusDays now stripe sessionId w :
  grows (orders w) (orders (snd (success plusDays now stripe sessionId w))).
Proof. unfold success. handler_grows. Qed.

Lemma webhook_grows event w :
  grows (orders w) (orders (snd (webhook event w))).
Proof. unfold webhook. handler_grows. Qed.

Lemma createCheckoutSession_grows now newId stripe user gigId packageType w :
  grows (orders w)
    (orders (snd (createCheckoutSession now newId stripe user gigId packageType w))).
Proof. unfold createCheckoutSession. handler_grows. Qed.

Lemma createCustomOfferPayment_grows now newId stripe user receiverId title
    description price deliveryTime revisions w :
  grows (orders w)
    (orders (snd (createCustomOfferPayment now newId stripe user receiverId
                    title description price deliveryTime revisions w))).
Proof. unfold createCustomOfferPayment. handler_grows. Qed.

Lemma handle_grows plusDays now request w :
  grows (orders w) (orders (snd (handle plusDays now request w))).
Proof.
  destruct request; simpl.
  - apply updateStatus_grows.
  - apply deliver_grows.
  - apply requestRevision_grows.
  - apply accept_grows.
  - apply cancel_grows.
  - apply createCheckoutSession_grows.
  - apply createCustomOfferPayment_grows.
  - apply success_grows.
  - apply webhook_grows.
Qed.

Lemma serve_grows plusDays requests : forall w,
  grows (orders w) (orders (serve plusDays requests w)).
Proof.
  induction requests as [|[now request] requests IH]; intros w; simpl.
  - apply grows_refl.
  - eapply grows_trans; [apply handle_grows|apply IH].
Qed.

Lemma store_store d (c : list Order.t) :
  store Order._id d (store Order._id d c) = store Order._id d c.
Proof.
  unfold store. induction c as [|x c IH]; simpl; [reflexivity|].
  destruct (Order._id x =? Order._id d) eqn:Hx; simpl.
  - now rewrite String.eqb_refl.
  - now rewrite Hx, IH.
Qed.

(** A delivery that passes the guards.  When the order has its deadline,
    it is saved by the handler and the buyer is notified.  A first
    delivery is saved by [scheduleAutoComplete]; the handler's own [save]
    is then rejected, so that the answer is 500 and nobody is notified. *)
Lemma deliver_run now user id message files w order :
  findById Order._id id (orders w) = Some order ->
  Order.seller order = User._id user ->
  Order.status order = "in_progress" ->
  Order.invalidPaths order = [] ->
  deliver now user id message files w
  = match Order.autoCompleteAt order with
    | Some _ =>
        (Json 200 "Order delivered successfully",
         set_notifications
           (notifications w
              ++ [ {| Notification.recipient := Order.buyer order;
                      Notification.sender := None;
                      Notification.type := "order_delivered";
                      Notification.title := "Order Delivered";
                      Notification.message :=
                        "Your order has been delivered by " ++ User.username user;
                      Notification.orderId := Some (Order._id order);
                      Notification.isRead := false |} ])
           (set_orders
              (store Order._id (deliveredOrder now message files order) (orders w))
              w))
    | None =>
        (Failure "Error delivering order" (ParallelSaveError "Order"),
         set_orders
           (store Order._id (deliveredOrder now message files order) (orders w))
           w)
    end.
Proof.
  intros Hfind Hseller Hstatus Hvalid.
  unfold deliver, try_catch, bind, Order_findById.
  rewrite Hfind, Hseller, Hstatus, !String.eqb_refl. cbn [negb].
  unfold scheduleAutoComplete, deliveredOrder, Order_save_while, Order_save.
  assert (Hv : forall o', Order.gig o' = Order.gig order ->
                 Order.package o' = Order.package order ->
                 Order.totalAmount o' = Order.totalAmount order ->
                 Order.serviceFee o' = Order.serviceFee order ->
                 Order.netAmount o' = Order.netAmount order ->
                 Order.paymentStatus o' = Order.paymentStatus order ->
                 Order.paymentIntentId o' = Order.paymentIntentId order ->
                 Order.deliveryDate o' = Some (At now) ->
                 Order.status o' = "delivered" ->
                 Order.invalidPaths o' = []).
  { intros o' H1 H2 H3 H4 H5 H6 H7 H8 H9.
    apply (invalidPaths_dated order o' now); auto. now rewrite H9. }
  destruct (Order.autoCompleteAt order) eqn:Hauto; eval_all.
  - rewrite Hauto. eval_all. rewrite Hv by reflexivity.
    unfold createNotification, Notification.invalidPaths. eval_all.
    reflexivity.
  - rewrite Hauto. eval_all. rewrite !Hv by reflexivity. eval_all.
    reflexivity.
Qed.

Lemma deliveredOrder_id now message files order :
  Order._id (deliveredOrder now message files order) = Order._id order.
Proof. unfold deliveredOrder. now destruct (Order.autoCompleteAt order). Qed.

(** C10. [scheduleAutoComplete] assigns [autoCompleteAt] (three days from
    now) when the status is [delivered] and no deadline is set, and is a
    no-op in every other case.  A delivery of an order that already has a
    deadline makes it [delivered] again with a new delivery date and the
    old deadline, while a first delivery sets the deadline.  Through any
    sequence of requests, a deadline that is set stays as it is. *)
Theorem autoCompleteAt_assigned_once :
  (forall now this w,
      (Order.status this = "delivered" /\ Order.autoCompleteAt this = None ->
       fst (scheduleAutoComplete now this w)
       = Value (Order.set_autoCompleteAt (Some (now + three_days)%Z) this, true))
      /\ (Order.status this <> "delivered" \/ Order.autoCompleteAt this <> None ->
          scheduleAutoComplete now this w = (Value (this, false), w)))
  /\ (forall now user id message files w order,
        findById Order._id id (orders w) = Some order ->
        Order.seller order = User._id user ->
        Order.status order = "in_progress" ->
        Order.invalidPaths order = [] ->
        exists order',
          findById Order._id id (orders (snd (deliver now user id message files w)))
          = Some order'
          /\ Order.status order' = "delivered"
          /\ Order.deliveryDate order' = Some (At now)
          /\ Order.autoCompleteAt order'
             = match Order.autoCompleteAt order with
               | Some deadline => Some deadline
               | None => Some (now + three_days)%Z
               end)
  /\ (forall plusDays requests w id order deadline,
        uniqueIds (orders w) ->
        findById Order._id id (orders w) = Some order ->
        Order.autoCompleteAt order = Some deadline ->
        exists order',
          findById Order._id id (orders (serve plusDays requests w)) = Some order'
          /\ Order.autoCompleteAt order' = Some deadline).
Proof.
  split; [|split].
  - intros now this w. unfold scheduleAutoComplete. split.
    + intros (-> & ->). reflexivity.
    + intros [Hstatus|Hauto].
      * destruct (String.eqb_spec (Order.status this) "delivered");
          [contradiction|reflexivity].
      * destruct (Order.autoCompleteAt this); [|contradiction].
        now rewrite andb_false_r.
  - intros now user id message files w order Hfind Hseller Hstatus Hvalid.
    rewrite (deliver_run _ _ _ _ _ _ _ Hfind Hseller Hstatus Hvalid).
    exists (deliveredOrder now message files order).
    pose proof (findById_id _ _ _ _ Hfind) as Hid.
    split.
    + assert (Hstored :
        findById Order._id id
          (store Order._id (deliveredOrder now message files order) (orders w))
        = Some (deliveredOrder now message files order)).
      { rewrite <- Hid, <- (deliveredOrder_id now message files order).
        apply findById_store.
        rewrite deliveredOrder_id, Hid, Hfind. discriminate. }
      destruct (Order.autoCompleteAt order); exact Hstored.
    + unfold deliveredOrder.
      destruct (Order.autoCompleteAt order) eqn:Hauto; cbn; rewrite ?Hauto;
        repeat split.
  - intros plusDays requests w id order deadline Hu Hfind Hauto.
    destruct (serve_grows plusDays requests w Hu) as (_ & Hkeep).
    destruct (Hkeep id order Hfind) as (order' & Hfind' & Hstable).
    exists order'. split; [exact Hfind'|]. now apply Hstable.
Qed.

Lemma autoCompleteAt_assigned_once_witness :
  exists order',
    findById Order._id "order_1"
      (orders (serve Sample.utc
                 [(400000000%Z, PatchStatus Sample.john "order_1" "delivered")]
                 (Sample.withOrder Sample.inRevision)))
    = Some order'
    /\ Order.autoCompleteAt order' = Some 259201000%Z.
Proof.
  apply (proj2 (proj2 autoCompleteAt_assigned_once) Sample.utc
           [(400000000%Z, PatchStatus Sample.john "order_1" "delivered")]
           (Sample.withOrder Sample.inRevision) "order_1" Sample.inRevision).
  - repeat constructor. simpl. tauto.
  - reflexivity.
  - reflexivity.
Defined.

End LifetimeFacts.

(** ** Fees *)

Module FeeFacts.
Import Payments Server NumberFacts LifecycleFacts LifetimeFacts.
Local Open Scope float_scope.

(** [Math.round] gives the nearest integer of the specification: the
    integer division of the code computes the integer part of [v + 1/2]. *)
Lemma Math_round_nearest y : Math_round y = Spec.nearest y.
Proof.
  unfold Math_round, Spec.nearest.
  destruct (Prim2SF y) as [| | |s m [|e|k]]; try reflexivity.
  change (0 <=? Z.neg k)%Z with false. cbv iota.
  unfold Spec.valueOf.
  set (sm := if s then Z.neg m else Z.pos m).
  assert (Hn : ((2 * sm + 2 ^ (- Z.neg k)) / 2 ^ (1 - Z.neg k))%Z
               = Qround.Qfloor
                   (QArith_base.Qplus (QArith_base.Qmake sm (2 ^ k))
                      (QArith_base.Qmake 1 2))).
  { unfold Qround.Qfloor, QArith_base.Qplus.
    cbn [QArith_base.Qnum QArith_base.Qden].
    rewrite Pos2Z.inj_mul, Pos2Z.inj_pow.
    change (- Z.neg k)%Z with (Z.pos k).
    replace (1 - Z.neg k)%Z with (Z.succ (Z.pos k)) by lia.
    rewrite Z.pow_succ_r by lia. f_equal; lia. }
  rewrite Hn. unfold Spec.integer.
  destruct (Qround.Qfloor _); reflexivity.
Qed.





Lemma newCheckoutOrder_netAmount now newId buyerId sellerId gigId packageType
    packageDetails :
  Order.netAmount (newCheckoutOrder now newId buyerId sellerId gigId packageType
                     packageDetails)
  = Spec.netAmount (Package.price packageDetails).
Proof.
  cbn [newCheckoutOrder Order.netAmount].
  unfold Spec.netAmount, Spec.round2. now rewrite Math_round_nearest.
Qed.

(** The three amounts of a checkout are numbers exactly when the price of
    the package is finite. *)
Lemma newCheckoutOrder_numbers now newId buyerId sellerId gigId packageType
    packageDetails :
  let order := newCheckoutOrder now newId buyerId sellerId gigId packageType
                 packageDetails in
  isFinite (Package.price packageDetails) = true
  <-> is_nan (Order.totalAmount order) = false
      /\ is_nan (Order.serviceFee order) = false
      /\ is_nan (Order.netAmount order) = false.
Proof.
  intros order. subst order.
  cbn [newCheckoutOrder Order.totalAmount Order.serviceFee Order.netAmount].
  set (p := Package.price packageDetails). split.
  - intros Hf. pose proof (isFinite_not_nan _ Hf) as Hn.
    assert (Hround : forall c s m e,
               Prim2SF c = S754_finite s m e ->
               is_nan (Math_round (p * c * 100) / 100) = false).
    { intros c s m e Hc.
      apply (div_finite_not_nan _ 100%float false 7036874417766400 (-46));
        [vm_compute; reflexivity|].
      apply Math_round_not_nan.
      apply (mul_finite_not_nan _ 100%float false 7036874417766400 (-46));
        [vm_compute; reflexivity|].
      now apply (mul_finite_not_nan _ c s m e). }
    assert (Hfee : is_nan (Math_max 2 (Math_round (p * 0.05 * 100) / 100)) = false).
    { apply Math_max_not_nan; [reflexivity|].
      eapply Hround. vm_compute. reflexivity. }
    repeat split.
    + now apply add_finite_not_nan.
    + exact Hfee.
    + apply sub_finite_not_nan; [exact Hf|].
      eapply Hround. vm_compute. reflexivity.
  - intros (Ht & _ & Hnet). destruct (isFinite p) eqn:Hf; [reflexivity|].
    destruct (not_finite _ Hf) as [E|[E|E]]; rewrite E in Ht, Hnet;
      vm_compute in Ht, Hnet; discriminate.
Qed.







End FeeFacts.

(** ** The order routes: who may act, and on which orders *)

Module OrderRouteFacts.
Import Orders Outcome LifecycleFacts LifetimeFacts.

Lemma includes_In x l : includes x l = true <-> In x l.
Proof.
  unfold includes. rewrite existsb_exists. split.
  - intros (y & Hin & Heq). apply String.eqb_eq in Heq. now subst.
  - intros Hin. exists x. split; [exact Hin|apply String.eqb_refl].
Qed.

Lemma includes_not_In x l : ~ In x l -> includes x l = false.
Proof.
  intros H. destruct (includes x l) eqn:E; [|reflexivity].
  apply includes_In in E. contradiction.
Qed.

Lemma found_after_store id (o o' : Order.t) l :
  findById Order._id id l = Some o -> Order._id o' = Order._id o ->
  findById Order._id id (store Order._id o' l) = Some o'.
Proof.
  intros Hfind Hid. pose proof (findById_id _ _ _ _ Hfind) as <-.
  rewrite <- Hid. apply findById_store. rewrite Hid, Hfind. discriminate.
Qed.

Lemma cancel_run now user id reason w order :
  findById Order._id id (orders w) = Some order ->
  (Order.buyer order =? User._id user) || (Order.seller order =? User._id user) = true ->
  includes (Order.status order) terminal = false ->
  Order.invalidPaths order = [] ->
  cancel now user id reason w
  = (Json 200 "Order cancelled successfully",
     set_notifications
       (notifications w
          ++ [ {| Notification.recipient :=
                    if Order.buyer order =? User._id user
                    then Order.seller order else Order.buyer order;
                  Notification.sender := None;
                  Notification.type := "order_cancelled";
                  Notification.title := "Order Cancelled";
                  Notification.message :=
                    "Order has been cancelled by " ++ User.username user;
                  Notification.orderId := Some (Order._id order);
                  Notification.isRead := false |} ])
       (set_orders
          (store Order._id (cancelledOrder now user reason order) (orders w)) w)).
Proof.
  intros Hfind Hauth Hstatus Hvalid.
  unfold cancel, try_catch, bind, Order_findById.
  rewrite Hfind, Hauth. cbn [negb].
  change ["completed"; "cancelled"; "disputed"] with terminal.
  rewrite Hstatus.
  unfold Order_save. fold (cancelledOrder now user reason order).
  rewrite (invalidPaths_same order (cancelledOrder now user reason order))
    by (try reflexivity; exact Hvalid).
  unfold createNotification, Notification.invalidPaths.
  eval_all. reflexivity.
Qed.

(** X1. Either party can cancel an order that is not completed, cancelled
    or disputed.  The order becomes [cancelled] at once, with the
    requester, the reason and the time of the request recorded and the
    cancellation marked approved; its payment status and amounts stay as
    they were, no user or gig document changes, and one [order_cancelled]
    notification goes to the other party. *)
Theorem cancel_by_either_party now user id reason w order :
  findById Order._id id (orders w) = Some order ->
  Order.buyer order = User._id user \/ Order.seller order = User._id user ->
  ~ In (Order.status order) terminal ->
  Order.invalidPaths order = [] ->
  let w' := snd (cancel now user id reason w) in
  fst (cancel now user id reason w) = Json 200 "Order cancelled successfully"
  /\ (exists order',
        findById Order._id id (orders w') = Some order'
        /\ Order.status order' = "cancelled"
        /\ Order.cancellation order'
           = Some {| Cancellation.reason := reason;
                     Cancellation.requestedBy := User._id user;
                     Cancellation.requestedAt := now;
                     Cancellation.approved := true;
                     Cancellation.approvedAt := now |}
        /\ Order.paymentStatus order' = Order.paymentStatus order
        /\ Order.netAmount order' = Order.netAmount order)
  /\ (exists n,
        notifications w' = notifications w ++ [n]
        /\ Notification.type n = "order_cancelled"
        /\ Notification.recipient n
           = (if Order.buyer order =? User._id user
              then Order.seller order else Order.buyer order))
  /\ users w' = users w
  /\ gigs w' = gigs w.
Proof.
  intros Hfind Hparty Hstatus Hvalid w'. subst w'.
  rewrite (cancel_run _ _ _ reason _ _ Hfind); [|  |now apply includes_not_In|exact Hvalid].
  - cbn [fst snd]. split; [reflexivity|]. split; [|split; [|split; reflexivity]].
    + exists (cancelledOrder now user reason order).
      split; [|repeat split].
      now apply (found_after_store id order).
    + eexists. split; [reflexivity|]. split; reflexivity.
  - destruct Hparty as [-> | ->]; rewrite String.eqb_refl;
      [reflexivity|apply orb_true_r].
Qed.

Lemma cancel_by_either_party_witness :
  fst (cancel 3000 Sample.john "order_1" "Client unreachable"
         (Sample.withOrder (Sample.orderIn "in_progress")))
  = Json 200 "Order cancelled successfully".
Proof.
  refine (proj1 (cancel_by_either_party 3000 Sample.john "order_1"
                   "Client unreachable"
                   (Sample.withOrder (Sample.orderIn "in_progress"))
                   (Sample.orderIn "in_progress") eq_refl (or_intror eq_refl) _ eq_refl)).
  simpl. intros [H|[H|[H|[]]]]; discriminate H.
Defined.

Lemma transitionAllowed_terminal current requested :
  In current terminal -> transitionAllowed current requested = false.
Proof.
  intros [<-|[<-|[<-|[]]]]; reflexivity.
Qed.

(** X2. An order that is completed, cancelled or disputed is final for
    the order routes: whoever calls the generic status update, deliver,
    the revision request, accept or cancel on it gets a 400 or a 403, and
    no store changes. *)
Theorem terminal_orders_are_final now user id requested message files reason
    w order :
  findById Order._id id (orders w) = Some order ->
  In (Order.status order) terminal ->
  forall result,
    In result [ updateStatus now user id requested w;
                deliver now user id message files w;
                requestRevision now user id message w;
                accept now user id w;
                cancel now user id reason w ] ->
    snd result = w
    /\ exists code text, fst result = Json code text /\ (code = 400 \/ code = 403).
Proof.
  intros Hfind Hterm result Hin.
  pose proof (transitionAllowed_terminal _ requested Hterm) as Hguard.
  assert (Hinc : includes (Order.status order) ["completed"; "cancelled"; "disputed"] = true)
    by now apply includes_In.
  assert (Hd : (Order.status order =? "delivered") = false)
    by (destruct Hterm as [<-|[<-|[<-|[]]]]; reflexivity).
  assert (Hp : (Order.status order =? "in_progress") = false)
    by (destruct Hterm as [<-|[<-|[<-|[]]]]; reflexivity).
  simpl in Hin.
  destruct Hin as [<-|[<-|[<-|[<-|[<-|[]]]]]].
  - unfold updateStatus, try_catch, bind, Order_findById. rewrite Hfind, Hguard.
    destruct (Order.seller order =? User._id user); cbn;
      (split; [reflexivity|]); do 2 eexists; (split; [reflexivity|]); auto.
  - unfold deliver, try_catch, bind, Order_findById. rewrite Hfind, Hp.
    destruct (Order.seller order =? User._id user); cbn;
      (split; [reflexivity|]); do 2 eexists; (split; [reflexivity|]); auto.
  - unfold requestRevision, try_catch, bind, Order_findById. rewrite Hfind, Hd.
    destruct (Order.buyer order =? User._id user); cbn;
      (split; [reflexivity|]); do 2 eexists; (split; [reflexivity|]); auto.
  - unfold accept, try_catch, bind, Order_findById. rewrite Hfind, Hd.
    destruct (Order.buyer order =? User._id user); cbn;
      (split; [reflexivity|]); do 2 eexists; (split; [reflexivity|]); auto.
  - unfold cancel, try_catch, bind, Order_findById. rewrite Hfind, Hinc.
    destruct ((Order.buyer order =? User._id user)
              || (Order.seller order =? User._id user)); cbn;
      (split; [reflexivity|]); do 2 eexists; (split; [reflexivity|]); auto.
Qed.

Lemma terminal_orders_are_final_witness :
  snd (cancel 3000 Sample.mike "order_1" "Changed my mind"
         (Sample.withOrder (Sample.orderIn "completed")))
  = Sample.withOrder (Sample.orderIn "completed").
Proof.
  refine (proj1 (terminal_orders_are_final 3000 Sample.mike "order_1"
                   "delivered" "" [] "Changed my mind"
                   (Sample.withOrder (Sample.orderIn "completed"))
                   (Sample.orderIn "completed") eq_refl _ _ _)).
  - simpl. auto.
  - simpl. auto 10.
Defined.

(** X3. Each order route acts for one role only.  The generic status
    update and deliver answer 403 to anyone but the seller of the order,
    the revision request and accept to anyone but its buyer, and cancel to
    anyone who is neither; an unknown order id gives 404.  In all these
    cases the stores are as before. *)
Theorem order_routes_check_the_role now user id requested message files reason w :
  (findById Order._id id (orders w) = None ->
   updateStatus now user id requested w = (Json 404 "Order not found", w)
   /\ deliver now user id message files w = (Json 404 "Order not found", w)
   /\ requestRevision now user id message w = (Json 404 "Order not found", w)
   /\ accept now user id w = (Json 404 "Order not found", w)
   /\ cancel now user id reason w = (Json 404 "Order not found", w))
  /\ (forall order,
        findById Order._id id (orders w) = Some order ->
        (Order.seller order <> User._id user ->
         updateStatus now user id requested w
         = (Json 403 "Only seller can update order status", w)
         /\ deliver now user id message files w
            = (Json 403 "Only seller can deliver order", w))
        /\ (Order.buyer order <> User._id user ->
            requestRevision now user id message w
            = (Json 403 "Only buyer can request revision", w)
            /\ accept now user id w = (Json 403 "Only buyer can accept order", w))
        /\ (Order.buyer order <> User._id user ->
            Order.seller order <> User._id user ->
            cancel now user id reason w
            = (Json 403 "Not authorized to cancel this order", w))).
Proof.
  split.
  - intros Hnone.
    unfold updateStatus, deliver, requestRevision, accept, cancel, try_catch,
      bind, Order_findById.
    rewrite Hnone. repeat split.
  - intros order Hfind.
    unfold updateStatus, deliver, requestRevision, accept, cancel, try_catch,
      bind, Order_findById.
    rewrite Hfind. split; [|split].
    + intros Hs. apply String.eqb_neq in Hs. rewrite Hs. split; reflexivity.
    + intros Hb. apply String.eqb_neq in Hb. rewrite Hb. split; reflexivity.
    + intros Hb Hs. apply String.eqb_neq in Hb, Hs. rewrite Hb, Hs. reflexivity.
Qed.

Lemma order_routes_check_the_role_witness :
  deliver 3000 Sample.mike "order_1" "Done" []
    (Sample.withOrder (Sample.orderIn "in_progress"))
  = (Json 403 "Only seller can deliver order",
     Sample.withOrder (Sample.orderIn "in_progress")).
Proof.
  refine (proj2 (proj1 (proj2 (order_routes_check_the_role 3000 Sample.mike
                                "order_1" "delivered" "Done" [] ""
                                (Sample.withOrder (Sample.orderIn "in_progress")))
                          (Sample.orderIn "in_progress") eq_refl) _)).
  discriminate.
Defined.

(** X4. A delivery is accepted from the seller for an order in progress
    only; in any other status the answer is 400 and nothing changes.  The
    stored order gets one delivery record with the message, the files and
    the time of the request, the status [delivered] and a deadline, and
    keeps its revision requests.  When the order already had its deadline,
    the answer is 200 and the buyer gets one [order_delivered]
    notification.  On a first delivery [scheduleAutoComplete] is the one
    that saves the order, the handler's own [save] is rejected as a
    parallel save, and the seller is answered 500 with nobody notified. *)
Theorem deliver_records_the_delivery now user id message files w order :
  findById Order._id id (orders w) = Some order ->
  Order.seller order = User._id user ->
  Order.invalidPaths order = [] ->
  (Order.status order <> "in_progress" ->
   deliver now user id message files w
   = (Json 400 "Order must be in progress to deliver", w))
  /\ (Order.status order = "in_progress" ->
      let w' := snd (deliver now user id message files w) in
      (exists order',
            findById Order._id id (orders w') = Some order'
            /\ Order.status order' = "delivered"
            /\ Order.deliveries order'
               = Order.deliveries order
                   ++ [ {| Delivery.message := message;
                           Delivery.files := files;
                           Delivery.deliveredAt := now |} ]
            /\ Order.revisions order' = Order.revisions order
            /\ Order.autoCompleteAt order' <> None)
      /\ users w' = users w
      /\ gigs w' = gigs w
      /\ (Order.autoCompleteAt order <> None ->
          fst (deliver now user id message files w)
          = Json 200 "Order delivered successfully"
          /\ exists n,
               notifications w' = notifications w ++ [n]
               /\ Notification.type n = "order_delivered"
               /\ Notification.recipient n = Order.buyer order)
      /\ (Order.autoCompleteAt order = None ->
          fst (deliver now user id message files w)
          = Failure "Error delivering order" (ParallelSaveError "Order")
          /\ notifications w' = notifications w)).
Proof.
  intros Hfind Hseller Hvalid. split.
  - intros Hstatus. apply String.eqb_neq in Hstatus.
    unfold deliver, try_catch, bind, Order_findById.
    now rewrite Hfind, Hseller, String.eqb_refl, Hstatus.
  - intros Hstatus w'. subst w'.
    rewrite (deliver_run _ _ _ message files _ _ Hfind Hseller Hstatus Hvalid).
    assert (Hstored :
      findById Order._id id
        (store Order._id (deliveredOrder now message files order) (orders w))
      = Some (deliveredOrder now message files order)).
    { apply (found_after_store id order); [exact Hfind|].
      apply deliveredOrder_id. }
    split; [|split; [|split; [|split]]].
    + exists (deliveredOrder now message files order). split.
      * destruct (Order.autoCompleteAt order); exact Hstored.
      * unfold deliveredOrder.
        destruct (Order.autoCompleteAt order) eqn:Hauto; cbn; rewrite ?Hauto;
          repeat split; discriminate.
    + destruct (Order.autoCompleteAt order); reflexivity.
    + destruct (Order.autoCompleteAt order); reflexivity.
    + destruct (Order.autoCompleteAt order); [intros _|intros H; now elim H].
      cbn [fst snd]. split; [reflexivity|].
      eexists. split; [reflexivity|]. split; reflexivity.
    + intros ->. cbn [fst snd]. split; reflexivity.
Qed.

Lemma deliver_records_the_delivery_witness :
  fst (deliver 4000 Sample.john "order_1" "Here is the website" []
         (Sample.withOrder (Sample.orderIn "in_progress")))
  = Failure "Error delivering order" (ParallelSaveError "Order")
  /\ fst (deliver 400000000 Sample.john "order_1" "Here is the header" []
            (Sample.withOrder (Order.set_status "in_progress" Sample.inRevision)))
     = Json 200 "Order delivered successfully".
Proof.
  split.
  - exact (proj1 (proj2 (proj2 (proj2 (proj2
             (proj2 (deliver_records_the_delivery 4000 Sample.john "order_1"
                       "Here is the website" []
                       (Sample.withOrder (Sample.orderIn "in_progress"))
                       (Sample.orderIn "in_progress") eq_refl eq_refl eq_refl)
                eq_refl)))) eq_refl)).
  - refine (proj1 (proj1 (proj2 (proj2 (proj2
              (proj2 (deliver_records_the_delivery 400000000 Sample.john
                        "order_1" "Here is the header" []
                        (Sample.withOrder
                           (Order.set_status "in_progress" Sample.inRevision))
                        (Order.set_status "in_progress" Sample.inRevision)
                        eq_refl eq_refl eq_refl)
                 eq_refl)))) _)).
    discriminate.
Defined.

Lemma updateStatus_completed_run now user id w order :
  findById Order._id id (orders w) = Some order ->
  Order.seller order = User._id user ->
  Order.status order = "delivered" ->
  Order.invalidPaths order = [] ->
  updateStatus now user id "completed" w
  = (Json 200 "Order status updated successfully",
     set_notifications
       (notifications w
          ++ [ {| Notification.recipient := Order.buyer order;
                  Notification.sender := None;
                  Notification.type := "order_completed";
                  Notification.title := "Order completed";
                  Notification.message := "Your order has been completed";
                  Notification.orderId := Some (Order._id order);
                  Notification.isRead := false |} ])
       (set_orders
          (store Order._id (completedOrder now order) (orders w))
          (snd (Gig_countOrder (Order.gig order)
                  (snd (User_credit (Order.seller order)
                          (Order.netAmount order) w)))))).
Proof.
  intros Hfind Hseller Hstatus Hvalid.
  assert (HU : forall i a w0, User_credit i a w0 = (Value tt, snd (User_credit i a w0)))
    by reflexivity.
  assert (HG : forall i w0, Gig_countOrder i w0 = (Value tt, snd (Gig_countOrder i w0)))
    by (intros [?|] ?; reflexivity).
  assert (Hs : (Order.seller order =? User._id user) = true)
    by (rewrite Hseller; apply String.eqb_refl).
  match goal with |- _ = ?rhs => set (expected := rhs) end.
  unfold updateStatus, try_catch, bind, Order_findById.
  rewrite Hfind, Hs, Hstatus. cbn [negb].
  change (transitionAllowed "delivered" "completed") with true. cbn [negb].
  change ("completed" =? "delivered") with false.
  change ("completed" =? "completed") with true. cbn iota.
  cbn [Order.seller Order.netAmount Order.gig Order.set_completedAt
       Order.set_status].
  rewrite HU, HG. unfold ret at 1.
  unfold Order_save_while, Order_save. fold (completedOrder now order).
  rewrite (invalidPaths_same order (completedOrder now order))
    by (try reflexivity; exact Hvalid).
  unfold createNotification, Notification.invalidPaths.
  eval_handler.
  unfold ret, insert.
  assert (HGo : forall i w0, orders (snd (Gig_countOrder i w0)) = orders w0)
    by (intros [?|] ?; reflexivity).
  assert (HGn : forall i w0, notifications (snd (Gig_countOrder i w0)) = notifications w0)
    by (intros [?|] ?; reflexivity).
  rewrite HGo, HGn. reflexivity.
Qed.

(** X5. The seller can complete a delivered order alone: the generic
    status update to [completed] leaves the same orders, users and gigs
    as the buyer's accept does, so the seller is credited the net amount
    and the gig counts one more order without any action of the buyer.
    Only the notification differs: it goes to the buyer. *)
Theorem seller_completes_like_accept now seller buyer id w order :
  findById Order._id id (orders w) = Some order ->
  Order.seller order = User._id seller ->
  Order.buyer order = User._id buyer ->
  Order.status order = "delivered" ->
  Order.invalidPaths order = [] ->
  let bySeller := updateStatus now seller id "completed" w in
  let byBuyer := accept now buyer id w in
  fst bySeller = Json 200 "Order status updated successfully"
  /\ orders (snd bySeller) = orders (snd byBuyer)
  /\ users (snd bySeller) = users (snd byBuyer)
  /\ gigs (snd bySeller) = gigs (snd byBuyer)
  /\ findById Order._id id (orders (snd bySeller)) = Some (completedOrder now order)
  /\ users (snd bySeller)
     = users (snd (User_credit (Order.seller order) (Order.netAmount order) w))
  /\ (exists n,
        notifications (snd bySeller) = notifications w ++ [n]
        /\ Notification.recipient n = Order.buyer order
        /\ Notification.type n = "order_completed").
Proof.
  intros Hfind Hseller Hbuyer Hstatus Hvalid bySeller byBuyer.
  subst bySeller byBuyer.
  rewrite (updateStatus_completed_run _ _ _ _ _ Hfind Hseller Hstatus Hvalid).
  rewrite (accept_run _ _ _ _ _ Hfind Hbuyer Hstatus Hvalid).
  cbn [fst snd]. repeat split.
  - now apply (found_after_store id order).
  - destruct (Order.gig order); reflexivity.
  - eexists. split; [reflexivity|]. split; reflexivity.
Qed.

Lemma seller_completes_like_accept_witness :
  fst (updateStatus 5000 Sample.john "order_1" "completed"
         (Sample.withOrder (Sample.orderIn "delivered")))
  = Json 200 "Order status updated successfully".
Proof.
  exact (proj1 (seller_completes_like_accept 5000 Sample.john Sample.mike
                  "order_1" (Sample.withOrder (Sample.orderIn "delivered"))
                  (Sample.orderIn "delivered") eq_refl eq_refl eq_refl eq_refl
                  eq_refl)).
Defined.

Lemma allowed_targets current requested :
  transitionAllowed current requested = true ->
  In requested
    ["requirements_pending"; "in_progress"; "cancelled"; "delivered"; "completed"].
Proof.
  unfold transitionAllowed, prop, validTransitions.
  cbn -[String.eqb includes].
  repeat match goal with
         | |- context [if ?b then _ else _] => destruct b
         end;
    cbn -[includes]; try discriminate;
    intros H; apply includes_In in H; simpl in *; intuition auto.
Qed.

(** X6. When the generic status update passes its guards, it answers 200
    exactly for the targets completed and cancelled, and for delivered
    when the order already has its deadline.  For each of the three
    targets the stored order has the requested status, with its deliveries
    and its cancellation record untouched.  With the answer 200 the buyer
    gets one notification, whose type [order_<status>] is one the
    Notification schema knows.  The update to delivered of an order
    without deadline is saved by [scheduleAutoComplete]; the handler's own
    [save] is rejected as a parallel save, so the answer is 500 and the
    buyer is not notified. *)
Theorem updateStatus_notifies_the_buyer now user id requested w order :
  findById Order._id id (orders w) = Some order ->
  Order.seller order = User._id user ->
  Order.invalidPaths order = [] ->
  transitionAllowed (Order.status order) requested = true ->
  let result := updateStatus now user id requested w in
  (fst result = Json 200 "Order status updated successfully"
   <-> In requested ["completed"; "cancelled"]
       \/ (requested = "delivered" /\ Order.autoCompleteAt order <> None))
  /\ (In requested ["delivered"; "completed"; "cancelled"] ->
      exists order',
        findById Order._id id (orders (snd result)) = Some order'
        /\ Order.status order' = requested
        /\ Order.deliveries order' = Order.deliveries order
        /\ Order.cancellation order' = Order.cancellation order)
  /\ (fst result = Json 200 "Order status updated successfully" ->
      exists n,
        notifications (snd result) = notifications w ++ [n]
        /\ Notification.recipient n = Order.buyer order
        /\ Notification.type n = ("order_" ++ requested)%string
        /\ In (Notification.type n) Notification.typeEnum)
  /\ (requested = "delivered" -> Order.autoCompleteAt order = None ->
      fst result
      = Failure "Error updating order status" (ParallelSaveError "Order")
      /\ notifications (snd result) = notifications w).
Proof.
  intros Hfind Hseller Hvalid Hguard result. subst result.
  pose proof (allowed_targets _ _ Hguard) as Htarget.
  assert (Hv : forall o', Order.gig o' = Order.gig order ->
                 Order.package o' = Order.package order ->
                 Order.totalAmount o' = Order.totalAmount order ->
                 Order.serviceFee o' = Order.serviceFee order ->
                 Order.netAmount o' = Order.netAmount order ->
                 Order.paymentStatus o' = Order.paymentStatus order ->
                 Order.paymentIntentId o' = Order.paymentIntentId order ->
                 Order.deliveryDate o' = Order.deliveryDate order ->
                 includes (Order.status o') Order.statusEnum = true ->
                 Order.invalidPaths o' = []).
  { intros o' H1 H2 H3 H4 H5 H6 H7 H8 H9. now apply (invalidPaths_same order). }
  assert (Hd : forall o', Order.gig o' = Order.gig order ->
                 Order.package o' = Order.package order ->
                 Order.totalAmount o' = Order.totalAmount order ->
                 Order.serviceFee o' = Order.serviceFee order ->
                 Order.netAmount o' = Order.netAmount order ->
                 Order.paymentStatus o' = Order.paymentStatus order ->
                 Order.paymentIntentId o' = Order.paymentIntentId order ->
                 Order.deliveryDate o' = Some (At now) ->
                 includes (Order.status o') Order.statusEnum = true ->
                 Order.invalidPaths o' = []).
  { intros o' H1 H2 H3 H4 H5 H6 H7 H8 H9.
    now apply (invalidPaths_dated order o' now). }
  pose proof (findById_id _ _ _ _ Hfind) as Hid.
  simpl in Htarget.
  destruct Htarget as [<-|[<-|[<-|[<-|[<-|[]]]]]];
    [| | | |
     assert (Hstatus : Order.status order = "delivered");
     [ revert Hguard; unfold transitionAllowed, prop, validTransitions;
       cbn -[String.eqb includes];
       repeat match goal with
              | |- context [if ?b then _ else _] => destruct b eqn:?
              end; cbn; try discriminate;
       intros _;
       match goal with
       | H : (_ =? _) = true |- _ => apply String.eqb_eq in H; now rewrite <- H
       end
     | rewrite (updateStatus_completed_run _ _ _ _ _ Hfind Hseller Hstatus Hvalid);
       cbn [fst snd] ] ];
    [ unfold updateStatus, try_catch, bind, Order_findById;
      rewrite Hfind, Hseller, String.eqb_refl, Hguard; cbn [negb] .. | ].
  - eval_all. unfold Order_save_while, Order_save. rewrite Hv by reflexivity.
    unfold createNotification, Notification.invalidPaths. eval_all.
    split; [split; [discriminate|intros [[H|[H|[]]]|[H _]]; discriminate H]|].
    split; [intros [H|[H|[H|[]]]]; discriminate H|].
    split; [discriminate|intros H; discriminate H].
  - eval_all. unfold Order_save_while, Order_save. rewrite Hv by reflexivity.
    unfold createNotification, Notification.invalidPaths. eval_all.
    split; [split; [discriminate|intros [[H|[H|[]]]|[H _]]; discriminate H]|].
    split; [intros [H|[H|[H|[]]]]; discriminate H|].
    split; [discriminate|intros H; discriminate H].
  - eval_all. unfold Order_save_while, Order_save. rewrite Hv by reflexivity.
    unfold createNotification, Notification.invalidPaths. eval_all.
    split; [split; [intros _; left; simpl; auto|reflexivity]|].
    split; [intros _|split; [intros _|intros H; discriminate H]].
    + eexists.
      split; [apply (found_after_store id order); [exact Hfind|reflexivity]|].
      repeat split.
    + eexists. split; [reflexivity|]. repeat split; simpl; auto 10.
  - eval_all. unfold scheduleAutoComplete, Order_save_while, Order_save.
    destruct (Order.autoCompleteAt order) eqn:Hauto; eval_all; rewrite ?Hauto;
      eval_all; rewrite ?Hd by reflexivity; eval_all;
      unfold createNotification, Notification.invalidPaths; eval_all.
    + split; [split; [intros _; right; split; [reflexivity|discriminate]
                     |reflexivity]|].
      split; [intros _|split; [intros _|intros _ H; discriminate H]].
      * eexists.
        split; [apply (found_after_store id order); [exact Hfind|reflexivity]|].
        repeat split.
      * eexists. split; [reflexivity|]. repeat split; simpl; auto 10.
    + split; [split; [discriminate
                     |intros [[H|[H|[]]]|[_ H]];
                      [discriminate H|discriminate H|now elim H]]|].
      split; [intros _|split; [discriminate|intros _ _; split; reflexivity]].
      eexists.
      split; [apply (found_after_store id order); [exact Hfind|reflexivity]|].
      repeat split.
  - split; [split; [intros _; left; simpl; auto|reflexivity]|].
    split; [intros _|split; [intros _|intros H; discriminate H]].
    + eexists.
      split; [cbn [orders set_orders set_notifications];
              apply (found_after_store id order); [exact Hfind|reflexivity]|].
      repeat split.
    + eexists. split; [reflexivity|]. repeat split; simpl; auto 10.
Qed.

Lemma updateStatus_notifies_the_buyer_witness :
  fst (updateStatus 4000 Sample.john "order_1" "delivered"
         (Sample.withOrder (Sample.orderIn "in_progress")))
  = Failure "Error updating order status" (ParallelSaveError "Order")
  /\ fst (updateStatus 400000000 Sample.john "order_1" "delivered"
            (Sample.withOrder Sample.inRevision))
     = Json 200 "Order status updated successfully".
Proof.
  split.
  - exact (proj1 (proj2 (proj2 (proj2
             (updateStatus_notifies_the_buyer 4000 Sample.john "order_1"
                "delivered" (Sample.withOrder (Sample.orderIn "in_progress"))
                (Sample.orderIn "in_progress") eq_refl eq_refl eq_refl eq_refl)))
             eq_refl eq_refl)).
  - apply (proj1 (updateStatus_notifies_the_buyer 400000000 Sample.john
                    "order_1" "delivered" (Sample.withOrder Sample.inRevision)
                    Sample.inRevision eq_refl eq_refl eq_refl eq_refl)).
    right. split; [reflexivity|discriminate].
Defined.

End OrderRouteFacts.

(** ** The payment routes: what a checkout stores and what the events of
       Stripe do to it *)

Module PaymentRouteFacts.
Import Orders Payments Outcome NumberFacts LifecycleFacts LifetimeFacts FeeFacts.

Lemma pricingOf_enum gig packageType packageDetails :
  pricingOf gig packageType = Some packageDetails ->
  includes packageType Order.packageEnum = true.
Proof.
  unfold pricingOf, prop, includes, Order.packageEnum.
  cbn -[String.eqb].
  rewrite (String.eqb_sym packageType "basic"),
    (String.eqb_sym packageType "standard"),
    (String.eqb_sym packageType "premium").
  destruct ("basic" =? packageType); [reflexivity|].
  destruct ("standard" =? packageType); [reflexivity|].
  destruct ("premium" =? packageType); [reflexivity|discriminate].
Qed.

Lemma checkout_inversion now newId stripe user gigId packageType w sessionId
    orderId :
  fst (createCheckoutSession now newId stripe user gigId packageType w)
  = Checkout sessionId orderId ->
  exists session gig freelancer packageDetails,
    stripe = Stripe.Answers (Some session)
    /\ Stripe.id session = sessionId
    /\ orderId = newId
    /\ findById Gig._id gigId (gigs w) = Some gig
    /\ Gig.isActive gig = true
    /\ Gig.isPaused gig = false
    /\ findById User._id (Gig.freelancer gig) (users w) = Some freelancer
    /\ User._id freelancer <> User._id user
    /\ pricingOf gig packageType = Some packageDetails
    /\ findById Order._id newId (orders w) = None
    /\ Order.invalidPaths
         (checkoutOrder now newId (User._id user) (User._id freelancer)
            gigId packageType packageDetails session) = []
    /\ snd (createCheckoutSession now newId stripe user gigId packageType w)
       = set_orders
           (insert
              (checkoutOrder now newId (User._id user) (User._id freelancer)
                 gigId packageType packageDetails session)
              (orders w)) w.
Proof.
  unfold createCheckoutSession.
  unfold try_catch, bind, stripe_call, Order_create, respond, ret, throw.
  crunch; try discriminate.
  intros Hresp. injection Hresp as <- <-.
  match goal with
  | Hs : stripe = Stripe.Answers (Some ?s),
    Hg : findById Gig._id gigId (gigs w) = Some ?g,
    Hf : findById User._id _ (users w) = Some ?f,
    Hp : pricingOf _ _ = Some ?d,
    Ha : negb _ || _ = false,
    Hb : (_ =? _) = false |- _ =>
      exists s, g, f, d;
      apply orb_false_elim in Ha as (Ha1 & Ha2);
      apply negb_false_iff in Ha1; apply String.eqb_neq in Hb
  end.
  repeat split; auto.
Qed.

(** X7. A gig checkout answers with a session only when Stripe is
    configured and has answered, the gig exists, is active and not paused,
    the buyer is not the freelancer of the gig, the package type is one of
    the gig's three and the price of that tier is a finite number; every
    other request leaves all stores as they were.  These conditions are
    also enough when the order id is new and the Stripe session has an
    id.  A tier without price gives the amounts NaN, which the Order
    schema refuses. *)
Theorem checkout_succeeds_exactly_when now newId stripe user gigId packageType w :
  let result := createCheckoutSession now newId stripe user gigId packageType w in
  ((forall sessionId orderId, fst result <> Checkout sessionId orderId) ->
   snd result = w)
  /\ (forall sessionId orderId,
        fst result = Checkout sessionId orderId ->
        exists session gig freelancer packageDetails,
          stripe = Stripe.Answers (Some session)
          /\ Stripe.id session = sessionId
          /\ findById Gig._id gigId (gigs w) = Some gig
          /\ Gig.isActive gig = true
          /\ Gig.isPaused gig = false
          /\ findById User._id (Gig.freelancer gig) (users w) = Some freelancer
          /\ User._id freelancer <> User._id user
          /\ In packageType ["basic"; "standard"; "premium"]
          /\ pricingOf gig packageType = Some packageDetails
          /\ isFinite (Package.price packageDetails) = true)
  /\ (forall session gig freelancer packageDetails,
        stripe = Stripe.Answers (Some session) ->
        Stripe.id session <> "" ->
        findById Gig._id gigId (gigs w) = Some gig ->
        Gig.isActive gig = true ->
        Gig.isPaused gig = false ->
        findById User._id (Gig.freelancer gig) (users w) = Some freelancer ->
        User._id freelancer <> User._id user ->
        pricingOf gig packageType = Some packageDetails ->
        isFinite (Package.price packageDetails) = true ->
        findById Order._id newId (orders w) = None ->
        fst result = Checkout (Stripe.id session) newId)
  /\ (forall session gig freelancer packageDetails,
        stripe = Stripe.Answers (Some session) ->
        findById Gig._id gigId (gigs w) = Some gig ->
        Gig.isActive gig = true ->
        Gig.isPaused gig = false ->
        findById User._id (Gig.freelancer gig) (users w) = Some freelancer ->
        User._id freelancer <> User._id user ->
        pricingOf gig packageType = Some packageDetails ->
        is_nan (Package.price packageDetails) = true ->
        exists paths,
          result
          = (Failure "Error creating checkout session"
               (ValidationError "Order" paths), w)
          /\ In "totalAmount" paths /\ In "serviceFee" paths
          /\ In "netAmount" paths).
Proof.
  intros result. subst result. split; [|split; [|split]].
  - unfold createCheckoutSession.
    unfold try_catch, bind, stripe_call, Order_create, respond, ret, throw.
    crunch; try reflexivity.
    intros H. exfalso. eapply H. reflexivity.
  - intros sessionId orderId Hresp.
    destruct (checkout_inversion _ _ _ _ _ _ _ _ _ Hresp)
      as (session & gig & freelancer & packageDetails & Hs & Hid & _ & Hg & Ha
          & Hp & Hf & Hne & Hprice & _ & Hvalid & _).
    exists session, gig, freelancer, packageDetails. repeat split; auto.
    + apply pricingOf_enum in Hprice.
      now apply OrderRouteFacts.includes_In in Hprice.
    + destruct (invalidPaths_nil _ Hvalid) as (_ & _ & Ht & Hfee & Hnet & _).
      now apply (newCheckoutOrder_numbers now newId (User._id user)
                   (User._id freelancer) gigId packageType packageDetails).
  - intros session gig freelancer d -> Hsid Hg Ha Hp Hf Hne Hprice Hfinite Hnew.
    unfold createCheckoutSession.
    unfold try_catch, bind, stripe_call, Order_create, respond, ret, throw.
    apply String.eqb_neq in Hne.
    rewrite Hg, Ha, Hp, Hf, Hne. cbn [negb orb].
    rewrite Hprice.
    assert (Hvalid : Order.invalidPaths
                       (checkoutOrder now newId (User._id user) (User._id freelancer)
                          gigId packageType d session) = []).
    { apply (newCheckoutOrder_numbers now newId (User._id user)
               (User._id freelancer) gigId packageType d) in Hfinite
        as (Ht & Hfee & Hnet).
      unfold Order.invalidPaths, checkoutOrder.
      cbn [Order.gig Order.package Order.totalAmount Order.serviceFee
           Order.netAmount Order.status Order.paymentStatus
           Order.paymentIntentId Order.deliveryDate
           Order.set_paymentIntentId Order.set_stripeSessionId].
      rewrite Ht, Hfee, Hnet.
      cbn -[includes String.eqb].
      rewrite (pricingOf_enum _ _ _ Hprice).
      change (includes "pending" Order.statusEnum) with true.
      change (includes "pending" Order.paymentStatusEnum) with true.
      cbn -[String.eqb].
      unfold or_else. apply String.eqb_neq in Hsid.
      destruct (Stripe.payment_intent session) as [pi|]; [|now rewrite Hsid].
      destruct (pi =? "") eqn:Hpi; [now rewrite Hsid|now rewrite Hpi]. }
    unfold checkoutOrder in Hvalid. rewrite Hvalid.
    cbn -[String.eqb insert findById]. rewrite Hnew. reflexivity.
  - intros session gig freelancer d -> Hg Ha Hp Hf Hne Hprice Hnan.
    unfold createCheckoutSession.
    unfold try_catch, bind, stripe_call, Order_create, respond, ret, throw.
    apply String.eqb_neq in Hne.
    rewrite Hg, Ha, Hp, Hf, Hne. cbn [negb orb].
    rewrite Hprice.
    assert (Hd : Package.price d = nan).
    { destruct (not_finite (Package.price d)) as [E|[E|E]]; auto;
        [|rewrite E in Hnan; discriminate Hnan
         |rewrite E in Hnan; discriminate Hnan].
      destruct (isFinite (Package.price d)) eqn:Hfin; [|reflexivity].
      apply isFinite_not_nan in Hfin. congruence. }
    unfold Order.invalidPaths.
    cbn [Order.gig Order.package Order.totalAmount Order.serviceFee
         Order.netAmount Order.status Order.paymentStatus
         Order.paymentIntentId Order.deliveryDate newCheckoutOrder
         Order.set_paymentIntentId Order.set_stripeSessionId].
    rewrite Hd.
    change (is_nan (nan + Math_max 2 (Math_round (nan * 0.05 * 100) / 100))%float)
      with true.
    change (is_nan (Math_max 2 (Math_round (nan * 0.05 * 100) / 100))%float)
      with true.
    change (is_nan (nan - Math_round (nan * 0.2 * 100) / 100)%float) with true.
    rewrite (pricingOf_enum _ _ _ Hprice).
    cbn [app]. eexists. split; [reflexivity|].
    simpl. repeat split; auto.
Qed.

Lemma checkout_succeeds_exactly_when_witness :
  exists paths,
    createCheckoutSession 1000 "order_9" (Stripe.Answers (Some Sample.session))
      Sample.mike "gig_website" "premium" Sample.empty
    = (Failure "Error creating checkout session"
         (ValidationError "Order" paths), Sample.empty)
    /\ In "totalAmount" paths /\ In "serviceFee" paths /\ In "netAmount" paths.
Proof.
  exact (proj2 (proj2 (proj2
           (checkout_succeeds_exactly_when 1000 "order_9"
              (Stripe.Answers (Some Sample.session)) Sample.mike
              "gig_website" "premium" Sample.empty)))
           Sample.session Sample.website Sample.john Sample.absent
           eq_refl eq_refl eq_refl eq_refl eq_refl
           ltac:(discriminate) eq_refl eq_refl).
Defined.

Lemma findOne_insert {Doc : Type} (p : Doc -> bool) d c :
  findOne p (insert d c)
  = match findOne p c with
    | Some x => Some x
    | None => if p d then Some d else None
    end.
Proof.
  unfold findOne, insert.
  induction c as [|x c IH]; simpl; [reflexivity|].
  now destruct (p x).
Qed.

(** X8. A successful gig checkout appends exactly one order and touches
    nothing else: the order is pending and unpaid, belongs to the caller
    as buyer and to the freelancer of the gig as seller, names the gig and
    the package, and carries the id of the Stripe session.  No
    notification is made at this point. *)
Theorem checkout_stores_one_pending_order now newId stripe user gigId
    packageType w sessionId orderId :
  fst (createCheckoutSession now newId stripe user gigId packageType w)
  = Checkout sessionId orderId ->
  let w' := snd (createCheckoutSession now newId stripe user gigId packageType w) in
  exists order gig,
    orders w' = orders w ++ [order]
    /\ findById Gig._id gigId (gigs w) = Some gig
    /\ Order._id order = orderId
    /\ Order.buyer order = User._id user
    /\ Order.seller order = Gig.freelancer gig
    /\ Order.gig order = Some gigId
    /\ Order.package order = packageType
    /\ Order.status order = "pending"
    /\ Order.paymentStatus order = "pending"
    /\ Order.stripeSessionId order = Some sessionId
    /\ Order.deliveries order = []
    /\ users w' = users w
    /\ gigs w' = gigs w
    /\ reviews w' = reviews w
    /\ notifications w' = notifications w.
Proof.
  intros Hresp w'. subst w'.
  destruct (checkout_inversion _ _ _ _ _ _ _ _ _ Hresp)
    as (session & gig & freelancer & packageDetails & Hs & Hid & -> & Hg & Ha
        & Hp & Hf & Hne & Hprice & Hnew & Hchecked & ->).
  apply findById_id in Hf.
  eexists. exists gig. split; [reflexivity|].
  cbn. rewrite Hid. repeat split; auto.
Qed.

Lemma checkout_stores_one_pending_order_witness :
  exists order gig,
    orders Sample.afterCheckout = orders Sample.empty ++ [order]
    /\ findById Gig._id "gig_website" (gigs Sample.empty) = Some gig
    /\ Order._id order = "order_1"
    /\ Order.buyer order = User._id Sample.mike
    /\ Order.seller order = Gig.freelancer gig
    /\ Order.gig order = Some "gig_website"
    /\ Order.package order = "basic"
    /\ Order.status order = "pending"
    /\ Order.paymentStatus order = "pending"
    /\ Order.stripeSessionId order = Some "cs_test_1"
    /\ Order.deliveries order = []
    /\ users Sample.afterCheckout = users Sample.empty
    /\ gigs Sample.afterCheckout = gigs Sample.empty
    /\ reviews Sample.afterCheckout = reviews Sample.empty
    /\ notifications Sample.afterCheckout = notifications Sample.empty.
Proof.
  assert (H : fst (createCheckoutSession 1000 "order_1"
                     (Stripe.Answers (Some Sample.session)) Sample.mike
                     "gig_website" "basic" Sample.empty)
              = Checkout "cs_test_1" "order_1") by (vm_compute; reflexivity).
  exact (checkout_stores_one_pending_order 1000 "order_1"
           (Stripe.Answers (Some Sample.session)) Sample.mike "gig_website"
           "basic" Sample.empty "cs_test_1" "order_1" H).
Defined.

(** X9. Checkout and webhook fit together.  After a successful checkout
    whose session id no earlier order carries, the event
    [checkout.session.completed] of that session finds the new order and
    marks it paid, with the status [requirements_pending] and the payment
    intent of the event, and two notifications are added.  An event whose
    session has no payment intent is answered with 500 and leaves the
    order pending: the Order schema requires the path. *)
Theorem webhook_confirms_the_checkout now newId stripe user gigId packageType w
    sessionId orderId event :
  fst (createCheckoutSession now newId stripe user gigId packageType w)
  = Checkout sessionId orderId ->
  findOne (bySession sessionId) (orders w) = None ->
  Stripe.id event = sessionId ->
  let w1 := snd (createCheckoutSession now newId stripe user gigId packageType w) in
  let w2 := snd (webhook (completed event) w1) in
  (forall intent,
      Stripe.payment_intent event = Some intent -> intent <> "" ->
      fst (webhook (completed event) w1) = Received
      /\ (exists order,
            findById Order._id orderId (orders w2) = Some order
            /\ Order.buyer order = User._id user
            /\ Order.paymentStatus order = "paid"
            /\ Order.status order = "requirements_pending"
            /\ Order.paymentIntentId order = Some intent)
      /\ List.length (notifications w2) = 2 + List.length (notifications w))
  /\ (Stripe.payment_intent event = None ->
      webhook (completed event) w1
      = (Failure "Webhook handler failed"
           (ValidationError "Order" ["paymentIntentId"]), w1)).
Proof.
  intros Hresp Hfresh Hevent w1 w2. subst w2 w1.
  destruct (checkout_inversion _ _ _ _ _ _ _ _ _ Hresp)
    as (session & gig & freelancer & packageDetails & Hs & Hid & -> & Hg & Ha
        & Hp & Hf & Hne & Hprice & Hnew & Hchecked & ->).
  set (order := checkoutOrder now newId (User._id user) (User._id freelancer)
                  gigId packageType packageDetails session) in *.
  set (w1 := set_orders (insert order (orders w)) w).
  assert (Hfind : findOne (bySession (Stripe.id event)) (orders w1) = Some order).
  { cbn [w1 orders set_orders]. rewrite findOne_insert, Hevent, Hfresh.
    unfold bySession. cbn. now rewrite Hid, String.eqb_refl. }
  assert (Hpending : Order.paymentStatus order <> "paid") by (cbn; discriminate).
  assert (Hpack := pricingOf_enum _ _ _ Hprice).
  destruct (invalidPaths_nil _ Hchecked) as (_ & _ & Ht & Hfee & Hnet & _).
  split.
  - intros intent Hintent Hnonempty.
    assert (Hvalid : Order.invalidPaths (paidOrder event order) = []).
    { apply (invalidPaths_of _ gigId intent); try assumption;
        try reflexivity; discriminate. }
    rewrite (WebhookFacts.webhook_first _ _ _ Hfind Hpending Hvalid).
    cbn [fst snd]. split; [reflexivity|]. split.
    + exists (paidOrder event order). split.
      * cbn [orders set_orders set_notifications w1].
        change newId with (Order._id (paidOrder event order)) at 1.
        apply findById_store.
        cbn [Order._id paidOrder Order.set_paymentIntentId Order.set_status
             Order.set_paymentStatus order checkoutOrder Order.set_stripeSessionId
             newCheckoutOrder].
        rewrite findById_insert, Hnew. cbn [Order._id].
        rewrite String.eqb_refl. discriminate.
      * cbn. rewrite Hintent. repeat split.
    + cbn. rewrite length_app. cbn. lia.
  - intros Hnone.
    unfold webhook, completed, bind, Order_findOne. rewrite Hfind.
    cbn -[Order.invalidPaths Order_save w1].
    unfold Order_save.
    assert (Hinvalid : Order.invalidPaths
                         (Order.set_paymentIntentId (Stripe.payment_intent event)
                            (Order.set_status "requirements_pending"
                               (Order.set_paymentStatus "paid" order)))
                       = ["paymentIntentId"]).
    { unfold Order.invalidPaths.
      change (Order.totalAmount (Order.set_paymentIntentId _ _))
        with (Order.totalAmount order).
      change (Order.serviceFee (Order.set_paymentIntentId _ _))
        with (Order.serviceFee order).
      change (Order.netAmount (Order.set_paymentIntentId _ _))
        with (Order.netAmount order).
      rewrite Ht, Hfee, Hnet. cbn -[includes String.eqb].
      now rewrite Hpack, Hnone. }
    now rewrite Hinvalid.
Qed.

Lemma webhook_confirms_the_checkout_witness :
  fst (webhook (completed Sample.session) Sample.afterCheckout) = Received.
Proof.
  assert (H : fst (createCheckoutSession 1000 "order_1"
                     (Stripe.Answers (Some Sample.session)) Sample.mike
                     "gig_website" "basic" Sample.empty)
              = Checkout "cs_test_1" "order_1") by (vm_compute; reflexivity).
  refine (proj1 (proj1 (webhook_confirms_the_checkout 1000 "order_1"
                          (Stripe.Answers (Some Sample.session)) Sample.mike
                          "gig_website" "basic" Sample.empty "cs_test_1"
                          "order_1" Sample.session H eq_refl eq_refl)
                   "pi_1" eq_refl _)).
  discriminate.
Defined.

(** X10. The custom-offer checkout can never succeed.  Its order has no
    gig and the package [custom], which the Order schema rejects, so the
    answer is 400 below the minimum price and 500 in every other case,
    and no store ever changes. *)
Theorem custom_offer_never_succeeds now newId stripe user receiverId title
    description price deliveryTime revisions w :
  let result := createCustomOfferPayment now newId stripe user receiverId title
                  description price deliveryTime revisions w in
  snd result = w
  /\ (forall sessionId orderId, fst result <> Checkout sessionId orderId)
  /\ ((price <? 5)%float = true -> fst result = Json 400 "Minimum price is $5")
  /\ ((price <? 5)%float = false ->
      exists e, fst result = Failure "Error creating custom offer payment" e)
  /\ (forall session,
        (price <? 5)%float = false -> stripe = Stripe.Answers (Some session) ->
        exists paths,
          fst result
          = Failure "Error creating custom offer payment"
              (ValidationError "Order" paths)
          /\ In "gig" paths /\ In "package" paths).
Proof.
  intros result. subst result.
  unfold createCustomOfferPayment.
  unfold try_catch, bind, stripe_call, Order_create, respond, ret, throw.
  destruct (price <? 5)%float; [repeat split; discriminate|].
  destruct stripe as [|[session|]].
  - repeat split; try discriminate;
      try (intros _; eexists; reflexivity);
      try (intros session _ H; discriminate H).
  - unfold Order.invalidPaths. cbn -[String.eqb].
    destruct (or_else (Stripe.payment_intent session) (Stripe.id session) =? "");
      (repeat split; try discriminate;
       [ intros _; eexists; reflexivity
       | intros s _ _; eexists; split; [reflexivity|simpl; auto] ]).
  - repeat split; try discriminate;
      try (intros _; eexists; reflexivity);
      try (intros session _ H; discriminate H).
Qed.

Lemma custom_offer_never_succeeds_witness :
  fst (createCustomOfferPayment 1000 "order_2"
         (Stripe.Answers (Some Sample.session)) Sample.john "mike_client"
         "Logo" "A logo for the site" 3 2 1 Sample.empty)
  = Json 400 "Minimum price is $5".
Proof.
  apply (proj1 (proj2 (proj2 (custom_offer_never_succeeds 1000 "order_2"
                                (Stripe.Answers (Some Sample.session))
                                Sample.john "mike_client" "Logo"
                                "A logo for the site" 3 2 1 Sample.empty)))).
  vm_compute. reflexivity.
Defined.

(** X11. The success route changes the stores only when it answers 200,
    and it answers 200 only for a session that Stripe reports as paid and
    whose id a stored order carries.  That order is then marked paid with
    the status [requirements_pending], the payment intent of the session
    and a delivery date computed from the package, and two notifications
    are added.  An unpaid session gives 400 and an unknown one 404. *)
Theorem success_needs_a_paid_session plusDays now stripe sessionId w :
  let result := success plusDays now stripe sessionId w in
  (fst result <> Json 200 "Payment successful" -> snd result = w)
  /\ (fst result = Json 200 "Payment successful" ->
      exists session order,
        stripe = Stripe.Answers (Some session)
        /\ Stripe.payment_status session = "paid"
        /\ findOne (bySession sessionId) (orders w) = Some order
        /\ orders (snd result)
           = store Order._id (paidBySuccess plusDays now session order) (orders w)
        /\ List.length (notifications (snd result))
           = 2 + List.length (notifications w)
        /\ users (snd result) = users w
        /\ gigs (snd result) = gigs w)
  /\ (forall session,
        stripe = Stripe.Answers (Some session) ->
        Stripe.payment_status session <> "paid" ->
        result = (Json 400 "Payment not completed", w))
  /\ (forall session,
        stripe = Stripe.Answers (Some session) ->
        Stripe.payment_status session = "paid" ->
        findOne (bySession sessionId) (orders w) = None ->
        result = (Json 404 "Order not found", w)).
Proof.
  intros result. subst result.
  unfold success, try_catch, bind, stripe_call, Order_findOne, Order_save,
    Promise_all2, createNotification, Notification.invalidPaths, respond, ret,
    throw.
  split; [|split; [|split]].
  - crunch; try reflexivity; intros H; now contradiction H.
  - crunch; try discriminate.
    intros _.
    match goal with
    | Hs : stripe = Stripe.Answers (Some ?s),
      Hp : negb (_ =? "paid") = false,
      Ho : findOne _ _ = Some ?o |- _ =>
        exists s, o; apply negb_false_iff, String.eqb_eq in Hp
    end.
    repeat split; auto.
    unfold insert. rewrite !length_app. simpl. lia.
  - intros session -> Hp. apply String.eqb_neq in Hp.
    cbn -[String.eqb]. now rewrite Hp.
  - intros session -> Hp Hnone. cbn -[String.eqb findOne].
    rewrite Hp, String.eqb_refl. cbn -[String.eqb findOne].
    rewrite Hnone. reflexivity.
Qed.

Lemma success_needs_a_paid_session_witness :
  success Sample.utc 2000 (Stripe.Answers (Some Sample.session)) "cs_other"
    Sample.afterCheckout
  = (Json 404 "Order not found", Sample.afterCheckout).
Proof.
  refine (proj2 (proj2 (proj2 (success_needs_a_paid_session Sample.utc 2000
                                 (Stripe.Answers (Some Sample.session))
                                 "cs_other" Sample.afterCheckout)))
            Sample.session eq_refl eq_refl _).
  vm_compute. reflexivity.
Defined.

Lemma invalidPaths_failed order :
  Order.invalidPaths order = [] -> Order.invalidPaths (failedOrder order) = [].
Proof.
  intros H.
  destruct (invalidPaths_nil _ H)
    as ((gigId & Hg) & Hp & Ht & Hf & Hn & _ & _ & (i & Hi & Hne) & Hd).
  now apply (invalidPaths_of _ gigId i).
Qed.

Lemma webhook_failed_run intent w order :
  findOne (byPaymentIntent intent) (orders w) = Some order ->
  Order.invalidPaths order = [] ->
  webhook (Some (Stripe.payment_intent_payment_failed intent)) w
  = (Received,
     set_notifications
       (notifications w
          ++ [ {| Notification.recipient := Order.buyer order;
                  Notification.sender := None;
                  Notification.type := "system";
                  Notification.title := "Payment Failed";
                  Notification.message := "Your payment could not be processed";
                  Notification.orderId := Some (Order._id order);
                  Notification.isRead := false |} ])
       (set_orders (store Order._id (failedOrder order) (orders w)) w)).
Proof.
  intros Hfind Hvalid.
  unfold webhook, bind, Order_findOne. rewrite Hfind.
  unfold Order_save. fold (failedOrder order).
  rewrite (invalidPaths_failed _ Hvalid).
  unfold createNotification, Notification.invalidPaths, insert.
  cbn. reflexivity.
Qed.

(** X12. The event [payment_intent.payment_failed] cancels the order that
    carries the payment intent, whatever its status is, a completed order
    included: the order becomes [cancelled] with the payment status
    [failed], the buyer gets one [system] notification, and no user
    document changes, so earnings that were credited stay.  A second
    delivery of the event leaves the orders as they are and notifies the
    buyer again.  An event for an unknown payment intent is acknowledged
    and changes nothing. *)
Theorem payment_failed_cancels_the_order intent w :
  let event := Some (Stripe.payment_intent_payment_failed intent) in
  (findOne (byPaymentIntent intent) (orders w) = None ->
   webhook event w = (Received, w))
  /\ (forall order,
        findOne (byPaymentIntent intent) (orders w) = Some order ->
        Order.invalidPaths order = [] ->
        let once := snd (webhook event w) in
        let twice := snd (webhook event once) in
        fst (webhook event w) = Received
        /\ (exists order',
              findOne (byPaymentIntent intent) (orders once) = Some order'
              /\ Order._id order' = Order._id order
              /\ Order.status order' = "cancelled"
              /\ Order.paymentStatus order' = "failed"
              /\ Order.completedAt order' = Order.completedAt order)
        /\ users once = users w
        /\ (exists n,
              notifications once = notifications w ++ [n]
              /\ Notification.type n = "system"
              /\ Notification.recipient n = Order.buyer order)
        /\ orders twice = orders once
        /\ List.length (notifications twice) = 2 + List.length (notifications w)).
Proof.
  intros event. subst event. split.
  - intros Hnone. unfold webhook, bind, Order_findOne. now rewrite Hnone.
  - intros order Hfind Hvalid once twice. subst twice once.
    rewrite (webhook_failed_run _ _ _ Hfind Hvalid). cbn [fst snd].
    assert (Hagain : findOne (byPaymentIntent intent)
                       (store Order._id (failedOrder order) (orders w))
                     = Some (failedOrder order)).
    { apply findOne_store with (d := order); [exact Hfind| |reflexivity].
      apply findOne_holds in Hfind. exact Hfind. }
    split; [reflexivity|]. split; [|split; [reflexivity|split; [|split]]].
    + exists (failedOrder order). split; [exact Hagain|]. repeat split.
    + eexists. split; [reflexivity|]. split; reflexivity.
    + rewrite (webhook_failed_run intent _ (failedOrder order));
        [|exact Hagain|now apply invalidPaths_failed].
      cbn [snd orders set_orders set_notifications].
      change (failedOrder (failedOrder order)) with (failedOrder order).
      apply store_store.
    + rewrite (webhook_failed_run intent _ (failedOrder order));
        [|exact Hagain|now apply invalidPaths_failed].
      cbn [snd notifications set_orders set_notifications].
      rewrite !length_app. simpl. lia.
Qed.

Lemma payment_failed_cancels_the_order_witness :
  fst (webhook (Some (Stripe.payment_intent_payment_failed "pi_1"))
         (Sample.withOrder (Sample.orderIn "completed")))
  = Received.
Proof.
  exact (proj1 (proj2 (payment_failed_cancels_the_order "pi_1"
                         (Sample.withOrder (Sample.orderIn "completed")))
                  (Sample.orderIn "completed") eq_refl eq_refl)).
Defined.

End PaymentRouteFacts.

(** ** What every sequence of requests keeps *)

Module InvariantFacts.
Import Orders Payments Server Outcome Invariant LifecycleFacts LifetimeFacts.

Lemma Forall_store_order (P : Order.t -> Prop) o l :
  P o -> Forall P l -> Forall P (store Order._id o l).
Proof.
  intros Ho Hl. unfold store.
  induction Hl as [|x l Hx Hl IH]; simpl; [constructor|].
  destruct (Order._id x =? Order._id o); constructor; auto.
Qed.

Lemma Forall_insert_order (P : Order.t -> Prop) o l :
  P o -> Forall P l -> Forall P (insert o l).
Proof.
  intros Ho Hl. unfold insert. apply Forall_app. split; [exact Hl|].
  constructor; [exact Ho|constructor].
Qed.

Lemma Forall_findById (P : Order.t -> Prop) id l o :
  Forall P l -> findById Order._id id l = Some o -> P o.
Proof.
  intros Hl Hfind. rewrite Forall_forall in Hl. apply Hl.
  exact (proj1 (find_some _ _ Hfind)).
Qed.

Lemma Forall_findOne (P : Order.t -> Prop) p l o :
  Forall P l -> findOne p l = Some o -> P o.
Proof.
  intros Hl Hfind. rewrite Forall_forall in Hl. apply Hl.
  exact (proj1 (find_some _ _ Hfind)).
Qed.

Ltac unfold_handlers :=
  unfold updateStatus, deliver, requestRevision, accept, cancel,
    createCheckoutSession, createCustomOfferPayment, success, webhook;
  unfold try_catch, bind, scheduleAutoComplete, Promise_all2, stripe_call,
    Order_findById, Order_findOne, Order_save_while, Order_save, Order_create,
    createNotification, User_credit, Gig_countOrder, respond, ret, throw.

Ltac stores :=
  repeat first [ apply Forall_store_order | apply Forall_insert_order ];
  try assumption.

Lemma handle_keeps_valid plusDays now request w :
  Forall valid (orders w) ->
  Forall valid (orders (snd (handle plusDays now request w))).
Proof.
  intros Hw. destruct request; cbn [handle]; unfold_handlers; crunch;
    try assumption; try absurd_case; stores.
Qed.

Lemma distinct_of_found id l (o o' : Order.t) :
  Forall distinctParties l -> findById Order._id id l = Some o ->
  Order.buyer o' = Order.buyer o -> Order.seller o' = Order.seller o ->
  distinctParties o'.
Proof.
  intros Hl Hfind Hb Hs. unfold distinctParties. rewrite Hb, Hs.
  exact (Forall_findById _ _ _ _ Hl Hfind).
Qed.

Lemma distinct_of_found_by p l (o o' : Order.t) :
  Forall distinctParties l -> findOne p l = Some o ->
  Order.buyer o' = Order.buyer o -> Order.seller o' = Order.seller o ->
  distinctParties o'.
Proof.
  intros Hl Hfind Hb Hs. unfold distinctParties. rewrite Hb, Hs.
  exact (Forall_findOne _ _ _ _ Hl Hfind).
Qed.

Ltac distinct :=
  match goal with
  | Hl : Forall distinctParties ?l, Hf : findById Order._id _ ?l = Some ?o
    |- distinctParties _ =>
      apply (distinct_of_found _ _ o _ Hl Hf); reflexivity
  | Hl : Forall distinctParties ?l, Hf : findOne _ ?l = Some ?o
    |- distinctParties _ =>
      apply (distinct_of_found_by _ _ o _ Hl Hf); reflexivity
  | Hne : (_ =? _) = false |- distinctParties _ =>
      unfold distinctParties; cbn; apply String.eqb_neq in Hne; congruence
  end.

Lemma handle_keeps_distinct plusDays now request w :
  Forall distinctParties (orders w) ->
  Forall distinctParties (orders (snd (handle plusDays now request w))).
Proof.
  intros Hw. destruct request; cbn [handle]; unfold_handlers; crunch;
    try assumption; try absurd_case; stores;
    first [ distinct
          | match goal with
            | H : Order.invalidPaths _ = [] |- _ => discriminate H
            end ].
Qed.

Lemma serve_keeps (P : Order.t -> Prop) plusDays :
  (forall now request w,
      Forall P (orders w) ->
      Forall P (orders (snd (handle plusDays now request w)))) ->
  forall requests w,
    Forall P (orders w) -> Forall P (orders (serve plusDays requests w)).
Proof.
  intros Hstep. induction requests as [|[now request] requests IH];
    intros w Hw; simpl; [exact Hw|].
  apply IH, Hstep, Hw.
Qed.

(** X13. Nobody ever holds an order on their own gig: if no stored order
    has its buyer as seller, no sequence of requests to the order and
    payment routes produces one.  The only route that stores a new order
    compares the buyer with the freelancer of the gig, and no route
    rewrites the parties of an order. *)
Theorem no_order_with_oneself plusDays requests w :
  Forall distinctParties (orders w) ->
  Forall distinctParties (orders (serve plusDays requests w)).
Proof.
  apply serve_keeps. intros now request w0. apply handle_keeps_distinct.
Qed.

Lemma no_order_with_oneself_witness :
  Forall distinctParties
    (orders (serve Sample.utc Sample.later Sample.afterCheckout)).
Proof.
  apply (no_order_with_oneself Sample.utc Sample.later Sample.afterCheckout).
  repeat constructor. vm_compute. discriminate.
Defined.

(** X14. Every stored order stays within its schema: if all stored orders
    pass the validators of the Order schema (a gig, a package of the
    enum, three amounts that are numbers, a status and a payment status
    of their enums, a payment intent, no invalid delivery date), they
    still do after any sequence of requests to the order and payment
    routes. *)
Theorem stored_orders_stay_valid plusDays requests w :
  Forall valid (orders w) ->
  Forall valid (orders (serve plusDays requests w)).
Proof.
  apply serve_keeps. intros now request w0. apply handle_keeps_valid.
Qed.

Lemma stored_orders_stay_valid_witness :
  Forall valid (orders (serve Sample.utc Sample.later Sample.afterCheckout)).
Proof.
  apply (stored_orders_stay_valid Sample.utc Sample.later Sample.afterCheckout).
  repeat constructor.
Defined.

Lemma map_parties_store l (o o' : Order.t) :
  findById Order._id (Order._id o) l = Some o -> parties o' = parties o ->
  map parties (store Order._id o' l) = map parties l.
Proof.
  intros Hfind Hp.
  assert (Hid : Order._id o' = Order._id o) by (unfold parties in Hp; congruence).
  unfold store, findById, findOne in *. rewrite Hid.
  induction l as [|x l IH]; simpl in *; [reflexivity|].
  destruct (Order._id x =? Order._id o).
  - injection Hfind as ->. simpl. now rewrite Hp.
  - simpl. now rewrite IH.
Qed.

Lemma extends_refl l : extends l l.
Proof. exists []. now rewrite app_nil_r. Qed.

Lemma extends_trans l1 l2 l3 : extends l1 l2 -> extends l2 l3 -> extends l1 l3.
Proof.
  intros (a & Ha) (b & Hb). exists (a ++ b). now rewrite Hb, Ha, app_assoc.
Qed.

Lemma extends_store l (o o' : Order.t) :
  findById Order._id (Order._id o) l = Some o -> parties o' = parties o ->
  extends l (store Order._id o' l).
Proof.
  intros Hfind Hp. exists []. rewrite app_nil_r. now apply map_parties_store with o.
Qed.

Lemma extends_store_in l (o o' : Order.t) :
  uniqueIds l -> In o l -> parties o' = parties o ->
  extends l (store Order._id o' l).
Proof.
  intros Hu Hin Hp. apply extends_store with o; [|exact Hp].
  now apply findById_unique.
Qed.

Lemma extends_insert l (o : Order.t) : extends l (insert o l).
Proof. exists [parties o]. unfold insert. now rewrite map_app. Qed.

Ltac extends_leaf :=
  first
    [ apply extends_refl
    | absurd_case
    | apply extends_insert
    | match goal with
      | Hfound : findById Order._id ?i ?lst = Some ?ord
        |- extends ?lst (store Order._id ?ord1 ?lst) =>
          apply (extends_store lst ord ord1);
          [found_current Hfound|reflexivity]
      | Hfound : findById Order._id ?i ?lst = Some ?ord
        |- extends ?lst (store Order._id ?ord2 (store Order._id ?ord1 ?lst)) =>
          apply (extends_trans lst (store Order._id ord1 lst));
          [ apply (extends_store lst ord ord1);
            [found_current Hfound|reflexivity]
          | apply (extends_store (store Order._id ord1 lst) ord1 ord2);
            [ apply (findById_store Order._id ord1);
              change (findById Order._id (Order._id ord) lst <> None);
              let Hid := fresh "Hid" in
              pose proof (findById_id _ _ _ _ Hfound) as Hid;
              rewrite Hid, Hfound; discriminate
            | reflexivity ] ]
      | Hu : uniqueIds ?lst, Hfound : findOne ?p ?lst = Some ?ord
        |- extends ?lst (store Order._id ?ord1 ?lst) =>
          apply (extends_store_in lst ord ord1 Hu);
          [exact (proj1 (find_some _ _ Hfound))|reflexivity]
      end ].

Lemma handle_extends plusDays now request w :
  uniqueIds (orders w) ->
  extends (orders w) (orders (snd (handle plusDays now request w))).
Proof.
  intros Hu. destruct request; cbn [handle]; unfold_handlers; crunch;
    extends_leaf.
Qed.

(** X15. No request deletes an order or hands it to someone else: after
    any sequence of requests to the order and payment routes, the stored
    orders are the earlier ones, in the same places and each with the id,
    buyer, seller, gig and package it had, followed by the orders that
    were created since. *)
Theorem orders_keep_their_parties plusDays requests : forall w,
  uniqueIds (orders w) ->
  extends (orders w) (orders (serve plusDays requests w)).
Proof.
  induction requests as [|[now request] requests IH]; intros w Hu; simpl.
  - apply extends_refl.
  - eapply extends_trans; [apply handle_extends, Hu|].
    apply IH. exact (proj1 (handle_grows plusDays now request w Hu)).
Qed.

Lemma orders_keep_their_parties_witness :
  extends (orders Sample.afterCheckout)
    (orders (serve Sample.utc Sample.later Sample.afterCheckout)).
Proof.
  apply (orders_keep_their_parties Sample.utc Sample.later
           Sample.afterCheckout).
  repeat constructor. simpl. tauto.
Defined.

End InvariantFacts.

(** ** Reviews *)

Module ReviewFacts.
Import Orders Rating Reviews Outcome LifecycleFacts LifetimeFacts RatingFacts.

Lemma store_same (o : Order.t) l :
  findById Order._id (Order._id o) l = Some o -> store Order._id o l = l.
Proof.
  unfold findById, findOne, store.
  induction l as [|x l IH]; simpl; [reflexivity|].
  destruct (Order._id x =? Order._id o).
  - now intros [= ->].
  - intros H. now rewrite IH.
Qed.

Lemma already_reviewed ToString user orderId rating comment categories w order
    earlier :
  findById Order._id orderId (orders w) = Some order ->
  Order.status order = "completed" ->
  Order.buyer order = User._id user \/ Order.seller order = User._id user ->
  In earlier (reviews w) ->
  Review.order earlier = orderId ->
  Review.reviewer earlier = User._id user ->
  createReview ToString user orderId rating comment categories w
  = (Json 400 "You have already reviewed this order", w).
Proof.
  intros Hfind Hstatus Hparty Hin Ho Hr.
  unfold createReview, try_catch, bind, Order_findById, Review_findOne.
  rewrite Hfind, Hstatus, String.eqb_refl. cbn [negb].
  assert (Hauth : negb (Order.buyer order =? User._id user)
                  && negb (Order.seller order =? User._id user) = false).
  { destruct Hparty as [-> | ->]; rewrite String.eqb_refl;
      [reflexivity|apply andb_false_r]. }
  rewrite Hauth.
  destruct (findOne (byOrderAndReviewer orderId (User._id user)) (reviews w))
    eqn:Hnone; [reflexivity|].
  exfalso. apply (find_none _ _ Hnone) in Hin.
  unfold byOrderAndReviewer in Hin.
  now rewrite Ho, Hr, !String.eqb_refl in Hin.
Qed.

(** X16. A review is refused, with no store changed, when the order is
    unknown (404), when it is not completed (400), when the caller is
    neither its buyer nor its seller (403), and when the caller has
    already reviewed it (400). *)
Theorem createReview_guards ToString user orderId rating comment categories w :
  let result := createReview ToString user orderId rating comment categories w in
  (findById Order._id orderId (orders w) = None ->
   result = (Json 404 "Order not found", w))
  /\ (forall order,
        findById Order._id orderId (orders w) = Some order ->
        (Order.status order <> "completed" ->
         result = (Json 400 "Can only review completed orders", w))
        /\ (Order.status order = "completed" ->
            Order.buyer order <> User._id user ->
            Order.seller order <> User._id user ->
            result = (Json 403 "Not authorized to review this order", w))
        /\ (Order.status order = "completed" ->
            Order.buyer order = User._id user \/ Order.seller order = User._id user ->
            forall earlier,
              In earlier (reviews w) ->
              Review.order earlier = orderId ->
              Review.reviewer earlier = User._id user ->
              result = (Json 400 "You have already reviewed this order", w))).
Proof.
  intros result. subst result.
  unfold createReview, try_catch, bind, Order_findById, Review_findOne.
  split.
  - intros ->. reflexivity.
  - intros order Hfind. split; [|split].
    + rewrite Hfind. intros Hs. apply String.eqb_neq in Hs. now rewrite Hs.
    + rewrite Hfind. intros -> Hb Hs. apply String.eqb_neq in Hb, Hs.
      now rewrite String.eqb_refl, Hb, Hs.
    + intros Hstatus Hparty earlier Hin Ho Hr.
      now apply (already_reviewed _ _ _ _ _ _ _ order earlier).
Qed.

Lemma createReview_guards_witness :
  createReview Scenario.five Sample.mike "order_1" 5 "Great work"
    Scenario.praise
    (Sample.withOrder (Sample.orderIn "delivered"))
  = (Json 400 "Can only review completed orders",
     Sample.withOrder (Sample.orderIn "delivered")).
Proof.
  refine (proj1 (proj2 (createReview_guards Scenario.five Sample.mike "order_1"
                          5 "Great work"
                          Scenario.praise
                          (Sample.withOrder (Sample.orderIn "delivered")))
                   (Sample.orderIn "delivered") eq_refl) _).
  discriminate.
Defined.

Ltac eval_review :=
  cbn -[String.eqb String.append store updateById insert findOne findById
        Order.invalidPaths Notification.invalidPaths Reviews.invalidPaths
        reviewsOfGig reviewsOfUser Gig_assign User_assign ratingInRange
        byOrderAndReviewer];
  repeat (eqb_closed;
          cbn -[String.eqb String.append store updateById insert findOne
                findById Order.invalidPaths Notification.invalidPaths
                Reviews.invalidPaths reviewsOfGig reviewsOfUser Gig_assign
                User_assign ratingInRange byOrderAndReviewer]).

Ltac crunch_review := repeat first [progress eval_review | case_step].

Ltac unfold_review :=
  unfold createReview, updateRatings, try_catch, bind, Order_findById,
    Review_findOne, Review_create, Order_save, Gig_findById, User_findById,
    Promise_all2, Gig_updateRating, User_updateRating, createNotification,
    respond, ret, throw.

Lemma authorized_party (order : Order.t) (user : User.t) :
  negb (Order.buyer order =? User._id user)
  && negb (Order.seller order =? User._id user) = false ->
  Order.buyer order = User._id user \/ Order.seller order = User._id user.
Proof.
  destruct (String.eqb_spec (Order.buyer order) (User._id user)); [now left|].
  destruct (String.eqb_spec (Order.seller order) (User._id user)); [now right|].
  discriminate.
Qed.

Lemma reviews_after_createReview ToString user orderId rating comment categories w :
  reviews (snd (createReview ToString user orderId rating comment categories w))
  = reviews w
  \/ exists order,
       findById Order._id orderId (orders w) = Some order
       /\ Order.status order = "completed"
       /\ (Order.buyer order = User._id user \/ Order.seller order = User._id user)
       /\ findOne (byOrderAndReviewer orderId (User._id user)) (reviews w) = None
       /\ invalidPaths (newReview user order rating) comment categories = []
       /\ reviews (snd (createReview ToString user orderId rating comment
                          categories w))
          = reviews w ++ [newReview user order rating].
Proof.
  destruct (findById Order._id orderId (orders w)) as [order|] eqn:Hfind;
    [|left; unfold_review; now rewrite Hfind].
  pose proof (findById_id _ _ _ _ Hfind) as Hid. subst orderId.
  destruct (negb (Order.status order =? "completed")) eqn:Hstatus;
    [left; unfold_review; now rewrite Hfind, Hstatus|].
  destruct (negb (Order.buyer order =? User._id user)
            && negb (Order.seller order =? User._id user)) eqn:Hauth;
    [left; unfold_review; now rewrite Hfind, Hstatus, Hauth|].
  destruct (findOne (byOrderAndReviewer (Order._id order) (User._id user))
              (reviews w)) eqn:Hnone;
    [left; unfold_review; now rewrite Hfind, Hstatus, Hauth, Hnone|].
  destruct (invalidPaths (newReview user order rating) comment categories)
    eqn:Hvalid;
    [|left; unfold_review; rewrite Hfind, Hstatus, Hauth, Hnone;
      fold (newReview user order rating); now rewrite Hvalid].
  right. exists order.
  pose proof Hstatus as Hs. apply negb_false_iff, String.eqb_eq in Hs.
  repeat (split; [solve [auto using authorized_party]|]).
  unfold_review. rewrite Hfind, Hstatus, Hauth, Hnone.
  fold (newReview user order rating). rewrite Hvalid.
  change (Review.order (newReview user order rating)) with (Order._id order).
  change (Review.reviewer (newReview user order rating)) with (User._id user).
  rewrite Hnone.
  crunch_review; unfold newReview, insert;
    repeat match goal with
           | H : (_ =? _) = _ |- _ => rewrite H
           end;
    reflexivity.
Qed.

Lemma orders_after_createReview ToString user orderId rating comment categories w :
  orders (snd (createReview ToString user orderId rating comment categories w))
  = orders w.
Proof.
  unfold_review. crunch_review; try reflexivity;
    match goal with
    | H : findById Order._id _ _ = Some ?o |- _ =>
        pose proof (findById_id _ _ _ _ H) as Hid; rewrite <- Hid in H;
        apply (store_same o _ H)
    end.
Qed.

(** X17. Reviews are only ever appended, and at most one per order and
    reviewer: if no two stored reviews share their order and reviewer,
    the same holds after any review request.  Once a request has stored a
    review, even one that was then answered with an error, every further
    request of the same user for the same order is refused with 400 and
    changes nothing. *)
Theorem one_review_per_order_and_reviewer ToString user orderId rating comment
    categories w :
  NoDup (map key (reviews w)) ->
  let w' := snd (createReview ToString user orderId rating comment categories w) in
  NoDup (map key (reviews w'))
  /\ (exists added, reviews w' = reviews w ++ added)
  /\ (reviews w' <> reviews w ->
      forall rating' comment' categories',
        createReview ToString user orderId rating' comment' categories' w'
        = (Json 400 "You have already reviewed this order", w')).
Proof.
  intros Hunique w'.
  destruct (reviews_after_createReview ToString user orderId rating comment
              categories w)
    as [Hsame|(order & Hfind & Hstatus & Hparty & Hnone & Hvalid & Hadded)];
    fold w' in Hsame || fold w' in Hadded.
  - rewrite Hsame. split; [exact Hunique|]. split.
    + exists []. now rewrite app_nil_r.
    + intros H. now contradiction H.
  - rewrite Hadded. split; [|split].
    + rewrite map_app. apply NoDup_app; [exact Hunique|repeat constructor; simpl; tauto|].
      intros k Hk [<-|[]].
      apply in_map_iff in Hk as (earlier & Hkey & Hin).
      apply (find_none _ _ Hnone) in Hin.
      unfold key in Hkey. cbn in Hkey. injection Hkey as Ho Hr.
      pose proof (findById_id _ _ _ _ Hfind) as Hid.
      unfold byOrderAndReviewer in Hin.
      now rewrite Ho, Hr, Hid, !String.eqb_refl in Hin.
    + eexists. reflexivity.
    + intros _ rating' comment' categories'.
      apply (already_reviewed _ _ _ _ _ _ _ order (newReview user order rating)).
      * unfold w'. now rewrite orders_after_createReview.
      * exact Hstatus.
      * exact Hparty.
      * rewrite Hadded. apply in_or_app. right. now left.
      * exact (findById_id _ _ _ _ Hfind).
      * reflexivity.
Qed.

Lemma one_review_per_order_and_reviewer_witness :
  NoDup
    (map key
       (reviews
          (snd (createReview Scenario.five Sample.mike "order_1" 5 "Great work"
                  Scenario.praise
                  (Sample.withOrder (Sample.orderIn "completed")))))).
Proof.
  apply (one_review_per_order_and_reviewer Scenario.five Sample.mike "order_1"
           5 "Great work"
           Scenario.praise
           (Sample.withOrder (Sample.orderIn "completed"))).
  constructor.
Defined.

Lemma reviewsOfGig_added id w w' r :
  reviews w' = reviews w ++ [r] -> Review.gig r = Some id ->
  reviewsOfGig id w' = reviewsOfGig id w ++ [r].
Proof.
  intros Hr Hg. unfold reviewsOfGig. rewrite Hr, filter_app. simpl.
  now rewrite Hg, String.eqb_refl.
Qed.

Lemma reviewsOfUser_added id w w' r :
  reviews w' = reviews w ++ [r] -> Review.reviewee r = id ->
  reviewsOfUser id w' = reviewsOfUser id w ++ [r].
Proof.
  intros Hr Hg. unfold reviewsOfUser. rewrite Hr, filter_app. simpl.
  now rewrite Hg, String.eqb_refl.
Qed.

Lemma Gig_assign_id this reviews : Gig._id (Gig_assign this reviews) = Gig._id this.
Proof. unfold Gig_assign. now destruct (0 <? List.length reviews)%nat. Qed.

Lemma User_assign_kept this reviews :
  User._id (User_assign this reviews) = User._id this
  /\ User.totalEarnings (User_assign this reviews) = User.totalEarnings this
  /\ User.completedOrders (User_assign this reviews) = User.completedOrders this.
Proof. unfold User_assign. now destruct (0 <? List.length reviews)%nat. Qed.

(** X18. A review of a completed order by one of its parties is stored
    with the other party as reviewee, and both aggregates are brought up
    to date at once: the gig of the order gets the mean and the number of
    all reviews that name it, the new one included whichever party wrote
    it, and the reviewee gets the mean and number of the reviews received.
    The reviewee is sent one [review_received] notification; the orders
    are unchanged. *)
Theorem createReview_updates_both_ratings ToString user orderId rating comment
    categories w order gigId gig reviewee :
  findById Order._id orderId (orders w) = Some order ->
  Order.status order = "completed" ->
  Order.invalidPaths order = [] ->
  Order.buyer order = User._id user \/ Order.seller order = User._id user ->
  findOne (byOrderAndReviewer orderId (User._id user)) (reviews w) = None ->
  let review := newReview user order rating in
  invalidPaths review comment categories = [] ->
  Order.gig order = Some gigId ->
  findById Gig._id gigId (gigs w) = Some gig ->
  findById User._id (Review.reviewee review) (users w) = Some reviewee ->
  let ofGig := map Review.rating (reviewsOfGig gigId w ++ [review]) in
  let received :=
    map Review.rating (reviewsOfUser (Review.reviewee review) w ++ [review]) in
  ratingInRange (Spec.mean ofGig) = true ->
  ratingInRange (Spec.mean received) = true ->
  let result := createReview ToString user orderId rating comment categories w in
  fst result = Json 201 "Review created successfully"
  /\ reviews (snd result) = reviews w ++ [review]
  /\ (exists gig',
        findById Gig._id gigId (gigs (snd result)) = Some gig'
        /\ Gig.rating gig' = Spec.mean ofGig
        /\ Gig.totalReviews gig' = lengthNumber ofGig)
  /\ (exists reviewee',
        findById User._id (Review.reviewee review) (users (snd result))
        = Some reviewee'
        /\ User.rating reviewee' = Spec.mean received
        /\ User.totalReviews reviewee' = lengthNumber received
        /\ User.totalEarnings reviewee' = User.totalEarnings reviewee)
  /\ orders (snd result) = orders w
  /\ (exists n,
        notifications (snd result) = notifications w ++ [n]
        /\ Notification.type n = "review_received"
        /\ Notification.recipient n = Review.reviewee review
        /\ Notification.sender n = Some (User._id user)).
Proof.
  intros Hfind Hstatus Hvalid Hparty Hnone review Hreview Hgig Hfound Hreviewee
    ofGig received Hg Hr result.
  pose proof (findById_id _ _ _ _ Hfind) as Hid.
  pose proof (findById_id _ _ _ _ Hfound) as Hgid.
  pose proof (findById_id _ _ _ _ Hreviewee) as Hrid.
  assert (Hauth : negb (Order.buyer order =? User._id user)
                  && negb (Order.seller order =? User._id user) = false).
  { destruct Hparty as [-> | ->]; rewrite String.eqb_refl;
      [reflexivity|apply andb_false_r]. }
  subst result. unfold_review.
  rewrite Hfind, Hstatus, String.eqb_refl, Hauth. cbn [negb].
  rewrite Hnone. rewrite <- Hid. fold (newReview user order rating). fold review.
  rewrite Hreview.
  change (Review.order review) with (Order._id order).
  change (Review.reviewer review) with (User._id user).
  rewrite Hid, Hnone, Hvalid.
  change (if Order.buyer order =? User._id user
          then Order.seller order else Order.buyer order)
    with (Review.reviewee review).
  set (w1 := set_reviews (insert review (reviews w)) w).
  assert (Hstore : store Order._id order (orders w1) = orders w)
    by (apply store_same; now rewrite Hid).
  rewrite Hstore, Hgig.
  set (w2 := set_orders (orders w) w1).
  change (gigs w2) with (gigs w). change (users w2) with (users w).
  rewrite Hfound, Hreviewee.
  assert (Hrev : reviews w2 = reviews w ++ [review]) by reflexivity.
  rewrite (reviewsOfGig_added (Gig._id gig) w w2 review Hrev)
    by (rewrite Hgid; exact Hgig).
  assert (Hne : forall l, l ++ [review] <> []) by (intros [|]; discriminate).
  destruct (Gig_assign_mean gig (reviewsOfGig (Gig._id gig) w ++ [review])
              (Hne _)) as (Hgr & Hgt).
  rewrite Hgid in Hgr, Hgt. fold ofGig in Hgr, Hgt.
  rewrite Hgid, Hgr, Hg.
  set (gig' := Gig_assign gig (reviewsOfGig gigId w ++ [review])) in *.
  set (w3 := set_gigs (store Gig._id gig' (gigs w2)) w2).
  assert (Hrev3 : reviews w3 = reviews w ++ [review]) by reflexivity.
  rewrite (reviewsOfUser_added (User._id reviewee) w w3 review Hrev3)
    by (symmetry; exact Hrid).
  destruct (User_assign_mean reviewee
              (reviewsOfUser (User._id reviewee) w ++ [review]) (Hne _))
    as (Hur & Hut).
  rewrite Hrid in Hur, Hut. fold received in Hur, Hut.
  rewrite Hrid, Hur, Hr.
  set (reviewee' := User_assign reviewee
                      (reviewsOfUser (Review.reviewee review) w ++ [review])) in *.
  unfold Notification.invalidPaths.
  eval_review.
  split; [reflexivity|]. split; [reflexivity|]. split; [|split; [|split]].
  - exists gig'. split; [|split; [exact Hgr|exact Hgt]].
    assert (Hgid' : Gig._id gig' = gigId)
      by (unfold gig'; now rewrite Gig_assign_id).
    rewrite <- Hgid' at 1.
    apply (findById_store Gig._id gig'). rewrite Hgid', Hfound. discriminate.
  - destruct (User_assign_kept reviewee
                (reviewsOfUser (Review.reviewee review) w ++ [review]))
      as (Hrid' & Hearn & _).
    fold reviewee' in Hrid', Hearn.
    exists reviewee'. split; [|split; [exact Hur|split; [exact Hut|exact Hearn]]].
    change (if Order.buyer order =? User._id user
            then Order.seller order else Order.buyer order)
      with (Review.reviewee review).
    rewrite <- Hrid, <- Hrid'.
    apply (findById_store User._id reviewee').
    rewrite Hrid', Hrid, Hreviewee. discriminate.
  - reflexivity.
  - eexists. split; [reflexivity|]. repeat split.
Qed.

Lemma createReview_updates_both_ratings_witness :
  fst (createReview Scenario.five Sample.mike "order_1" 5 "Great work"
         Scenario.praise
         (Sample.withOrder (Sample.orderIn "completed")))
  = Json 201 "Review created successfully".
Proof.
  assert (Hg : ratingInRange
                 (Spec.mean
                    (map Review.rating
                       (reviewsOfGig "gig_website"
                          (Sample.withOrder (Sample.orderIn "completed"))
                        ++ [newReview Sample.mike (Sample.orderIn "completed") 5])))
               = true) by (vm_compute; reflexivity).
  assert (Hr : ratingInRange
                 (Spec.mean
                    (map Review.rating
                       (reviewsOfUser "john_dev"
                          (Sample.withOrder (Sample.orderIn "completed"))
                        ++ [newReview Sample.mike (Sample.orderIn "completed") 5])))
               = true) by (vm_compute; reflexivity).
  assert (Hv : invalidPaths (newReview Sample.mike (Sample.orderIn "completed") 5)
                 "Great work"
                 Scenario.praise
               = []) by (vm_compute; reflexivity).
  exact (proj1 (createReview_updates_both_ratings Scenario.five Sample.mike
                  "order_1" 5 "Great work"
                  Scenario.praise
                  (Sample.withOrder (Sample.orderIn "completed"))
                  (Sample.orderIn "completed") "gig_website" Sample.website
                  Sample.john eq_refl eq_refl eq_refl (or_introl eq_refl)
                  eq_refl Hv eq_refl eq_refl eq_refl Hg Hr)).
Defined.

End ReviewFacts.

(** ** Gigs: deletion and what it leaves behind *)

Module GigFacts.
Import Orders Payments Rating Reviews Gigs Outcome LifecycleFacts LifetimeFacts.
Import ReviewFacts.

Lemma findById_delete_other id id' c :
  id' <> id ->
  findById Gig._id id' (Gig_findByIdAndDelete id c) = findById Gig._id id' c.
Proof.
  intros Hne. unfold findById, findOne.
  induction c as [|g c IH]; simpl; [reflexivity|].
  destruct (String.eqb_spec (Gig._id g) id) as [->|Hg]; simpl.
  - destruct (String.eqb_spec id id'); [congruence|reflexivity].
  - now rewrite IH.
Qed.

Lemma findById_delete id c :
  NoDup (map Gig._id c) ->
  findById Gig._id id (Gig_findByIdAndDelete id c) = None.
Proof.
  unfold findById, findOne.
  induction c as [|g c IH]; simpl; [reflexivity|].
  intros Hu. inversion Hu as [|? ? Hnotin Hu']; subst.
  destruct (String.eqb_spec (Gig._id g) id) as [<-|Hg]; simpl.
  - destruct (find (fun d => Gig._id d =? Gig._id g) c) as [d|] eqn:Hd;
      [|reflexivity].
    exfalso. apply Hnotin. apply find_some in Hd as (Hin & Heq).
    apply String.eqb_eq in Heq. rewrite <- Heq. now apply in_map.
  - apply String.eqb_neq in Hg. rewrite Hg. now apply IH.
Qed.

Lemma length_delete id c gig :
  findById Gig._id id c = Some gig ->
  S (List.length (Gig_findByIdAndDelete id c)) = List.length c.
Proof.
  unfold findById, findOne.
  induction c as [|g c IH]; simpl; [discriminate|].
  destruct (Gig._id g =? id); simpl; [reflexivity|].
  intros H. now rewrite IH.
Qed.

(** X19. Only the freelancer of a gig can delete it.  An unknown id gives
    404 and another user's gig 403, with nothing changed.  The owner's
    request removes that gig and no other, and touches no order, review
    or user: orders and reviews that name the gig stay.  When gig ids are
    unique the gig can no longer be found, and a checkout for it is
    answered with 404. *)
Theorem deleteGig_removes_own_gig user id w :
  let result := deleteGig user id w in
  (findById Gig._id id (gigs w) = None -> result = (Json 404 "Gig not found", w))
  /\ (forall gig,
        findById Gig._id id (gigs w) = Some gig ->
        (Gig.freelancer gig <> User._id user ->
         result = (Json 403 "Not authorized to delete this gig", w))
        /\ (Gig.freelancer gig = User._id user ->
            fst result = Json 200 "Gig deleted successfully"
            /\ S (List.length (gigs (snd result))) = List.length (gigs w)
            /\ (forall other,
                  other <> id ->
                  findById Gig._id other (gigs (snd result))
                  = findById Gig._id other (gigs w))
            /\ orders (snd result) = orders w
            /\ reviews (snd result) = reviews w
            /\ users (snd result) = users w
            /\ (NoDup (map Gig._id (gigs w)) ->
                findById Gig._id id (gigs (snd result)) = None
                /\ forall now newId session buyer packageType,
                     createCheckoutSession now newId
                       (Stripe.Answers session) buyer id packageType (snd result)
                     = (Json 404 "Gig not available", snd result)))).
Proof.
  intros result. subst result. unfold deleteGig, try_catch, respond.
  split.
  - intros ->. reflexivity.
  - intros gig Hfind. rewrite Hfind. split.
    + intros Hne. apply String.eqb_neq in Hne. now rewrite Hne.
    + intros ->. rewrite String.eqb_refl. cbn [negb fst snd gigs set_gigs orders
                                               reviews users].
      split; [reflexivity|]. split; [now apply length_delete with gig|].
      split; [intros other Hne; now apply findById_delete_other|].
      repeat (split; [reflexivity|]).
      intros Hu. pose proof (findById_delete id _ Hu) as Hgone.
      split; [exact Hgone|].
      intros now newId session buyer packageType.
      unfold createCheckoutSession, try_catch, respond.
      cbn [gigs set_gigs]. now rewrite Hgone.
Qed.

Lemma deleteGig_removes_own_gig_witness :
  fst (deleteGig Sample.john "gig_website"
         (Sample.withOrder (Sample.orderIn "completed")))
  = Json 200 "Gig deleted successfully".
Proof.
  exact (proj1 (proj2 (proj2 (deleteGig_removes_own_gig Sample.john "gig_website"
                                (Sample.withOrder (Sample.orderIn "completed")))
                         Sample.website eq_refl) eq_refl)).
Defined.

(** X20. A review of an order whose gig has been deleted is stored, and
    then the request fails: the gig is looked up for its rating update
    and is not there.  The answer is 500, the reviewee's rating is not
    recomputed and no notification is sent, while the stored review
    blocks any second attempt. *)
Theorem review_after_gig_deletion ToString owner user gigId orderId rating comment
    categories w order :
  NoDup (map Gig._id (gigs w)) ->
  fst (deleteGig owner gigId w) = Json 200 "Gig deleted successfully" ->
  findById Order._id orderId (orders w) = Some order ->
  Order.gig order = Some gigId ->
  Order.status order = "completed" ->
  Order.invalidPaths order = [] ->
  Order.buyer order = User._id user \/ Order.seller order = User._id user ->
  findOne (byOrderAndReviewer orderId (User._id user)) (reviews w) = None ->
  invalidPaths (newReview user order rating) comment categories = [] ->
  let w1 := snd (deleteGig owner gigId w) in
  let result := createReview ToString user orderId rating comment categories w1 in
  fst result = Failure "Error creating review" TypeError
  /\ reviews (snd result) = reviews w ++ [newReview user order rating]
  /\ users (snd result) = users w
  /\ gigs (snd result) = gigs w1
  /\ notifications (snd result) = notifications w
  /\ forall rating' comment' categories',
       createReview ToString user orderId rating' comment' categories' (snd result)
       = (Json 400 "You have already reviewed this order", snd result).
Proof.
  intros Hu Hdeleted Hfind Hgig Hstatus Hvalid Hparty Hnone Hreview w1 result.
  assert (Hw1 : w1 = set_gigs (Gig_findByIdAndDelete gigId (gigs w)) w).
  { subst w1. revert Hdeleted. unfold deleteGig, try_catch, respond.
    destruct (findById Gig._id gigId (gigs w)); [|discriminate].
    destruct (negb _); [discriminate|reflexivity]. }
  assert (Hgone : findById Gig._id gigId (gigs w1) = None)
    by (rewrite Hw1; cbn [gigs set_gigs]; now apply findById_delete).
  assert (Hfind1 : findById Order._id orderId (orders w1) = Some order)
    by (rewrite Hw1; exact Hfind).
  assert (Hnone1 : findOne (byOrderAndReviewer orderId (User._id user))
                     (reviews w1) = None) by (rewrite Hw1; exact Hnone).
  pose proof (findById_id _ _ _ _ Hfind) as Hid.
  assert (Hauth : negb (Order.buyer order =? User._id user)
                  && negb (Order.seller order =? User._id user) = false).
  { destruct Hparty as [-> | ->]; rewrite String.eqb_refl;
      [reflexivity|apply andb_false_r]. }
  assert (Hrun : result
                 = (Failure "Error creating review" TypeError,
                    set_orders (orders w1)
                      (set_reviews (reviews w1 ++ [newReview user order rating])
                         w1))).
  { subst result. unfold_review.
    rewrite Hfind1, Hstatus, String.eqb_refl, Hauth. cbn [negb].
    rewrite Hnone1. rewrite <- Hid. fold (newReview user order rating).
    rewrite Hreview.
    change (Review.order (newReview user order rating)) with (Order._id order).
    change (Review.reviewer (newReview user order rating)) with (User._id user).
    rewrite Hid, Hnone1, Hvalid.
    set (w2 := set_reviews (insert (newReview user order rating) (reviews w1)) w1).
    assert (Hstore : store Order._id order (orders w2) = orders w1)
      by (apply store_same; now rewrite Hid).
    rewrite Hstore, Hgig.
    change (gigs (set_orders (orders w1) w2)) with (gigs w1).
    rewrite Hgone. reflexivity. }
  rewrite Hrun. cbn [fst snd]. rewrite Hw1.
  repeat (split; [reflexivity|]).
  intros rating' comment' categories'.
  apply (already_reviewed _ _ _ _ _ _ _ order (newReview user order rating));
    try assumption.
  - cbn [reviews set_orders set_reviews set_gigs]. apply in_or_app. right. now left.
  - reflexivity.
Qed.

Lemma review_after_gig_deletion_witness :
  fst (createReview Scenario.five Sample.mike "order_1" 5 "Great work"
         Scenario.praise
         (snd (deleteGig Sample.john "gig_website"
                 (Sample.withOrder (Sample.orderIn "completed")))))
  = Failure "Error creating review" TypeError.
Proof.
  assert (Hv : invalidPaths (newReview Sample.mike (Sample.orderIn "completed") 5)
                 "Great work"
                 Scenario.praise
               = []) by (vm_compute; reflexivity).
  refine (proj1 (review_after_gig_deletion Scenario.five Sample.john Sample.mike
                   "gig_website" "order_1" 5 "Great work"
                   Scenario.praise
                   (Sample.withOrder (Sample.orderIn "completed"))
                   (Sample.orderIn "completed") _ eq_refl eq_refl eq_refl eq_refl
                   eq_refl (or_introl eq_refl) eq_refl Hv)).
  repeat constructor. simpl. tauto.
Defined.

End GigFacts.

(** ** Updates by query *)

Section UpdateFacts.
Context {Doc : Type}.
Variable id_of : Doc -> ObjectId.

Lemma findOneAndUpdate_none (p : Doc -> bool) u c :
  findOne p c = None -> findOneAndUpdate p u c = (None, c).
Proof.
  unfold findOne. induction c as [|d c IH]; simpl; [reflexivity|].
  destruct (p d); [discriminate|]. intros H. now rewrite IH.
Qed.

Lemma findOneAndUpdate_ext (p p' : Doc -> bool) u c :
  (forall d, p d = p' d) -> findOneAndUpdate p u c = findOneAndUpdate p' u c.
Proof.
  intros H. induction c as [|d c IH]; simpl; [reflexivity|].
  now rewrite H, IH.
Qed.

Lemma findOne_none (p : Doc -> bool) c :
  (forall d, In d c -> p d = false) -> findOne p c = None.
Proof.
  unfold findOne. induction c as [|d c IH]; simpl; [reflexivity|].
  intros H. rewrite (H d) by now left. apply IH. intros x Hx. apply H. now right.
Qed.

Lemma same_id_same_doc (c : list Doc) x n :
  NoDup (map id_of c) -> In x c -> In n c -> id_of x = id_of n -> x = n.
Proof.
  intros Hu Hxin Hin Hx.
  induction c as [|d c IH]; [contradiction|].
  simpl in Hu. inversion Hu as [|? ? Hnotin Hu']; subst.
  destruct Hin as [->|Hin], Hxin as [->|Hxin]; auto.
  - exfalso. apply Hnotin. rewrite <- Hx. now apply in_map.
  - exfalso. apply Hnotin. rewrite Hx. now apply in_map.
Qed.

(** With unique ids, an update by id and a further condition rewrites the
    document of that id when it meets the condition, and nothing
    otherwise. *)
Lemma update_by_id u id (q : Doc -> bool) c n :
  NoDup (map id_of c) -> In n c -> id_of n = id ->
  findOneAndUpdate (fun m => (id_of m =? id) && q m) u c
  = if q n
    then (Some (u n), map (fun m => if id_of m =? id then u m else m) c)
    else (None, c).
Proof.
  intros Hu Hin Hid. induction c as [|d c IH]; [contradiction|].
  simpl in *. inversion Hu as [|? ? Hnotin Hu']; subst.
  destruct Hin as [->|Hin].
  - rewrite String.eqb_refl. simpl.
    assert (Hrest : map (fun m => if id_of m =? id_of n then u m else m) c = c).
    { clear IH Hu Hu'. induction c as [|x c IH]; simpl; [reflexivity|].
      destruct (String.eqb_spec (id_of x) (id_of n)) as [E|_].
      - exfalso. apply Hnotin. left. exact E.
      - rewrite IH; [reflexivity|]. intros H. apply Hnotin. now right. }
    destruct (q n) eqn:Hq.
    + now rewrite Hrest.
    + rewrite findOneAndUpdate_none; [reflexivity|].
      apply findOne_none. intros x Hx.
      destruct (String.eqb_spec (id_of x) (id_of n)) as [E|_]; [|reflexivity].
      exfalso. apply Hnotin. rewrite <- E. now apply in_map.
  - destruct (String.eqb_spec (id_of d) (id_of n)) as [E|_].
    + exfalso. apply Hnotin. rewrite E. now apply in_map.
    + simpl. rewrite (IH Hu' Hin). now destruct (q n).
Qed.

Lemma In_updated u id c n :
  In n c -> id_of n = id ->
  In (u n) (map (fun m => if id_of m =? id then u m else m) c).
Proof.
  intros Hin Hid. apply in_map_iff. exists n. split; [|exact Hin].
  now rewrite Hid, String.eqb_refl.
Qed.

Lemma map_id_updated u id c :
  (forall d, id_of (u d) = id_of d) ->
  map id_of (map (fun m => if id_of m =? id then u m else m) c) = map id_of c.
Proof.
  intros Hu. rewrite map_map. apply map_ext. intros m.
  now destruct (id_of m =? id).
Qed.

End UpdateFacts.

(** ** Notifications: who can mark what as read *)

Module InboxFacts.
Import Inbox.

Lemma unread_after_read now id user c :
  unread user (map (fun m => if _id m =? id then read now m else m) c)
  = filter (fun m => negb (_id m =? id)) (unread user c).
Proof.
  unfold unread. induction c as [|d c IH]; simpl; [reflexivity|].
  destruct (_id d =? id) eqn:Hd; simpl.
  - rewrite andb_false_r.
    destruct ((Notification.recipient (notification d) =? user)
              && negb (Notification.isRead (notification d))); simpl;
      now rewrite ?Hd, IH.
  - destruct ((Notification.recipient (notification d) =? user)
              && negb (Notification.isRead (notification d))); simpl;
      now rewrite ?Hd, IH.
Qed.

Lemma filter_out_absent id (l : list t) :
  ~ In id (map _id l) -> filter (fun m => negb (_id m =? id)) l = l.
Proof.
  induction l as [|d l IH]; simpl; [reflexivity|]. intros H.
  destruct (String.eqb_spec (_id d) id) as [E|_]; [tauto|].
  simpl. rewrite IH; tauto.
Qed.

Lemma length_filter_out id (l : list t) n :
  NoDup (map _id l) -> In n l -> _id n = id ->
  S (List.length (filter (fun m => negb (_id m =? id)) l)) = List.length l.
Proof.
  intros Hu Hin Hid. induction l as [|d l IH]; [contradiction|].
  simpl in *. inversion Hu as [|? ? Hnotin Hu']; subst.
  destruct Hin as [->|Hin].
  - rewrite String.eqb_refl. simpl. now rewrite filter_out_absent.
  - destruct (String.eqb_spec (_id d) (_id n)) as [E|_].
    + exfalso. apply Hnotin. rewrite E. now apply in_map.
    + simpl. now rewrite IH.
Qed.

Lemma NoDup_unread user c : NoDup (map _id c) -> NoDup (map _id (unread user c)).
Proof.
  unfold unread. induction c as [|d c IH]; simpl; [constructor|].
  intros Hu. inversion Hu as [|? ? Hnotin Hu']; subst.
  destruct (_ && _); simpl; [|now apply IH].
  constructor; [|now apply IH].
  intros H. apply Hnotin. apply in_map_iff in H as (x & Hx & Hin).
  apply filter_In in Hin as (Hin & _). rewrite <- Hx. now apply in_map.
Qed.

(** X21. [markNotificationAsRead] acts for the recipient only.  With
    unique ids, a call for a notification of another user returns [null]
    and changes nothing.  A call by the recipient returns the
    notification as read at the time of the call, takes it out of the
    recipient's unread notifications, so that an unread one lowers the
    count by one, and leaves the unread notifications of every other user
    as they were. *)
Theorem markNotificationAsRead_acts_for_the_recipient now id user c n :
  NoDup (map _id c) -> In n c -> _id n = id ->
  let recipient := Notification.recipient (notification n) in
  (user <> recipient -> markNotificationAsRead now id user c = (None, c))
  /\ (user = recipient ->
      let result := markNotificationAsRead now id user c in
      fst result = Some (read now n)
      /\ (Notification.isRead (notification n) = false ->
          S (List.length (unread user (snd result))) = List.length (unread user c))
      /\ (Notification.isRead (notification n) = true ->
          unread user (snd result) = unread user c)
      /\ (forall other,
            other <> user ->
            getUnreadNotificationCount other (snd result)
            = getUnreadNotificationCount other c)).
Proof.
  intros Hu Hin Hid recipient. subst recipient.
  unfold markNotificationAsRead, ofRecipient.
  rewrite (update_by_id _id (read now) id
             (fun m => Notification.recipient (notification m) =? user) c n Hu Hin Hid).
  split.
  - intros Hne. apply not_eq_sym, String.eqb_neq in Hne. now rewrite Hne.
  - intros ->. rewrite String.eqb_refl. cbn [fst snd].
    split; [reflexivity|]. rewrite !unread_after_read. split; [|split].
    + intros Hunread.
      apply length_filter_out with n; [now apply NoDup_unread| |exact Hid].
      unfold unread. apply filter_In. split; [exact Hin|].
      now rewrite String.eqb_refl, Hunread.
    + intros Hread. apply filter_out_absent. intros H.
      apply in_map_iff in H as (x & Hx & Hxin).
      unfold unread in Hxin. apply filter_In in Hxin as (Hxin & Hcond).
      assert (x = n) by (apply (same_id_same_doc _id c); congruence).
      subst x. rewrite Hread, andb_false_r in Hcond. discriminate.
    + intros other Hne. unfold getUnreadNotificationCount.
      rewrite unread_after_read. f_equal. apply filter_out_absent.
      intros H. apply in_map_iff in H as (x & Hx & Hxin).
      unfold unread in Hxin. apply filter_In in Hxin as (Hxin & Hcond).
      assert (x = n) by (apply (same_id_same_doc _id c); congruence).
      subst x. apply andb_prop in Hcond as (Hcond & _).
      apply String.eqb_eq in Hcond. congruence.
Qed.

Lemma markNotificationAsRead_acts_for_the_recipient_witness :
  markNotificationAsRead 9000 "notification_1" "john_dev" Scenario.inbox
  = (None, Scenario.inbox).
Proof.
  refine (proj1 (markNotificationAsRead_acts_for_the_recipient 9000
                   "notification_1" "john_dev" Scenario.inbox
                   (Scenario.notice "notification_1" "mike_client" false)
                   _ _ eq_refl) _).
  - repeat constructor; simpl; intuition discriminate.
  - simpl. auto.
  - discriminate.
Defined.

(** X22. The socket event [mark_notification_read] does not look at who
    sends it.  With unique ids, it marks an unread notification read and
    lowers its recipient's unread count by one whoever the sender is,
    where [markNotificationAsRead] refuses every user but the recipient. *)
Theorem socket_marks_for_anyone now id c n :
  NoDup (map _id c) -> In n c -> _id n = id ->
  Notification.isRead (notification n) = false ->
  let recipient := Notification.recipient (notification n) in
  let c' := mark_notification_read now id c in
  In (read now n) c'
  /\ S (List.length (unread recipient c')) = List.length (unread recipient c)
  /\ forall sender,
       sender <> recipient ->
       markNotificationAsRead now id sender c = (None, c).
Proof.
  intros Hu Hin Hid Hunread recipient c'. subst recipient c'.
  unfold mark_notification_read.
  assert (Hq : findOneAndUpdate (fun m => _id m =? id) (read now) c
               = findOneAndUpdate (fun m => (_id m =? id) && true) (read now) c)
    by (apply findOneAndUpdate_ext; intros d; now rewrite andb_true_r).
  rewrite Hq, (update_by_id _id (read now) id (fun _ => true) c n Hu Hin Hid).
  cbn [snd].
  split; [|split].
  - apply in_map_iff. exists n. split; [|exact Hin].
    now rewrite Hid, String.eqb_refl.
  - rewrite unread_after_read.
    apply length_filter_out with n; [now apply NoDup_unread| |exact Hid].
    unfold unread. apply filter_In. split; [exact Hin|].
    now rewrite String.eqb_refl, Hunread.
  - intros sender Hne. unfold markNotificationAsRead, ofRecipient.
    rewrite (update_by_id _id (read now) id
               (fun m => Notification.recipient (notification m) =? sender)
               c n Hu Hin Hid).
    apply not_eq_sym, String.eqb_neq in Hne. now rewrite Hne.
Qed.

Lemma socket_marks_for_anyone_witness :
  In (read 9000 (Scenario.notice "notification_1" "mike_client" false))
    (mark_notification_read 9000 "notification_1" Scenario.inbox).
Proof.
  refine (proj1 (socket_marks_for_anyone 9000 "notification_1" Scenario.inbox
                   (Scenario.notice "notification_1" "mike_client" false)
                   _ _ eq_refl eq_refl)).
  - repeat constructor; simpl; intuition discriminate.
  - simpl. auto.
Defined.

End InboxFacts.

(** ** Messages: threads, unread counters and offers *)

Module MessageFacts.
Import Messages NumberFacts.
Local Open Scope float_scope.

Lemma Map_get_set key value m : Map_get key (Map_set key value m) = Some value.
Proof.
  unfold Map_get, prop. induction m as [|[k v] m IH]; simpl.
  - now rewrite String.eqb_refl.
  - destruct (k =? key)%string eqn:Hk; simpl; now rewrite Hk.
Qed.

Lemma Map_get_set_other key other value m :
  other <> key -> Map_get other (Map_set key value m) = Map_get other m.
Proof.
  intros Hne. unfold Map_get, prop. induction m as [|[k v] m IH]; simpl.
  - apply not_eq_sym, String.eqb_neq in Hne. now rewrite Hne.
  - destruct (String.eqb_spec k key) as [->|Hk]; simpl.
    + apply not_eq_sym, String.eqb_neq in Hne. now rewrite Hne.
    + destruct (k =? other)%string; [reflexivity|exact IH].
Qed.

Lemma save_loaded this c found :
  findById Conversation._id (Conversation._id this) c = Some found ->
  List.length (Conversation.participants this) = 2%nat ->
  Conversation.save this c = inr (store Conversation._id this c).
Proof.
  intros Hfind Hlen. unfold Conversation.save, Conversation.pre_save. rewrite Hlen, Hfind. reflexivity.
Qed.

Lemma found_after_save (this found : Conversation.t) c :
  findById Conversation._id (Conversation._id this) c = Some found ->
  findById Conversation._id (Conversation._id this) (store Conversation._id this c) = Some this.
Proof. intros H. apply findById_store. rewrite H. discriminate. Qed.

Lemma includes_pair x a b : includes x [a; b] = true <-> x = a \/ x = b.
Proof.
  unfold includes. simpl. rewrite orb_false_r, orb_true_iff, !String.eqb_eq.
  reflexivity.
Qed.

(** X23. Only the two participants of a conversation can write to it.
    For a conversation that does not exist or that the sender is not part
    of, the answer is 403 and nothing changes.  A message of a
    participant is stored unread with the other participant as receiver;
    the conversation then names it as last message, with the time of the
    request as last activity, the receiver's unread counter is one more
    than it was (a counter that is not there counts as 0), and every
    other counter and the participants are as before.  When the socket
    server is not set up the answer is 500, after the same changes. *)
Theorem sendMessage_counts_for_the_receiver now newId io user conversationId
    content messageType offerStatus chat :
  let result :=
    sendMessage now newId io user conversationId content messageType
      offerStatus chat in
  (findById Conversation._id conversationId (conversations chat) = None
   \/ (exists conversation,
         findById Conversation._id conversationId (conversations chat)
         = Some conversation
         /\ ~ In (User._id user) (Conversation.participants conversation)) ->
   result
   = (Status 403 "Not authorized to send message to this conversation", chat))
  /\ (forall conversation a b,
        findById Conversation._id conversationId (conversations chat)
        = Some conversation ->
        Conversation.participants conversation = [a; b] ->
        a <> b ->
        User._id user = a \/ User._id user = b ->
        let receiver := if (User._id user =? a)%string then b else a in
        let message :=
          newMessage newId conversationId (User._id user) (Some receiver)
            content messageType offerStatus in
        Message.invalidPaths message = [] ->
        fst result
        = (if io then Sent message
           else Failed "Error sending message"
                  (JsError "Socket.IO not initialized"))
        /\ messages (snd result) = messages chat ++ [message]
        /\ exists conversation',
             findById Conversation._id conversationId
               (conversations (snd result)) = Some conversation'
             /\ Conversation.participants conversation' = [a; b]
             /\ Conversation.lastMessage conversation' = Some newId
             /\ Conversation.lastActivity conversation' = now
             /\ Map_get receiver (Conversation.unreadCount conversation')
                = Some (or_zero
                          (Map_get receiver
                             (Conversation.unreadCount conversation)) + 1)
             /\ forall other,
                  other <> receiver ->
                  Map_get other (Conversation.unreadCount conversation')
                  = Map_get other (Conversation.unreadCount conversation)).
Proof.
  intros result. subst result. split.
  - unfold sendMessage. intros [Hnone|(conversation & Hfind & Hout)].
    + now rewrite Hnone.
    + now rewrite Hfind, (OrderRouteFacts.includes_not_In _ _ Hout).
  - intros conversation a b Hfind Hparts Hab Hsender receiver message Hvalid.
    pose proof (findById_id _ _ _ _ Hfind) as Hid.
    assert (Hreceiver : find (fun p => negb (p =? User._id user)%string) [a; b]
                        = Some receiver).
    { subst receiver. simpl. destruct Hsender as [-> | ->].
      - rewrite String.eqb_refl. simpl.
        apply not_eq_sym, String.eqb_neq in Hab. now rewrite Hab.
      - apply String.eqb_neq in Hab. rewrite Hab. simpl.
        apply String.eqb_neq in Hab. apply not_eq_sym, String.eqb_neq in Hab.
        now rewrite Hab. }
    assert (Hin : includes (User._id user) [a; b] = true)
      by (apply includes_pair; exact Hsender).
    unfold sendMessage.
    rewrite Hfind, Hparts, Hin, Hreceiver. cbn [negb].
    fold message. rewrite Hvalid.
    set (conversation' :=
           {| Conversation._id := Conversation._id conversation;
              Conversation.participants := [a; b];
              Conversation.lastMessage := Some newId;
              Conversation.lastActivity := now;
              Conversation.unreadCount :=
                Map_set receiver
                  (or_zero (Map_get receiver
                              (Conversation.unreadCount conversation)) + 1)
                  (Conversation.unreadCount conversation) |}).
    cbn [conversations messages].
    rewrite (save_loaded conversation' _ conversation)
      by (try reflexivity; cbn [Conversation._id conversation'];
          now rewrite Hid).
    destruct io; cbn [getIO fst snd conversations messages];
      (split; [reflexivity|]; split; [reflexivity|]);
      exists conversation';
      (split; [rewrite <- Hid;
               apply (found_after_save conversation' conversation);
               cbn [Conversation._id conversation']; now rewrite Hid|]);
      repeat (split; [reflexivity|]);
      (split; [apply Map_get_set|intros other Hne; now apply Map_get_set_other]).
Qed.

Lemma sendMessage_counts_for_the_receiver_witness :
  fst (sendMessage 7000 "message_2" true Sample.john "conversation_1"
         "Shall I start?" None None Scenario.chat)
  = Sent (newMessage "message_2" "conversation_1" "john_dev"
            (Some "mike_client"%string) "Shall I start?" None None).
Proof.
  refine (proj1 (proj2 (sendMessage_counts_for_the_receiver 7000 "message_2"
                          true Sample.john "conversation_1" "Shall I start?"
                          None None Scenario.chat)
                   (Scenario.thread 1) "john_dev" "mike_client"
                   eq_refl eq_refl _ (or_introl eq_refl) eq_refl)).
  discriminate.
Defined.

Lemma In_updateMany {Doc : Type} (p : Doc -> bool) u c d :
  In d (updateMany p u c) -> exists d0, In d0 c /\ d = if p d0 then u d0 else d0.
Proof.
  unfold updateMany. intros H. apply in_map_iff in H as (d0 & Hd & Hin).
  exists d0. split; [exact Hin|now symmetry].
Qed.

(** X24. Reading a thread is for its participants, and marks it read
    for the reader.  For a conversation that does not exist or that the
    caller is not part of, the answer is 403 and nothing changes.  For a
    participant, every message of the conversation that is addressed to
    the caller is read afterwards, the caller's unread counter is 0, the
    counters of others and all other messages are untouched, and no
    message is added or removed. *)
Theorem getMessages_marks_the_thread_read now user conversationId chat :
  let result := getMessages now user conversationId chat in
  (findById Conversation._id conversationId (conversations chat) = None
   \/ (exists conversation,
         findById Conversation._id conversationId (conversations chat)
         = Some conversation
         /\ ~ In (User._id user) (Conversation.participants conversation)) ->
   result = (Status 403 "Not authorized to view this conversation", chat))
  /\ (forall conversation,
        findById Conversation._id conversationId (conversations chat)
        = Some conversation ->
        List.length (Conversation.participants conversation) = 2%nat ->
        In (User._id user) (Conversation.participants conversation) ->
        fst result = Page
        /\ (forall m,
              In m (messages (snd result)) ->
              Message.conversation m = conversationId ->
              Message.receiver m = Some (User._id user) ->
              Message.isRead m = true)
        /\ map Message._id (messages (snd result))
           = map Message._id (messages chat)
        /\ (forall m,
              In m (messages chat) ->
              unreadIn conversationId (User._id user) m = false ->
              In m (messages (snd result)))
        /\ exists conversation',
             findById Conversation._id conversationId
               (conversations (snd result)) = Some conversation'
             /\ Conversation.participants conversation'
                = Conversation.participants conversation
             /\ Map_get (User._id user) (Conversation.unreadCount conversation')
                = Some 0
             /\ forall other,
                  other <> User._id user ->
                  Map_get other (Conversation.unreadCount conversation')
                  = Map_get other (Conversation.unreadCount conversation)).
Proof.
  intros result. subst result. split.
  - unfold getMessages. intros [Hnone|(conversation & Hfind & Hout)].
    + now rewrite Hnone.
    + now rewrite Hfind, (OrderRouteFacts.includes_not_In _ _ Hout).
  - intros conversation Hfind Hlen Hin.
    pose proof (findById_id _ _ _ _ Hfind) as Hid.
    unfold getMessages. rewrite Hfind.
    rewrite (proj2 (OrderRouteFacts.includes_In _ _) Hin). cbn [negb].
    set (conversation' :=
           set_unreadCount
             (Map_set (User._id user) 0 (Conversation.unreadCount conversation))
             conversation).
    rewrite (save_loaded conversation' _ conversation)
      by first [ exact Hlen
               | cbn [Conversation._id conversation' set_unreadCount];
                 now rewrite Hid ].
    cbn [fst snd messages conversations].
    split; [reflexivity|]. split; [|split; [|split]].
    + intros m Hm Hconv Hrecv.
      apply In_updateMany in Hm as (m0 & Hm0 & ->).
      destruct (unreadIn conversationId (User._id user) m0) eqn:Hq;
        [reflexivity|].
      unfold unreadIn, Message.isFor in Hq.
      rewrite Hconv, Hrecv, !String.eqb_refl in Hq. simpl in Hq.
      now apply negb_false_iff in Hq.
    + unfold updateMany. rewrite map_map. apply map_ext.
      intros m. now destruct (unreadIn _ _ m).
    + intros m Hm Hq. unfold updateMany. apply in_map_iff.
      exists m. split; [now rewrite Hq|exact Hm].
    + exists conversation'. split.
      * rewrite <- Hid. apply (found_after_save conversation' conversation).
        cbn [Conversation._id conversation' set_unreadCount]. now rewrite Hid.
      * split; [reflexivity|].
        split; [apply Map_get_set|intros other Hne; now apply Map_get_set_other].
Qed.

Lemma getMessages_marks_the_thread_read_witness :
  fst (getMessages 8000 Sample.mike "conversation_1" Scenario.chat) = Page.
Proof.
  refine (proj1 (proj2 (getMessages_marks_the_thread_read 8000 Sample.mike
                          "conversation_1" Scenario.chat)
                   (Scenario.thread 1) eq_refl eq_refl _)).
  simpl. auto.
Defined.

Lemma or_zero_not_nan v : is_nan (or_zero v) = false.
Proof.
  destruct v as [x|]; [|reflexivity]. unfold or_zero.
  destruct (is_nan x) eqn:Hx; [reflexivity|]. cbn [orb].
  destruct (PrimFloat.is_zero x); [reflexivity|exact Hx].
Qed.

Lemma sub_1_not_nan x : is_nan x = false -> is_nan (x - 1) = false.
Proof.
  rewrite !is_nan_Prim2SF, FloatAxioms.sub_spec.
  change (Prim2SF 1) with (S754_finite false 4503599627370496 (-52)).
  unfold SF64sub, SFsub.
  destruct (Prim2SF x); try congruence; try discriminate.
  intros _. apply binary_normalize_not_nan.
Qed.

Lemma add_1_not_nan x : is_nan x = false -> is_nan (x + 1) = false.
Proof.
  rewrite !is_nan_Prim2SF, FloatAxioms.add_spec.
  change (Prim2SF 1) with (S754_finite false 4503599627370496 (-52)).
  unfold SF64add, SFadd.
  destruct (Prim2SF x); try congruence; try discriminate.
  intros _. apply binary_normalize_not_nan.
Qed.

Lemma Math_max_0_ge r : is_nan r = false -> (0 <=? Math_max 0 r) = true.
Proof.
  intros H. unfold Math_max. rewrite H.
  change (is_nan 0) with false. cbn [orb].
  destruct (0 <? r) eqn:Hlt.
  - revert Hlt. rewrite FloatAxioms.ltb_spec, FloatAxioms.leb_spec.
    unfold SFltb, SFleb.
    destruct (SFcompare _ _) as [[]|]; congruence.
  - destruct (r <? 0); [reflexivity|].
    change (get_sign 0) with false. reflexivity.
Qed.

(** X25. A message can be marked read once, and only by its receiver.
    With unique message ids, the receiver's request marks the unread
    message read at the time of the request and sets the receiver's
    counter in the conversation to [max(0, counter - 1)], which is a
    number that is not negative; a second request for the same message,
    and any request by another user, gets 404 and changes nothing. *)
Theorem markRead_once now io user messageId chat m conversation :
  NoDup (map Message._id (messages chat)) ->
  In m (messages chat) ->
  Message._id m = messageId ->
  Message.receiver m = Some (User._id user) ->
  Message.isRead m = false ->
  findById Conversation._id (Message.conversation m) (conversations chat)
  = Some conversation ->
  List.length (Conversation.participants conversation) = 2%nat ->
  let result := markRead now io user messageId chat in
  let counter :=
    Math_max 0
      (or_zero (Map_get (User._id user) (Conversation.unreadCount conversation))
       - 1) in
  fst result
  = (if io then Status 200 "Message marked as read"
     else Failed "Error marking message as read"
            (JsError "Socket.IO not initialized"))
  /\ In (Message.read now m) (messages (snd result))
  /\ (exists conversation',
        findById Conversation._id (Message.conversation m)
          (conversations (snd result)) = Some conversation'
        /\ Map_get (User._id user) (Conversation.unreadCount conversation')
           = Some counter)
  /\ (0 <=? counter) = true
  /\ (forall now' io',
        markRead now' io' user messageId (snd result)
        = (Status 404 "Message not found or already read", snd result))
  /\ (forall other,
        User._id other <> User._id user ->
        markRead now io other messageId chat
        = (Status 404 "Message not found or already read", chat)).
Proof.
  intros Hu Hin Hid Hrecv Hunread Hfind Hlen result counter.
  pose proof (findById_id _ _ _ _ Hfind) as Hcid.
  set (marked := map (fun x => if (Message._id x =? messageId)%string
                               then Message.read now x else x) (messages chat)).
  assert (Hquery : forall who t0,
            findOneAndUpdate (unreadMessage messageId who) (Message.read t0)
              (messages chat)
            = if Message.isFor who m && negb (Message.isRead m)
              then (Some (Message.read t0 m),
                    map (fun x => if (Message._id x =? messageId)%string
                                  then Message.read t0 x else x) (messages chat))
              else (None, messages chat)).
  { intros who t0.
    rewrite <- (update_by_id Message._id (Message.read t0) messageId
                  (fun x => Message.isFor who x && negb (Message.isRead x))
                  (messages chat) m Hu Hin Hid).
    apply findOneAndUpdate_ext. intros x. unfold unreadMessage.
    now rewrite andb_assoc. }
  assert (Hself : Message.isFor (User._id user) m = true)
    by (unfold Message.isFor; now rewrite Hrecv, String.eqb_refl).
  set (conversation' :=
         set_unreadCount
           (Map_set (User._id user) counter (Conversation.unreadCount conversation))
           conversation).
  assert (Hrun : result
                 = (if io then Status 200 "Message marked as read"
                    else Failed "Error marking message as read"
                           (JsError "Socket.IO not initialized"),
                    {| conversations :=
                         store Conversation._id conversation' (conversations chat);
                       messages := marked |})).
  { subst result. unfold markRead.
    rewrite Hquery, Hself, Hunread. cbn [andb negb conversations messages].
    change (Message.conversation (Message.read now m))
      with (Message.conversation m).
    rewrite Hfind. fold counter. fold conversation'.
    rewrite (save_loaded conversation' _ conversation)
      by first [ exact Hlen
               | cbn [Conversation._id conversation' set_unreadCount];
                 now rewrite Hcid ].
    now destruct io. }
  rewrite Hrun. cbn [fst snd messages conversations].
  split; [reflexivity|]. split; [|split; [|split; [|split]]].
  - now apply In_updated.
  - exists conversation'. split; [|apply Map_get_set].
    rewrite <- Hcid. apply (found_after_save conversation' conversation).
    cbn [Conversation._id conversation' set_unreadCount]. now rewrite Hcid.
  - apply Math_max_0_ge, sub_1_not_nan, or_zero_not_nan.
  - intros now' io'. unfold markRead. cbn [messages].
    assert (Hu' : NoDup (map Message._id marked))
      by (unfold marked; now rewrite map_id_updated).
    rewrite (findOneAndUpdate_none (unreadMessage messageId (User._id user)));
      [reflexivity|].
    apply findOne_none. intros x Hx. unfold unreadMessage.
    destruct (String.eqb_spec (Message._id x) messageId) as [Hxid|_];
      [|reflexivity].
    assert (x = Message.read now m).
    { apply (same_id_same_doc Message._id marked); auto.
      - now apply In_updated.
      - now rewrite Hxid. }
    subst x. cbn. now rewrite andb_false_r.
  - intros other Hother. unfold markRead.
    rewrite Hquery.
    assert (Hnot : Message.isFor (User._id other) m = false).
    { unfold Message.isFor. rewrite Hrecv. apply String.eqb_neq.
      now apply not_eq_sym. }
    now rewrite Hnot.
Qed.

Lemma markRead_once_witness :
  fst (markRead 8000 true Sample.mike "message_1" Scenario.chat)
  = Status 200 "Message marked as read".
Proof.
  refine (proj1 (markRead_once 8000 true Sample.mike "message_1" Scenario.chat
                   (Scenario.offer false "pending") (Scenario.thread 1)
                   _ _ eq_refl eq_refl eq_refl eq_refl eq_refl)).
  - repeat constructor. simpl. tauto.
  - simpl. auto.
Defined.

Lemma between_sym a b c : between a b c = between b a c.
Proof. unfold between. apply andb_comm. Qed.

Lemma between_In a b c :
  between a b c = true
  <-> In a (Conversation.participants c) /\ In b (Conversation.participants c).
Proof.
  unfold between. rewrite andb_true_iff, !OrderRouteFacts.includes_In.
  reflexivity.
Qed.

Lemma findOne_appended {Doc : Type} (p : Doc -> bool) d c :
  findOne p c = None -> p d = true -> findOne p (c ++ [d]) = Some d.
Proof.
  unfold findOne. induction c as [|x c IH]; simpl.
  - intros _ ->. reflexivity.
  - destruct (p x); [discriminate|]. exact IH.
Qed.

(** X26. Starting a conversation is get-or-create.  With oneself it is
    refused with 400.  When a conversation of the two users exists, it is
    returned and nothing is stored.  Otherwise one conversation is
    appended, with exactly the caller and the other user as participants
    and no unread counter, and from then on the same request, from either
    of the two, returns that conversation and stores nothing more. *)
Theorem createConversation_gets_or_creates now newId user participantId chat :
  let result := createConversation now newId user participantId chat in
  (User._id user = participantId ->
   result = (Status 400 "Cannot create conversation with yourself", chat))
  /\ (User._id user <> participantId ->
      forall existing,
        In existing (conversations chat) ->
        In (User._id user) (Conversation.participants existing) ->
        In participantId (Conversation.participants existing) ->
        exists found,
          result = (TheConversation (Some found), chat)
          /\ In found (conversations chat)
          /\ In (User._id user) (Conversation.participants found)
          /\ In participantId (Conversation.participants found))
  /\ (User._id user <> participantId ->
      (forall c, In c (conversations chat) ->
                 ~ (In (User._id user) (Conversation.participants c)
                    /\ In participantId (Conversation.participants c))) ->
      findById Conversation._id newId (conversations chat) = None ->
      exists created,
        result
        = (TheConversation (Some created),
           {| conversations := conversations chat ++ [created];
              messages := messages chat |})
        /\ Conversation.participants created = [User._id user; participantId]
        /\ Conversation.unreadCount created = []
        /\ Conversation.lastMessage created = None
        /\ (forall now' newId',
              createConversation now' newId' user participantId (snd result)
              = (TheConversation (Some created), snd result))
        /\ (forall now' newId' other,
              User._id other = participantId ->
              createConversation now' newId' other (User._id user) (snd result)
              = (TheConversation (Some created), snd result))).
Proof.
  intros result. subst result. unfold createConversation.
  split; [|split].
  - intros ->. now rewrite String.eqb_refl.
  - intros Hne existing Hin Ha Hb. apply String.eqb_neq in Hne. rewrite Hne.
    destruct (findOne (between (User._id user) participantId) (conversations chat))
      as [found|] eqn:Hfound.
    + exists found. split; [reflexivity|].
      apply find_some in Hfound as (Hfin & Hboth).
      apply between_In in Hboth. tauto.
    + exfalso. apply (find_none _ _ Hfound) in Hin.
      assert (between (User._id user) participantId existing = true)
        by (apply between_In; tauto).
      congruence.
  - intros Hne Hnone Hnew. pose proof Hne as Hneb.
    apply String.eqb_neq in Hneb. rewrite Hneb.
    assert (Hfind : findOne (between (User._id user) participantId)
                      (conversations chat) = None).
    { apply findOne_none. intros c Hc.
      destruct (between (User._id user) participantId c) eqn:Hb; [|reflexivity].
      exfalso. apply (Hnone c Hc). now apply between_In. }
    rewrite Hfind.
    set (created :=
           {| Conversation._id := newId;
              Conversation.participants := [User._id user; participantId];
              Conversation.lastMessage := None;
              Conversation.lastActivity := now;
              Conversation.unreadCount := [] |}).
    assert (Hsave : Conversation.save created (conversations chat)
                    = inr (conversations chat ++ [created])).
    { unfold Conversation.save, Conversation.pre_save.
      cbn [created Conversation.participants Conversation._id List.length Nat.eqb negb].
      now rewrite Hnew. }
    rewrite Hsave.
    assert (Hlook : findById Conversation._id newId (conversations chat ++ [created])
                    = Some created).
    { change (conversations chat ++ [created])
        with (insert created (conversations chat)).
      rewrite findById_insert, Hnew. cbn [created Conversation._id].
      now rewrite String.eqb_refl. }
    rewrite Hlook. exists created. split; [reflexivity|].
    repeat (split; [reflexivity|]).
    assert (Hboth : between (User._id user) participantId created = true).
    { apply between_In. simpl. auto. }
    cbn [snd conversations]. split.
    + intros now' newId'. rewrite ?Hneb.
      now rewrite (findOne_appended _ created _ Hfind Hboth).
    + intros now' newId' other Hother. rewrite Hother.
      apply not_eq_sym, String.eqb_neq in Hne. rewrite Hne.
      assert (Hfind' : findOne (between participantId (User._id user))
                         (conversations chat) = None).
      { apply findOne_none. intros c Hc. rewrite between_sym.
        exact (find_none _ _ Hfind c Hc). }
      rewrite (findOne_appended _ created _ Hfind');
        [reflexivity|now rewrite between_sym].
Qed.

Lemma createConversation_gets_or_creates_witness :
  createConversation 1000 "conversation_1" Sample.mike "mike_client"
    Scenario.nobody
  = (Status 400 "Cannot create conversation with yourself", Scenario.nobody).
Proof.
  exact (proj1 (createConversation_gets_or_creates 1000 "conversation_1"
                  Sample.mike "mike_client" Scenario.nobody) eq_refl).
Defined.

Lemma invalidPaths_accepted m :
  Message.invalidPaths m = [] ->
  Message.invalidPaths (Message.set_offerStatus "accepted" m) = [].
Proof.
  unfold Message.invalidPaths. intros H.
  apply app_eq_nil in H as (Hr & H).
  apply app_eq_nil in H as (Hc & H).
  apply app_eq_nil in H as (Ht & _).
  cbn -[includes String.eqb String.length Nat.ltb]. rewrite Hr, Hc, Ht.
  reflexivity.
Qed.

(** X27. A custom offer can be accepted once, by its receiver only.
    Anyone else gets 403, a message that is not a custom offer 400, and
    an offer that is not pending 400.  The receiver's request on a pending
    offer sets its status to [accepted] and changes nothing else, after
    which the same request is refused with 400. *)
Theorem acceptOffer_once user messageId chat m :
  findById Message._id messageId (messages chat) = Some m ->
  let result := acceptOffer user messageId chat in
  (Message.receiver m <> Some (User._id user) ->
   result = (Status 403 "Not authorized", chat))
  /\ (Message.receiver m = Some (User._id user) ->
      (Message.messageType m <> "custom_offer"%string ->
       result = (Status 400 "Not a custom offer message", chat))
      /\ (Message.messageType m = "custom_offer"%string ->
          (Message.offerStatus m <> "pending"%string ->
           result = (Status 400 "Offer is no longer available", chat))
          /\ (Message.offerStatus m = "pending"%string ->
              Message.invalidPaths m = [] ->
              fst result = Status 200 "Offer accepted"
              /\ findById Message._id messageId (messages (snd result))
                 = Some (Message.set_offerStatus "accepted" m)
              /\ map Message._id (messages (snd result))
                 = map Message._id (messages chat)
              /\ conversations (snd result) = conversations chat
              /\ acceptOffer user messageId (snd result)
                 = (Status 400 "Offer is no longer available", snd result)))).
Proof.
  intros Hfind result. subst result.
  pose proof (findById_id _ _ _ _ Hfind) as Hid.
  unfold acceptOffer. rewrite Hfind. split.
  - intros Hother. unfold Message.isFor.
    destruct (Message.receiver m) as [r|]; [|reflexivity].
    destruct (String.eqb_spec r (User._id user)) as [->|_]; [|reflexivity].
    now contradiction Hother.
  - intros Hrecv.
    assert (Hself : Message.isFor (User._id user) m = true)
      by (unfold Message.isFor; now rewrite Hrecv, String.eqb_refl).
    rewrite Hself. cbn [negb]. split.
    + intros Htype. apply String.eqb_neq in Htype. now rewrite Htype.
    + intros Htype. rewrite Htype, String.eqb_refl. cbn [negb]. split.
      * intros Hstatus. apply String.eqb_neq in Hstatus. now rewrite Hstatus.
      * intros Hstatus Hvalid. rewrite Hstatus, String.eqb_refl. cbn [negb].
        unfold Message_save. rewrite (invalidPaths_accepted _ Hvalid).
        cbn [fst snd messages conversations].
        assert (Hagain : findById Message._id messageId
                           (store Message._id
                              (Message.set_offerStatus "accepted" m)
                              (messages chat))
                         = Some (Message.set_offerStatus "accepted" m)).
        { rewrite <- Hid.
          apply (findById_store Message._id
                   (Message.set_offerStatus "accepted" m)).
          change (Message._id (Message.set_offerStatus "accepted" m))
            with (Message._id m).
          rewrite Hid, Hfind. discriminate. }
        split; [reflexivity|]. split; [exact Hagain|].
        split; [apply map_id_store|]. split; [reflexivity|].
        rewrite Hagain.
        change (Message.isFor (User._id user)
                  (Message.set_offerStatus "accepted" m))
          with (Message.isFor (User._id user) m).
        rewrite Hself. cbn [negb Message.messageType Message.set_offerStatus].
        rewrite Htype, String.eqb_refl. reflexivity.
Qed.

Lemma acceptOffer_once_witness :
  fst (acceptOffer Sample.mike "message_1" Scenario.chat)
  = Status 200 "Offer accepted".
Proof.
  exact (proj1 (proj2 (proj2 (proj2 (acceptOffer_once Sample.mike "message_1"
                                       Scenario.chat
                                       (Scenario.offer false "pending") eq_refl)
                                eq_refl)
                         eq_refl)
                  eq_refl eq_refl)).
Defined.

End MessageFacts.

(** ** Reading an order *)

Module OrderViewFacts.
Import OrderView.

(** X28. An order is shown to its buyer and its seller and to nobody
    else: the answer carries an order only if it is the stored order of
    that id and the caller is one of its two parties, and with both user
    documents in place each party does get it.  When the buyer's user
    document is gone, the request fails with 500 for everyone, the seller
    included. *)
Theorem getOrder_shows_to_parties_only user id w :
  (forall order,
      getOrder user id w = TheOrder order ->
      findById Order._id id (orders w) = Some order
      /\ (Order.buyer order = User._id user \/ Order.seller order = User._id user))
  /\ (forall order buyer seller,
        findById Order._id id (orders w) = Some order ->
        findById User._id (Order.buyer order) (users w) = Some buyer ->
        findById User._id (Order.seller order) (users w) = Some seller ->
        (Order.buyer order = User._id user \/ Order.seller order = User._id user ->
         getOrder user id w = TheOrder order)
        /\ (Order.buyer order <> User._id user ->
            Order.seller order <> User._id user ->
            getOrder user id w
            = Refused (Json 403 "Not authorized to view this order")))
  /\ (forall order,
        findById Order._id id (orders w) = Some order ->
        findById User._id (Order.buyer order) (users w) = None ->
        getOrder user id w = Refused (Failure "Error fetching order" TypeError)).
Proof.
  unfold getOrder. split; [|split].
  - intros order.
    destruct (findById Order._id id (orders w)) as [o|]; [|discriminate].
    destruct (findById User._id (Order.buyer o) (users w)) as [b|] eqn:Hb;
      [|discriminate].
    apply findById_id in Hb.
    destruct (String.eqb_spec (User._id b) (User._id user)) as [Eb|_].
    + intros [= ->]. split; [reflexivity|]. left. congruence.
    + destruct (findById User._id (Order.seller o) (users w)) as [s|] eqn:Hs;
        [|discriminate].
      apply findById_id in Hs.
      destruct (String.eqb_spec (User._id s) (User._id user)) as [Es|_];
        [|discriminate].
      intros [= ->]. split; [reflexivity|]. right. congruence.
  - intros order buyer seller -> Hb Hs. rewrite Hb, Hs.
    apply findById_id in Hb, Hs. rewrite Hb, Hs. split.
    + intros [-> | ->]; rewrite String.eqb_refl; [reflexivity|].
      now destruct (Order.buyer order =? User._id user).
    + intros Hnb Hns. apply String.eqb_neq in Hnb, Hns. now rewrite Hnb, Hns.
  - intros order -> ->. reflexivity.
Qed.

Lemma getOrder_shows_to_parties_only_witness :
  getOrder Sample.john "order_1" (Sample.withOrder (Sample.orderIn "pending"))
  = TheOrder (Sample.orderIn "pending").
Proof.
  exact (proj1 (proj1 (proj2 (getOrder_shows_to_parties_only Sample.john "order_1"
                                (Sample.withOrder (Sample.orderIn "pending"))))
                  (Sample.orderIn "pending") Sample.mike Sample.john
                  eq_refl eq_refl eq_refl)
           (or_intror eq_refl)).
Defined.

End OrderViewFacts.

(** ** From checkout to completion *)

Module JourneyFacts.
Import Orders Payments Outcome LifecycleFacts LifetimeFacts OrderRouteFacts
  PaymentRouteFacts.

Lemma updateStatus_in_progress_run now user id w order :
  findById Order._id id (orders w) = Some order ->
  Order.seller order = User._id user ->
  transitionAllowed (Order.status order) "in_progress" = true ->
  Order.invalidPaths order = [] ->
  updateStatus now user id "in_progress" w
  = (Failure "Error updating order status"
       (ValidationError "Notification" ["type"]),
     set_orders
       (store Order._id (Order.set_status "in_progress" order) (orders w)) w).
Proof.
  intros Hfind Hseller Hguard Hvalid.
  unfold updateStatus, try_catch, bind, Order_findById.
  rewrite Hfind, Hseller, String.eqb_refl, Hguard. cbn [negb].
  assert (Hsave : Order.invalidPaths (Order.set_status "in_progress" order) = [])
    by (apply (invalidPaths_same order); try reflexivity; exact Hvalid).
  eval_handler. unfold Order_save_while, Order_save. rewrite Hsave. reflexivity.
Qed.

(** X29. A paid order runs to completion.  After a successful checkout,
    let the webhook confirm the payment, the seller start the work,
    deliver, and the buyer accept.  The start is answered with 500 (its
    notification has no valid type) and so is the delivery (a first
    delivery, whose [save] by the handler is rejected as a parallel save),
    but both are stored, and the acceptance succeeds: the order ends
    completed and paid, with the one delivery, its deadline and the time
    of the acceptance, the seller has been credited
    [price - round(price * 0.20, 2)] for the price of the package, with one
    more completed order, and the gig counts one more order. *)
Theorem paid_order_runs_to_completion now newId stripe buyer gigId packageType w
    sessionId orderId event intent gig packageDetails seller sellerDoc
    started delivered accepted message files :
  fst (createCheckoutSession now newId stripe buyer gigId packageType w)
  = Checkout sessionId orderId ->
  findOne (bySession sessionId) (orders w) = None ->
  Stripe.id event = sessionId ->
  Stripe.payment_intent event = Some intent ->
  intent <> "" ->
  findById Gig._id gigId (gigs w) = Some gig ->
  pricingOf gig packageType = Some packageDetails ->
  User._id seller = Gig.freelancer gig ->
  findById User._id (Gig.freelancer gig) (users w) = Some sellerDoc ->
  let w1 := snd (createCheckoutSession now newId stripe buyer gigId packageType w) in
  let w2 := snd (webhook (completed event) w1) in
  let w3 := snd (updateStatus started seller orderId "in_progress" w2) in
  let w4 := snd (deliver delivered seller orderId message files w3) in
  let w5 := snd (accept accepted buyer orderId w4) in
  fst (webhook (completed event) w1) = Received
  /\ fst (updateStatus started seller orderId "in_progress" w2)
     = Failure "Error updating order status"
         (ValidationError "Notification" ["type"])
  /\ fst (deliver delivered seller orderId message files w3)
     = Failure "Error delivering order" (ParallelSaveError "Order")
  /\ fst (accept accepted buyer orderId w4) = Json 200 "Order accepted successfully"
  /\ (exists order,
        findById Order._id orderId (orders w5) = Some order
        /\ Order.status order = "completed"
        /\ Order.paymentStatus order = "paid"
        /\ Order.completedAt order = Some accepted
        /\ Order.deliveries order
           = [ {| Delivery.message := message;
                  Delivery.files := files;
                  Delivery.deliveredAt := delivered |} ]
        /\ Order.autoCompleteAt order = Some (delivered + three_days)%Z
        /\ Order.netAmount order = Spec.netAmount (Package.price packageDetails))
  /\ (exists seller',
        findById User._id (User._id seller) (users w5) = Some seller'
        /\ User.totalEarnings seller'
           = (User.totalEarnings sellerDoc
              + Spec.netAmount (Package.price packageDetails))%float
        /\ User.completedOrders seller'
           = (User.completedOrders sellerDoc + 1)%float)
  /\ (exists gig',
        findById Gig._id gigId (gigs w5) = Some gig'
        /\ Gig.totalOrders gig' = (Gig.totalOrders gig + 1)%float).
Proof.
  intros Hresp Hfresh Hevent Hintent Hnonempty Hgig Hprice Hseller HsellerDoc
    w1 w2 w3 w4 w5.
  destruct (checkout_inversion _ _ _ _ _ _ _ _ _ Hresp)
    as (session & gig0 & freelancer & details0 & Hs & Hsid & -> & Hg & Ha
        & Hp & Hf & Hne & Hprice0 & Hnew & Hchecked & Hw1).
  rewrite Hgig in Hg. injection Hg as <-.
  rewrite Hprice in Hprice0. injection Hprice0 as <-.
  rewrite HsellerDoc in Hf. injection Hf as <-.
  pose proof (findById_id _ _ _ _ HsellerDoc) as Hsid'.
  set (o0 := checkoutOrder now newId (User._id buyer) (User._id sellerDoc)
               gigId packageType packageDetails session) in *.
  assert (Hpack := pricingOf_enum _ _ _ Hprice).
  (* the checkout *)
  assert (Ho1 : orders w1 = insert o0 (orders w)) by (unfold w1; now rewrite Hw1).
  assert (Hu1 : users w1 = users w) by (unfold w1; now rewrite Hw1).
  assert (Hg1 : gigs w1 = gigs w) by (unfold w1; now rewrite Hw1).
  assert (Hfind1 : findById Order._id newId (orders w1) = Some o0).
  { rewrite Ho1, findById_insert, Hnew. cbn [o0 Order._id]. 
    change (Order._id o0) with newId. now rewrite String.eqb_refl. }
  (* the webhook *)
  set (o2 := paidOrder event o0).
  destruct (invalidPaths_nil _ Hchecked) as (_ & _ & Ht & Hfee & Hnet & _).
  assert (Hv2 : Order.invalidPaths o2 = []).
  { apply (invalidPaths_of _ gigId intent); try assumption;
      try reflexivity; discriminate. }
  assert (Hby : findOne (bySession (Stripe.id event)) (orders w1) = Some o0).
  { rewrite Ho1, findOne_insert, Hevent, Hfresh.
    unfold bySession. cbn. now rewrite Hsid, String.eqb_refl. }
  assert (Hrun2 := WebhookFacts.webhook_first event w1 o0 Hby
                     ltac:(cbn; discriminate) Hv2).
  assert (Ho2 : orders w2 = store Order._id o2 (orders w1))
    by (unfold w2; now rewrite Hrun2).
  assert (Hu2 : users w2 = users w) by (unfold w2; now rewrite Hrun2).
  assert (Hg2 : gigs w2 = gigs w) by (unfold w2; now rewrite Hrun2).
  assert (Hfind2 : findById Order._id newId (orders w2) = Some o2)
    by (rewrite Ho2; now apply (found_after_store newId o0)).
  (* the start of the work *)
  set (o3 := Order.set_status "in_progress" o2).
  assert (Hrun3 := updateStatus_in_progress_run started seller newId w2 o2 Hfind2
                     ltac:(cbn; congruence) eq_refl Hv2).
  assert (Hv3 : Order.invalidPaths o3 = [])
    by (apply (invalidPaths_same o2); try reflexivity; exact Hv2).
  assert (Ho3 : orders w3 = store Order._id o3 (orders w2))
    by (unfold w3; now rewrite Hrun3).
  assert (Hu3 : users w3 = users w) by (unfold w3; now rewrite Hrun3).
  assert (Hg3 : gigs w3 = gigs w) by (unfold w3; now rewrite Hrun3).
  assert (Hfind3 : findById Order._id newId (orders w3) = Some o3)
    by (rewrite Ho3; now apply (found_after_store newId o2)).
  (* the delivery *)
  set (o4 := deliveredOrder delivered message files o3).
  assert (Hrun4 :
    deliver delivered seller newId message files w3
    = (Failure "Error delivering order" (ParallelSaveError "Order"),
       set_orders (store Order._id o4 (orders w3)) w3))
    by exact (deliver_run delivered seller newId message files w3 o3 Hfind3
                ltac:(cbn; congruence) eq_refl Hv3).
  assert (Hv4 : Order.invalidPaths o4 = [])
    by (apply (invalidPaths_dated o3 o4 delivered); try reflexivity; exact Hv3).
  assert (Ho4 : orders w4 = store Order._id o4 (orders w3))
    by (unfold w4; now rewrite Hrun4).
  assert (Hu4 : users w4 = users w) by (unfold w4; now rewrite Hrun4).
  assert (Hg4 : gigs w4 = gigs w) by (unfold w4; now rewrite Hrun4).
  assert (Hfind4 : findById Order._id newId (orders w4) = Some o4)
    by (rewrite Ho4; now apply (found_after_store newId o3)).
  (* the acceptance *)
  assert (Hrun5 := accept_run accepted buyer newId w4 o4 Hfind4 eq_refl eq_refl Hv4).
  split; [unfold w2 in *; now rewrite Hrun2|].
  split; [now rewrite Hrun3|].
  split; [now rewrite Hrun4|].
  split; [now rewrite Hrun5|].
  unfold w5. rewrite Hrun5. cbn [snd].
  split; [|split].
  - exists (completedOrder accepted o4). split.
    + cbn [orders set_orders set_notifications].
      now apply (found_after_store newId o4).
    + repeat split.
      apply (FeeFacts.newCheckoutOrder_netAmount now newId (User._id buyer)
               (User._id sellerDoc) gigId packageType packageDetails).
  - cbn [users set_orders set_notifications].
    change (Order.gig o4) with (Some gigId).
    cbn [Gig_countOrder snd users set_gigs User_credit set_users].
    change (Order.seller o4) with (User._id sellerDoc).
    rewrite Hu4, Hseller, <- Hsid'.
    rewrite findById_updateById by reflexivity.
    rewrite Hsid', HsellerDoc. cbn [option_map].
    eexists. split; [reflexivity|]. split; [|reflexivity].
    cbn [User.totalEarnings]. f_equal.
    apply (FeeFacts.newCheckoutOrder_netAmount now newId (User._id buyer)
             (User._id sellerDoc) gigId packageType packageDetails).
  - cbn [gigs set_orders set_notifications].
    change (Order.gig o4) with (Some gigId).
    cbn [Gig_countOrder snd gigs set_gigs User_credit set_users].
    rewrite Hg4, findById_updateById by reflexivity.
    rewrite Hgig. cbn [option_map]. eexists. split; reflexivity.
Qed.

Lemma paid_order_runs_to_completion_witness :
  fst (accept 5000 Sample.mike "order_1"
         (snd (deliver 4000 Sample.john "order_1" "Here is the website" []
                 (snd (updateStatus 3000 Sample.john "order_1" "in_progress"
                         (snd (webhook (completed Sample.session)
                                 (snd (createCheckoutSession 1000 "order_1"
                                         (Stripe.Answers (Some Sample.session))
                                         Sample.mike "gig_website" "basic"
                                         Sample.empty)))))))))
  = Json 200 "Order accepted successfully".
Proof.
  assert (Hresp : fst (createCheckoutSession 1000 "order_1"
                         (Stripe.Answers (Some Sample.session)) Sample.mike
                         "gig_website" "basic" Sample.empty)
                  = Checkout "cs_test_1" "order_1") by (vm_compute; reflexivity).
  assert (Hne : "pi_1" <> "") by discriminate.
  exact (proj1 (proj2 (proj2 (proj2
           (paid_order_runs_to_completion 1000 "order_1"
              (Stripe.Answers (Some Sample.session)) Sample.mike "gig_website"
              "basic" Sample.empty "cs_test_1" "order_1" Sample.session "pi_1"
              Sample.website Sample.basic Sample.john Sample.john 3000 4000 5000
              "Here is the website" [] Hresp eq_refl eq_refl eq_refl Hne eq_refl
              eq_refl eq_refl eq_refl))))).
Defined.

Lemma success_run plusDays now session sessionId w order :
  Stripe.payment_status session = "paid" ->
  findOne (bySession sessionId) (orders w) = Some order ->
  Order.invalidPaths (paidBySuccess plusDays now session order) = [] ->
  success plusDays now (Stripe.Answers (Some session)) sessionId w
  = (Json 200 "Payment successful",
     set_notifications
       (notifications w
          ++ [ {| Notification.recipient := Order.seller order;
                  Notification.sender := Some (Order.buyer order);
                  Notification.type := "new_order";
                  Notification.title := "New Order Received";
                  Notification.message :=
                    "You have a new order for "
                      ++ Package.title (Order.packageDetails order);
                  Notification.orderId := Some (Order._id order);
                  Notification.isRead := false |};
               {| Notification.recipient := Order.buyer order;
                  Notification.sender := None;
                  Notification.type := "payment_received";
                  Notification.title := "Payment Successful";
                  Notification.message :=
                    "Your payment for "
                      ++ Package.title (Order.packageDetails order)
                      ++ " was successful";
                  Notification.orderId := Some (Order._id order);
                  Notification.isRead := false |} ])
       (set_orders
          (store Order._id (paidBySuccess plusDays now session order) (orders w))
          w)).
Proof.
  intros Hpaid Hfind Hvalid.
  unfold success, try_catch, bind, stripe_call, Order_findOne.
  eval_handler.
  rewrite Hpaid, String.eqb_refl. eval_handler. rewrite Hfind.
  unfold Order_save. fold (paidBySuccess plusDays now session order).
  rewrite Hvalid.
  unfold Promise_all2, createNotification, Notification.invalidPaths.
  eval_handler. unfold insert. rewrite <- app_assoc. reflexivity.
Qed.

Lemma invalidPaths_paidBySuccess plusDays now session order intent due :
  Order.invalidPaths order = [] ->
  Stripe.payment_intent session = Some intent -> intent <> "" ->
  setDate plusDays now (Package.deliveryTime (Order.packageDetails order))
  = At due ->
  Order.invalidPaths (paidBySuccess plusDays now session order) = [].
Proof.
  intros H Hintent Hne Hdue.
  destruct (invalidPaths_nil _ H)
    as ((gigId & Hg) & Hp & Ht & Hf & Hn & _ & _ & _ & _).
  apply (invalidPaths_of _ gigId intent); try assumption; try reflexivity.
  cbn [paidBySuccess Order.deliveryDate Order.set_deliveryDate].
  rewrite Hdue. discriminate.
Qed.

(** X30. A completed order can be reopened and paid out again.  The
    success route has no guard on the state of the order, so a replay of
    the success page of its session, for a package whose delivery time
    gives a valid date, puts a completed order back to
    [requirements_pending]; the seller can then start, deliver and
    complete it alone, and the last step credits the seller the net
    amount of the order once more, and counts one more completed order,
    for the one payment.  The delivery in between is answered 200 when
    the order has its deadline, as an order that has been delivered
    before has, and 500 otherwise; it is stored in both cases. *)
Theorem success_replay_pays_out_again plusDays replayed started delivered again
    seller sessionId session intent due orderId w order sellerDoc message files :
  findOne (bySession sessionId) (orders w) = Some order ->
  findById Order._id orderId (orders w) = Some order ->
  Order.status order = "completed" ->
  Order.invalidPaths order = [] ->
  Stripe.payment_status session = "paid" ->
  Stripe.payment_intent session = Some intent ->
  intent <> "" ->
  setDate plusDays replayed (Package.deliveryTime (Order.packageDetails order))
  = At due ->
  Order.seller order = User._id seller ->
  findById User._id (User._id seller) (users w) = Some sellerDoc ->
  let w1 := snd (success plusDays replayed (Stripe.Answers (Some session))
                   sessionId w) in
  let w2 := snd (updateStatus started seller orderId "in_progress" w1) in
  let w3 := snd (deliver delivered seller orderId message files w2) in
  let w4 := snd (updateStatus again seller orderId "completed" w3) in
  fst (success plusDays replayed (Stripe.Answers (Some session)) sessionId w)
  = Json 200 "Payment successful"
  /\ (exists reopened,
        findById Order._id orderId (orders w1) = Some reopened
        /\ Order.status reopened = "requirements_pending")
  /\ fst (deliver delivered seller orderId message files w2)
     = match Order.autoCompleteAt order with
       | Some _ => Json 200 "Order delivered successfully"
       | None => Failure "Error delivering order" (ParallelSaveError "Order")
       end
  /\ fst (updateStatus again seller orderId "completed" w3)
     = Json 200 "Order status updated successfully"
  /\ (exists order',
        findById Order._id orderId (orders w4) = Some order'
        /\ Order.status order' = "completed"
        /\ Order.completedAt order' = Some again)
  /\ (exists seller',
        findById User._id (User._id seller) (users w4) = Some seller'
        /\ User.totalEarnings seller'
           = (User.totalEarnings sellerDoc + Order.netAmount order)%float
        /\ User.completedOrders seller'
           = (User.completedOrders sellerDoc + 1)%float).
Proof.
  intros Hby Hfind Hstatus Hvalid Hpaid Hintent Hnonempty Hdue Hseller
    HsellerDoc w1 w2 w3 w4.
  set (o1 := paidBySuccess plusDays replayed session order).
  assert (Hv1 : Order.invalidPaths o1 = [])
    by (now apply invalidPaths_paidBySuccess with intent due).
  assert (Hrun1 := success_run plusDays replayed session sessionId w order
                     Hpaid Hby Hv1).
  assert (Ho1 : orders w1 = store Order._id o1 (orders w))
    by (unfold w1; now rewrite Hrun1).
  assert (Hu1 : users w1 = users w) by (unfold w1; now rewrite Hrun1).
  assert (Hfind1 : findById Order._id orderId (orders w1) = Some o1)
    by (rewrite Ho1; now apply (found_after_store orderId order)).
  set (o2 := Order.set_status "in_progress" o1).
  assert (Hrun2 := updateStatus_in_progress_run started seller orderId w1 o1
                     Hfind1 Hseller eq_refl Hv1).
  assert (Hv2 : Order.invalidPaths o2 = [])
    by (apply (invalidPaths_same o1); try reflexivity; exact Hv1).
  assert (Ho2 : orders w2 = store Order._id o2 (orders w1))
    by (unfold w2; now rewrite Hrun2).
  assert (Hu2 : users w2 = users w) by (unfold w2; now rewrite Hrun2).
  assert (Hfind2 : findById Order._id orderId (orders w2) = Some o2)
    by (rewrite Ho2; now apply (found_after_store orderId o1)).
  set (o3 := deliveredOrder delivered message files o2).
  assert (Hrun3 := deliver_run delivered seller orderId message files w2 o2
                     Hfind2 Hseller eq_refl Hv2).
  change (Order.autoCompleteAt o2) with (Order.autoCompleteAt order) in Hrun3.
  assert (Hid3 : Order._id o3 = Order._id o2) by apply deliveredOrder_id.
  assert (Hs3 : Order.status o3 = "delivered")
    by (unfold o3, deliveredOrder; now destruct (Order.autoCompleteAt o2)).
  assert (Hseller3 : Order.seller o3 = User._id seller)
    by (unfold o3, deliveredOrder; now destruct (Order.autoCompleteAt o2)).
  assert (Hnet3 : Order.netAmount o3 = Order.netAmount order)
    by (unfold o3, deliveredOrder; now destruct (Order.autoCompleteAt o2)).
  assert (Hv3 : Order.invalidPaths o3 = []).
  { apply (invalidPaths_dated o2 o3 delivered); try exact Hv2;
      unfold o3, deliveredOrder; now destruct (Order.autoCompleteAt o2). }
  assert (Ho3 : orders w3 = store Order._id o3 (orders w2))
    by (unfold w3; rewrite Hrun3;
        now destruct (Order.autoCompleteAt order)).
  assert (Hu3 : users w3 = users w)
    by (unfold w3; rewrite Hrun3;
        now destruct (Order.autoCompleteAt order)).
  assert (Hfind3 : findById Order._id orderId (orders w3) = Some o3)
    by (rewrite Ho3; now apply (found_after_store orderId o2)).
  assert (Hrun4 := updateStatus_completed_run again seller orderId w3 o3 Hfind3
                     Hseller3 Hs3 Hv3).
  split; [now rewrite Hrun1|].
  split; [exists o1; split; [exact Hfind1|reflexivity]|].
  split; [rewrite Hrun3; now destruct (Order.autoCompleteAt order)|].
  split; [now rewrite Hrun4|].
  unfold w4. rewrite Hrun4. cbn [snd]. split.
  - exists (completedOrder again o3). split; [|split; reflexivity].
    cbn [orders set_orders set_notifications].
    now apply (found_after_store orderId o3).
  - assert (HGu : forall i w0, users (snd (Gig_countOrder i w0)) = users w0)
      by (intros [?|] ?; reflexivity).
    cbn [users set_orders set_notifications]. rewrite HGu.
    cbn [User_credit snd users set_users].
    rewrite Hu3, Hseller3, Hnet3.
    rewrite findById_updateById by reflexivity.
    rewrite HsellerDoc. cbn [option_map].
    eexists. split; [reflexivity|]. split; reflexivity.
Qed.

Lemma success_replay_pays_out_again_witness :
  fst (updateStatus 400003000 Sample.john "order_1" "completed"
         (snd (deliver 400002000 Sample.john "order_1" "Once more" []
                 (snd (updateStatus 400001000 Sample.john "order_1" "in_progress"
                         (snd (success Sample.utc 400000000
                                 (Stripe.Answers (Some Sample.session))
                                 "cs_test_1"
                                 (Sample.withOrder
                                    (Order.set_status "completed"
                                       Sample.inRevision)))))))))
  = Json 200 "Order status updated successfully".
Proof.
  assert (Hne : "pi_1" <> "") by discriminate.
  exact (proj1 (proj2 (proj2 (proj2
           (success_replay_pays_out_again Sample.utc 400000000 400001000
              400002000 400003000
              Sample.john "cs_test_1" Sample.session "pi_1" 1004800000%Z
              "order_1"
              (Sample.withOrder (Order.set_status "completed" Sample.inRevision))
              (Order.set_status "completed" Sample.inRevision) Sample.john
              "Once more" []
              eq_refl eq_refl eq_refl eq_refl eq_refl eq_refl Hne eq_refl
              eq_refl eq_refl))))).
Defined.

End JourneyFacts.
